(** * nexus-answers: a shallow embedding of the chat assistant's glue code

    The repository is TypeScript: three edge functions that forward a chat
    request to an upstream provider, a browser-side authentication client
    and API client, and a React hook that accumulates analytics.  This file
    embeds the functions the specification talks about and proves (or
    refutes) its testable properties.

    Conventions of the embedding:
    - a JavaScript value that comes out of [JSON.parse] or [response.json()]
      is a [value]; numbers are integers (token counts, status codes and
      epoch milliseconds are integral and far below 2^53) plus [VNaN]; a
      string is the sequence of its code units;
    - the request of an edge function and the arguments of the client
      functions have the shape their TypeScript interfaces declare;
    - code that can throw returns an [outcome]; browser code that reads and
      writes storage runs in the state monad [M] over a [World];
    - platform functions whose text is not part of the repository
      ([JSON.parse], [JSON.stringify], the numeric coercion of strings and
      objects, date formatting) are parameters of the definitions. *)

From stdpp Require Import base strings list gmap pretty.
From Stdlib Require Import Ascii String ZArith QArith Qround Lia.

Set Warnings "-register-all".

Local Open Scope string_scope.
Local Open Scope Z_scope.

(** ** JavaScript values *)

Module JS.

Inductive value : Type :=
| VUndefined
| VNull
| VBool (b : bool)
| VNum (n : Z)
| VNaN
| VStr (s : string)
| VArr (xs : list value)
| VObj (fields : list (string * value))
| VFun (name : string).

Inductive exn : Type :=
| Error (message : string)
| TypeError (message : string)
| SyntaxError (message : string)
| RangeError (message : string).

Definition exn_message (e : exn) : string :=
  match e with Error m | TypeError m | SyntaxError m | RangeError m => m end.

Inductive outcome (A : Type) : Type :=
| Ok (a : A)
| Throw (e : exn).
Arguments Ok {A} a.
Arguments Throw {A} e.

#[global] Instance outcome_ret : MRet outcome := fun _ a => Ok a.
#[global] Instance outcome_bind : MBind outcome := fun _ _ f m =>
  match m with Ok a => f a | Throw e => Throw e end.

(** [try { body } catch { handler }] *)
Definition try_catch {A} (body : outcome A) (handler : exn -> outcome A) : outcome A :=
  match body with Ok a => Ok a | Throw e => handler e end.

(** ToBoolean. *)
Definition truthy (v : value) : bool :=
  match v with
  | VUndefined | VNull | VNaN => false
  | VBool b => b
  | VNum n => negb (n =? 0)
  | VStr s => negb (String.eqb s "")
  | VArr _ | VObj _ | VFun _ => true
  end.

(** [a || b] *)
Definition or_else (a b : value) : value := if truthy a then a else b.

(** The function-valued properties every ordinary object inherits from
    [Object.prototype] ([__proto__], which the edge runtime deletes, is not
    among them). *)
Definition Object_prototype_keys : list string :=
  [ "constructor"; "hasOwnProperty"; "isPrototypeOf"; "propertyIsEnumerable";
    "toLocaleString"; "toString"; "valueOf";
    "__defineGetter__"; "__defineSetter__"; "__lookupGetter__"; "__lookupSetter__" ].

Definition inherited (k : string) : value :=
  if bool_decide (k ∈ Object_prototype_keys)
  then VFun (if String.eqb k "constructor" then "Object" else k)
  else VUndefined.

Fixpoint own (k : string) (fields : list (string * value)) : option value :=
  match fields with
  | [] => None
  | (k', v) :: rest => if String.eqb k k' then Some v else own k rest
  end.

(** [o[k]] on an ordinary object: own property first, then the prototype. *)
Definition lookup_obj (fields : list (string * value)) (k : string) : value :=
  match own k fields with
  | Some v => v
  | None => inherited k
  end.

(** [o.k] for the property names the program reads.  Reading a property of
    [null] or [undefined] throws; primitives other than strings have none of
    these properties; strings and arrays have [length]. *)
Definition get (o : value) (k : string) : outcome value :=
  match o with
  | VUndefined | VNull =>
      Throw (TypeError ("Cannot read properties of " ++
                        (if o is VNull then "null" else "undefined") ++
                        " (reading '" ++ k ++ "')"))
  | VObj fields => Ok (lookup_obj fields k)
  | VStr s => Ok (if String.eqb k "length" then VNum (Z.of_nat (String.length s)) else VUndefined)
  | VArr xs => Ok (if String.eqb k "length" then VNum (Z.of_nat (List.length xs)) else VUndefined)
  | VBool _ | VNum _ | VNaN | VFun _ => Ok VUndefined
  end.

(** [o?.k] *)
Definition get_opt (o : value) (k : string) : value :=
  match o with
  | VUndefined | VNull => VUndefined
  | _ => match get o k with Ok v => v | Throw _ => VUndefined end
  end.

(** [o?.[0]] *)
Definition first_opt (o : value) : value :=
  match o with
  | VArr (x :: _) => x
  | VStr (String c _) => VStr (String c "")
  | VObj fields => lookup_obj fields "0"
  | _ => VUndefined
  end.

(** [k in o]: a [TypeError] when [o] is not an object. *)
Definition has_property (k : string) (o : value) : outcome bool :=
  match o with
  | VObj fields => Ok (bool_decide (is_Some (own k fields)) || bool_decide (k ∈ Object_prototype_keys))
  | VArr xs => Ok (String.eqb k "length")
  | VFun _ => Ok (bool_decide (k ∈ Object_prototype_keys))
  | _ => Throw (TypeError ("Cannot use 'in' operator to search for '" ++ k ++ "'"))
  end.

(** [typeof v === "object" && v !== null] *)
Definition is_object (v : value) : bool :=
  match v with VObj _ | VArr _ => true | _ => false end.

(** [typeof v === "string"] *)
Definition is_string (v : value) : bool :=
  match v with VStr _ => true | _ => false end.

Section Coercions.
(** ToNumber on strings, arrays, objects and functions (StringToNumber
    after ToPrimitive); [None] is NaN. *)
Variable coerce : value -> option Z.

Definition to_number (v : value) : option Z :=
  match v with
  | VUndefined | VNaN => None
  | VNull => Some 0
  | VBool b => Some (if b then 1 else 0)
  | VNum n => Some n
  | _ => coerce v
  end.

(** [a < n], [a >= n] against a number: comparisons with NaN are false. *)
Definition lt_num (a : value) (n : Z) : bool :=
  match to_number a with Some x => x <? n | None => false end.

Definition ge_num (a : value) (n : Z) : bool :=
  match to_number a with Some x => n <=? x | None => false end.

(** [a - n] *)
Definition sub_num (a : value) (n : Z) : option Z :=
  match to_number a with Some x => Some (x - n) | None => None end.
End Coercions.

Section Text.
(** ToString of an array or object inside a template literal, an
    [Error] message or an argument of [JSON.parse]. *)
Variable display : value -> string.

Definition to_string (v : value) : string :=
  match v with
  | VStr s => s
  | VNum n => pretty n
  | VNaN => "NaN"
  | VNull => "null"
  | VUndefined => "undefined"
  | VBool b => if b then "true" else "false"
  | VFun name => "function " ++ name ++ "() { [native code] }"
  | _ => display v
  end.
End Text.

Section Parsing.
Variable JSON_parse : string -> option value.

Definition parse (s : string) : outcome value :=
  match JSON_parse s with
  | Some v => Ok v
  | None => Throw (SyntaxError "Unexpected token in JSON")
  end.
End Parsing.

(** [a === n] for a number literal [n]. *)
Definition strict_eq_num (a : value) (n : Z) : bool :=
  match a with VNum x => x =? n | _ => false end.

Definition of_number (n : option Z) : value :=
  match n with Some x => VNum x | None => VNaN end.

(** [a + b] on two numbers. *)
Definition add_num (a b : value) : value :=
  match a, b with
  | VNum x, VNum y => VNum (x + y)
  | _, _ => VNaN
  end.

(** [Math.ceil(n / d)] for a positive literal [d], computed exactly. *)
Definition Math_ceil_div (n : option Z) (d : positive) : value :=
  match n with
  | Some x => VNum (Qceiling (x # d))
  | None => VNaN
  end.

(** [hay.includes(needle)] *)
Fixpoint includes (needle hay : string) : bool :=
  String.prefix needle hay
  || match hay with
     | EmptyString => false
     | String _ rest => includes needle rest
     end.

(** What follows [p] in [s], when [s] starts with [p]. *)
Fixpoint after_prefix (p s : string) : option string :=
  match p, s with
  | EmptyString, _ => Some s
  | String a p', String b s' => if Ascii.eqb a b then after_prefix p' s' else None
  | String _ _, EmptyString => None
  end.

(** [s.replace(pattern, replacement)] with a string pattern: the first
    occurrence only. *)
Fixpoint replace_first (pattern replacement s : string) : string :=
  match after_prefix pattern s with
  | Some rest => replacement ++ rest
  | None =>
      match s with
      | EmptyString => EmptyString
      | String c s' => String c (replace_first pattern replacement s')
      end
  end.

End JS.

(** ** The edge functions (three upstream variants) *)

Module Edge.
Import JS.

Record Message := { role : string; content : string }.

(** The request body after [await req.json()] and destructuring; a field
    that is absent is [None]. *)
Record ChatRequest := {
  req_messages : list Message;
  req_department : option string;
  req_session_id : option string;
  req_locale : option string;
  req_rag_mode : option string }.

Record HttpRequest := {
  method : string;
  json : outcome ChatRequest }.

Record AnalyticsMetadata := {
  session_id : string;
  execution_time_ms : value;
  invocation_count : value;
  input_tokens : value;
  output_tokens : value;
  total_tokens : value;
  model : value;
  department : string;
  timestamp : string;
  locale : string;
  rag_mode : option string;
  error : bool }.

Inductive Body :=
| NoBody
| ErrorBody (error : string) (analytics : option AnalyticsMetadata)
| ChatBody (content : value) (analytics : AnalyticsMetadata) (sources : value).

Record Response := { status : Z; body : Body }.

(** The reply of the upstream provider: HTTP status and raw body text. *)
Record Upstream := { up_status : Z; up_text : string }.

Definition ok (r : Upstream) : bool := (200 <=? up_status r) && (up_status r <=? 299).

(** What one run of the handler reads from its surroundings. *)
Record Env := {
  LOVABLE_API_KEY : option string;
  generated_id : string;          (* generateSessionId() in the try block *)
  generated_id_catch : string;    (* generateSessionId() in the catch block *)
  elapsed_ms : Z;                 (* Math.round(endTime - startTime), try block *)
  elapsed_ms_catch : Z;           (* the same in the catch block *)
  now_iso : string;               (* new Date().toISOString() *)
  fetched : outcome Upstream }.   (* await fetch(...) *)

Section Handlers.
Variable JSON_parse : string -> option value.
Variable coerce : value -> option Z.
Variable display : value -> string.

Local Abbreviation to_string := (JS.to_string display).
Local Abbreviation parse := (JS.parse JSON_parse).

(** [Math.ceil(text.length / 4)] *)
Definition estimateTokens (text : value) : outcome value :=
  len ← get text "length";
  mret (Math_ceil_div (to_number coerce len) 4).

Definition departmentPrompts : list (string * value) :=
  [ ("HR", VStr "You are an HR policy assistant. Help employees understand HR policies, benefits, leave procedures, and workplace guidelines. Be professional and cite policy documents when relevant.");
    ("Finance", VStr "You are a Finance department assistant. Help with expense reports, budget questions, financial procedures, and compliance guidelines. Be precise and reference financial policies.");
    ("IT", VStr "You are an IT support assistant. Help with software requests, security policies, technical procedures, and system access. Be clear and reference IT documentation.");
    ("Operations", VStr "You are an Operations assistant. Help with procurement, vendor management, supply chain questions, and operational procedures. Be efficient and reference operational guidelines.") ].

Definition generic_prompt : string :=
  "You are a helpful enterprise assistant. Answer questions clearly and professionally.".

(** A property key computed from [department]: absent is the key
    ["undefined"]. *)
Definition key_of (department : option string) : string :=
  default "undefined" department.

(** [departmentPrompts[department] || "You are a helpful ..."] *)
Definition systemPrompt (department : option string) : value :=
  or_else (lookup_obj departmentPrompts (key_of department)) (VStr generic_prompt).

Definition source (title type reference : string) : value :=
  VObj [("title", VStr title); ("type", VStr type); ("reference", VStr reference)].

Definition departmentSources : list (string * value) :=
  [ ("HR", VArr [ source "Employee Handbook v3.2" "document" "HR-DOC-001";
                  source "HR Policy Guidelines" "policy" "HR-POL-002" ]);
    ("Finance", VArr [ source "Financial Procedures Manual" "document" "FIN-DOC-001";
                       source "Expense Policy 2024" "policy" "FIN-POL-001" ]);
    ("IT", VArr [ source "IT Security Handbook" "document" "IT-DOC-001";
                  source "Software Request Portal" "link" "IT-SYS-001" ]);
    ("Operations", VArr [ source "Operations Manual" "document" "OPS-DOC-001";
                          source "Vendor Guidelines" "policy" "OPS-POL-001" ]) ].

(** [departmentSources[department] || []]; the same table and lookup are
    [generateSources] in the gateway and Lambda variants and
    [generateDefaultSources] in the Lambda-proxy variant. *)
Definition generateSources (department : option string) : value :=
  or_else (lookup_obj departmentSources (key_of department)) (VArr []).

Definition generateDefaultSources := generateSources.

(** [s || d] on an optional string. *)
Definition str_or (s : option string) (d : string) : string :=
  match s with
  | Some x => if String.eqb x "" then d else x
  | None => d
  end.

Definition json_headers_response (st : Z) (b : Body) : Response :=
  {| status := st; body := b |}.

Definition error_analytics (env : Env) (model_name : string) : AnalyticsMetadata :=
  {| session_id := generated_id_catch env;
     execution_time_ms := VNum (elapsed_ms_catch env);
     invocation_count := VNum 0;
     input_tokens := VNum 0;
     output_tokens := VNum 0;
     total_tokens := VNum 0;
     model := VStr model_name;
     department := "Unknown";
     timestamp := now_iso env;
     locale := "en_US";
     rag_mode := None;
     error := true |}.

(** The [catch (error)] block shared by the three handlers. *)
Definition catch_all (env : Env) (model_name : string) (r : outcome Response) : Response :=
  match r with
  | Ok resp => resp
  | Throw e =>
      json_headers_response 500
        (ErrorBody (exn_message e) (Some (error_analytics env model_name)))
  end.

Definition rate_limited : Response :=
  json_headers_response 429
    (ErrorBody "Rate limits exceeded, please try again later." None).

(** Lines 121-151 of the gateway variant, 124-154 of the Lambda variant:
    the success path, identical in both. *)
Definition estimated_reply (env : Env) (req : ChatRequest)
    (currentSessionId : string) (inputTokens : value) (data : value) : outcome Response :=
  choices ← get data "choices";
  let assistantContent :=
    or_else (get_opt (get_opt (first_opt choices) "message") "content") (VStr "") in
  outputTokens ← estimateTokens assistantContent;
  let totalTokens := add_num inputTokens outputTokens in
  let analytics :=
    {| session_id := currentSessionId;
       execution_time_ms := VNum (elapsed_ms env);
       invocation_count := VNum (0 + 1);
       input_tokens := inputTokens;
       output_tokens := outputTokens;
       total_tokens := totalTokens;
       model := VStr "google/gemini-3-flash-preview";
       department := str_or (req_department req) "General";
       timestamp := now_iso env;
       locale := default "en_US" (req_locale req);
       rag_mode := req_rag_mode req;
       error := false |} in
  mret (json_headers_response 200
          (ChatBody assistantContent analytics (generateSources (req_department req)))).

(** [messages.map(m => m.content).join(" ")], then [+ systemPrompt]. *)
Definition inputText (req : ChatRequest) : string :=
  String.concat " " (map content (req_messages req)).

Definition input_estimate (req : ChatRequest) : outcome value :=
  estimateTokens (VStr (inputText req ++ to_string (systemPrompt (req_department req)))).

(** The AI-gateway variant. *)
Definition serve_gateway (env : Env) (r : HttpRequest) : Response :=
  if String.eqb (method r) "OPTIONS" then json_headers_response 200 NoBody else
  catch_all env "google/gemini-3-flash-preview" (
    req ← json r;
    _ ← (if String.eqb (str_or (LOVABLE_API_KEY env) "") ""
         then Throw (Error "LOVABLE_API_KEY is not configured") else Ok ());
    let currentSessionId := str_or (req_session_id req) (generated_id env) in
    inputTokens ← input_estimate req;
    response ← fetched env;
    if negb (ok response) then
      if up_status response =? 429 then Ok rate_limited
      else if up_status response =? 402 then
        Ok (json_headers_response 402 (ErrorBody "Payment required, please add funds." None))
      else Throw (Error ("AI gateway error: " ++ pretty (up_status response)))
    else
      data ← parse (up_text response);
      estimated_reply env req currentSessionId inputTokens data).

(** The Lambda variant with an [x-api-key] header. *)
Definition serve_lambda (env : Env) (r : HttpRequest) : Response :=
  if String.eqb (method r) "OPTIONS" then json_headers_response 200 NoBody else
  catch_all env "google/gemini-3-flash-preview" (
    req ← json r;
    let currentSessionId := str_or (req_session_id req) (generated_id env) in
    inputTokens ← input_estimate req;
    response ← fetched env;
    if negb (ok response) then
      if up_status response =? 429 then Ok rate_limited
      else if up_status response =? 403 then
        Ok (json_headers_response 403
              (ErrorBody "Access denied. Check Lambda API key configuration." None))
      else Throw (Error ("AWS Lambda error: " ++ pretty (up_status response)
                         ++ " - " ++ up_text response))
    else
      data ← parse (up_text response);
      estimated_reply env req currentSessionId inputTokens data).

(** The Lambda-proxy variant: the status is the envelope's [statusCode]
    when the reply is an envelope, the HTTP status otherwise. *)
Definition serve_lambda_proxy (env : Env) (r : HttpRequest) : Response :=
  if String.eqb (method r) "OPTIONS" then json_headers_response 200 NoBody else
  catch_all env "lambda-llm" (
    req ← json r;
    let currentSessionId := str_or (req_session_id req) (generated_id env) in
    response ← fetched env;
    let executionTimeMs := elapsed_ms env in
    lambdaResponse ← try_catch (parse (up_text response))
                        (fun _ => Throw (Error "Invalid Lambda response format"));
    hasStatus ← has_property "statusCode" lambdaResponse;
    hasBody ← (if hasStatus : bool then has_property "body" lambdaResponse else Ok false);
    '(statusCode, bodyContent) ←
      (if hasBody : bool then
         statusCode ← get lambdaResponse "statusCode";
         b ← get lambdaResponse "body";
         let bodyContent :=
           match b with
           | VStr s => match JSON_parse s with
                       | Some v => v
                       | None => VObj [("response", b)]
                       end
           | _ => b
           end in
         mret (statusCode, bodyContent)
       else mret (VNum (up_status response), lambdaResponse));
    if ge_num coerce statusCode 400 || negb (ok response) then
      if strict_eq_num statusCode 429 then Ok rate_limited
      else if strict_eq_num statusCode 403 || strict_eq_num statusCode 401 then
        Ok (json_headers_response 403
              (ErrorBody "Access denied. Check Lambda API key configuration." None))
      else
        err ← get bodyContent "error";
        Throw (Error (to_string (or_else err (VStr ("Lambda error: " ++ to_string statusCode)))))
    else
      resp ← get bodyContent "response";
      cont ← get bodyContent "content";
      msg ← get bodyContent "message";
      let assistantContent := or_else (or_else (or_else resp cont) msg) (VStr "") in
      upstream_analytics ← get bodyContent "analytics";
      let analytics :=
        {| session_id := currentSessionId;
           execution_time_ms :=
             or_else (get_opt upstream_analytics "execution_time_ms") (VNum executionTimeMs);
           invocation_count := or_else (get_opt upstream_analytics "invocation_count") (VNum 1);
           input_tokens := or_else (get_opt upstream_analytics "input_tokens") (VNum 0);
           output_tokens := or_else (get_opt upstream_analytics "output_tokens") (VNum 0);
           total_tokens := or_else (get_opt upstream_analytics "total_tokens") (VNum 0);
           model := or_else (get_opt upstream_analytics "model") (VStr "lambda-llm");
           department := str_or (req_department req) "General";
           timestamp := now_iso env;
           locale := default "en_US" (req_locale req);
           rag_mode := req_rag_mode req;
           error := false |} in
      upstream_sources ← get bodyContent "sources";
      mret (json_headers_response 200
              (ChatBody assistantContent analytics
                 (or_else upstream_sources (generateDefaultSources (req_department req))))) ).

End Handlers.
End Edge.

(** ** The analytics hook (browser) *)

Module Analytics.
Import JS.

Inductive Rating := like | dislike.

Record FeedbackRecord := { messageId : string; rating : Rating }.

(** The updater passed to [setFeedbackRecords] by [trackFeedback]. *)
Definition trackFeedback (id : string) (r : Rating) (prev : list FeedbackRecord)
    : list FeedbackRecord :=
  match List.find (fun f => String.eqb (messageId f) id) prev with
  | Some _ =>
      map (fun f => if String.eqb (messageId f) id
                    then {| messageId := messageId f; rating := r |} else f) prev
  | None => prev ++ [ {| messageId := id; rating := r |} ]
  end.

(** The state after a sequence of [trackFeedback] calls on the initial,
    empty list. *)
Definition feedbackRecords (calls : list (string * Rating)) : list FeedbackRecord :=
  fold_left (fun prev c => trackFeedback (fst c) (snd c) prev) calls [].

(** The fields of an analytics record as the client types them. *)
Record AnalyticsMetadata := {
  session_id : string;
  execution_time_ms : Z;
  invocation_count : Z;
  input_tokens : Z;
  output_tokens : Z;
  total_tokens : Z;
  model : string;
  department : string;
  timestamp : string;
  locale : string;
  rag_mode : option string }.

Record DailyUsage := { date : string; messages : Z; tokens : Z }.

Section Daily.
(** [new Date(ts).toISOString().split("T")[0]]: the UTC calendar date
    (YYYY-MM-DD) of the instant [ts] denotes; [None] when [ts] is not a
    date, where [toISOString] throws a [RangeError]. *)
Variable isoDate : string -> option string.
(** The message of that [RangeError], which the engine chooses. *)
Variable invalid_time : string.

(** One round of the [forEach] that fills [dailyMap]; the entry is the
    pair (messages, tokens). *)
Definition daily_step (dailyMap : gmap string (Z * Z)) (a : AnalyticsMetadata)
    : outcome (gmap string (Z * Z)) :=
  match isoDate (timestamp a) with
  | None => Throw (RangeError invalid_time)
  | Some d =>
      let dailyMap1 :=
        match dailyMap !! d with
        | None => <[d := (0, 0)]> dailyMap
        | Some _ => dailyMap
        end in
      Ok (alter (fun e => (fst e + 1, snd e + total_tokens a)) d dailyMap1)
  end.

Fixpoint daily_fill (dailyMap : gmap string (Z * Z)) (history : list AnalyticsMetadata)
    : outcome (gmap string (Z * Z)) :=
  match history with
  | [] => Ok dailyMap
  | a :: rest => m ← daily_step dailyMap a; daily_fill m rest
  end.

(** [Object.entries(dailyMap).map(([date, data]) => ({date, ...data}))];
    the order of the entries is not modelled. *)
Definition dailyUsage (analyticsHistory : list AnalyticsMetadata) : outcome (list DailyUsage) :=
  dailyMap ← daily_fill ∅ analyticsHistory;
  mret ((fun e => {| date := e.1; messages := e.2.1; tokens := e.2.2 |}) <$> map_to_list dailyMap).
End Daily.

End Analytics.

(** ** The state of the analytics hook *)

Module AnalyticsHook.
Import JS.

(** [analyticsHistory] and [feedbackRecords] are React state, [sessionIds]
    is the [Set] held in a ref. *)
Record State := {
  analyticsHistory : list Analytics.AnalyticsMetadata;
  feedbackRecords : list Analytics.FeedbackRecord;
  sessionIds : gset string }.

Definition initial : State :=
  {| analyticsHistory := []; feedbackRecords := []; sessionIds := ∅ |}.

Definition trackAnalytics (analytics : Analytics.AnalyticsMetadata) (st : State) : State :=
  {| analyticsHistory := analyticsHistory st ++ [analytics];
     feedbackRecords := feedbackRecords st;
     sessionIds := {[ Analytics.session_id analytics ]} ∪ sessionIds st |}.

Definition trackFeedback (messageId : string) (rating : Analytics.Rating) (st : State) : State :=
  {| analyticsHistory := analyticsHistory st;
     feedbackRecords := Analytics.trackFeedback messageId rating (feedbackRecords st);
     sessionIds := sessionIds st |}.

Definition clearAnalytics (st : State) : State := initial.

Definition getLatestAnalytics (st : State) : option Analytics.AnalyticsMetadata :=
  last (analyticsHistory st).

(** [Math.round(n / d)] for a positive [d]: the nearest integer, halves
    upwards. *)
Definition Math_round_div (n : Z) (d : positive) : Z :=
  Qfloor (Qplus (n # d) (1 # 2)).

(** The scalar fields of [getAggregatedAnalytics()]. *)
Definition totalMessages (st : State) : Z :=
  Z.of_nat (List.length (analyticsHistory st)).

Definition totalTokens (st : State) : Z :=
  fold_left (fun sum a => sum + Analytics.total_tokens a) (analyticsHistory st) 0.

Definition totalInputTokens (st : State) : Z :=
  fold_left (fun sum a => sum + Analytics.input_tokens a) (analyticsHistory st) 0.

Definition totalOutputTokens (st : State) : Z :=
  fold_left (fun sum a => sum + Analytics.output_tokens a) (analyticsHistory st) 0.

Definition executionTimes (st : State) : list Z :=
  map Analytics.execution_time_ms (analyticsHistory st).

(** [Math.round(executionTimes.length > 0 ? sum / length : 0)] *)
Definition averageExecutionTime (st : State) : Z :=
  match List.length (executionTimes st) with
  | O => 0
  | S n => Math_round_div (fold_left (fun sum t => sum + t) (executionTimes st) 0)
                          (Pos.of_succ_nat n)
  end.

Definition sessionsCount (st : State) : Z := Z.of_nat (size (sessionIds st)).

Definition feedbackPositive (st : State) : Z :=
  Z.of_nat (List.length
              (List.filter (fun f => match Analytics.rating f with
                                     | Analytics.like => true
                                     | Analytics.dislike => false
                                     end) (feedbackRecords st))).

Definition feedbackNegative (st : State) : Z :=
  Z.of_nat (List.length
              (List.filter (fun f => match Analytics.rating f with
                                     | Analytics.dislike => true
                                     | Analytics.like => false
                                     end) (feedbackRecords st))).

End AnalyticsHook.

(** ** The browser: storage, clock and network *)

Module Browser.
Import JS.

Record Request := { url : string; payload : string }.

Record HttpResponse := {
  status : Z;
  json : outcome value }.         (* await response.json() *)

Definition ok (r : HttpResponse) : bool := (200 <=? status r) && (status r <=? 299).

(** What the network answers to a request: the response, or a rejected
    [fetch], and the milliseconds that pass meanwhile. *)
Record Exchange := { reply : outcome HttpResponse; duration : Z }.

(** Storage is always available: [getItem], [setItem] and [removeItem] do
    not throw. *)
Record World := {
  localStorage : gmap string string;
  sessionStorage : gmap string string;
  now : Z;                        (* Date.now() *)
  sent : list Request }.          (* the requests issued so far *)

Definition M (A : Type) : Type := World -> outcome A * World.

#[global] Instance M_ret : MRet M := fun _ a w => (Ok a, w).
#[global] Instance M_bind : MBind M := fun _ _ f m w =>
  match m w with
  | (Ok a, w') => f a w'
  | (Throw e, w') => (Throw e, w')
  end.

Definition throw {A} (e : exn) : M A := fun w => (Throw e, w).

Definition lift {A} (o : outcome A) : M A := fun w => (o, w).

(** [try { body } catch { handler }]: the writes of [body] made before it
    threw stay. *)
Definition try_catch {A} (body : M A) (handler : exn -> M A) : M A := fun w =>
  match body w with
  | (Ok a, w') => (Ok a, w')
  | (Throw e, w') => handler e w'
  end.

Definition Date_now : M Z := fun w => (Ok (now w), w).

Definition localStorage_getItem (k : string) : M (option string) :=
  fun w => (Ok (localStorage w !! k), w).

(** The world after [localStorage.setItem(k, v)]. *)
Definition set_local (k v : string) (w : World) : World :=
  {| localStorage := <[k := v]> (localStorage w);
     sessionStorage := sessionStorage w; now := now w; sent := sent w |}.

(** The world after [localStorage.removeItem(k)]. *)
Definition remove_local (k : string) (w : World) : World :=
  {| localStorage := delete k (localStorage w);
     sessionStorage := sessionStorage w; now := now w; sent := sent w |}.

Definition localStorage_setItem (k v : string) : M unit := fun w => (Ok (), set_local k v w).

Definition localStorage_removeItem (k : string) : M unit := fun w => (Ok (), remove_local k w).

Definition sessionStorage_getItem (k : string) : M (option string) :=
  fun w => (Ok (sessionStorage w !! k), w).

Definition sessionStorage_setItem (k v : string) : M unit := fun w =>
  (Ok (), {| localStorage := localStorage w;
             sessionStorage := <[k := v]> (sessionStorage w); now := now w; sent := sent w |}).

Definition sessionStorage_removeItem (k : string) : M unit := fun w =>
  (Ok (), {| localStorage := localStorage w;
             sessionStorage := delete k (sessionStorage w); now := now w; sent := sent w |}).

Section Network.
Variable network : Request -> Exchange.

(** The world once the exchange for [r] is over. *)
Definition delivered (r : Request) (w : World) : World :=
  {| localStorage := localStorage w; sessionStorage := sessionStorage w;
     now := now w + duration (network r); sent := sent w ++ [r] |}.

(** [await fetch(url, { method: "POST", body })] *)
Definition fetch (r : Request) : M HttpResponse := fun w =>
  (reply (network r), delivered r w).
End Network.

(** [AWS_CONFIG]; the endpoints and the key come from the build
    environment. *)
Record Config := {
  chatEndpoint : string;
  authEndpoint : string;
  analyticsEndpoint : string;
  apiKey : string }.

Definition tokenStorageKey : string := "aws_auth_token".
Definition sessionStorageKey : string := "aws_session_id".

End Browser.

(** ** Configuration *)

Module AwsConfig.
Import JS Browser.

(** [import.meta.env.NAME || fallback] *)
Definition env_or (env : gmap string string) (name fallback : string) : string :=
  match env !! name with
  | Some v => if String.eqb v "" then fallback else v
  | None => fallback
  end.

Definition AWS_CONFIG (env : gmap string string) : Config :=
  {| chatEndpoint :=
       env_or env "VITE_AWS_CHAT_ENDPOINT"
         "https://your-api-id.execute-api.region.amazonaws.com/prod/chat";
     authEndpoint :=
       env_or env "VITE_AWS_AUTH_ENDPOINT"
         "https://your-api-id.execute-api.region.amazonaws.com/prod/auth";
     analyticsEndpoint :=
       env_or env "VITE_AWS_ANALYTICS_ENDPOINT"
         "https://your-api-id.execute-api.region.amazonaws.com/prod/analytics";
     apiKey := env_or env "VITE_AWS_API_KEY" "" |}.

Definition region (env : gmap string string) : string :=
  env_or env "VITE_AWS_REGION" "us-east-1".

Record Validation := { valid : bool; errors : list string }.

Definition chat_not_configured : string :=
  "Chat endpoint not configured. Set VITE_AWS_CHAT_ENDPOINT environment variable.".

Definition auth_not_configured : string :=
  "Auth endpoint not configured. Set VITE_AWS_AUTH_ENDPOINT environment variable.".

Definition validateAwsConfig (cfg : Config) : Validation :=
  let errors := [] in
  let errors := if includes "your-api-id" (chatEndpoint cfg)
                then (errors ++ [chat_not_configured])%list else errors in
  let errors := if includes "your-api-id" (authEndpoint cfg)
                then (errors ++ [auth_not_configured])%list else errors in
  {| valid := (List.length errors =? 0)%nat; errors := errors |}.

End AwsConfig.

(** ** The authentication client *)

Module Auth.
Import JS Browser.

Record LoginCredentials := { email : string; password : string }.

Record SignupCredentials := {
  su_email : string;
  su_password : string;
  su_name : option string;
  su_department : option string }.

Definition opt_str (s : option string) : value :=
  match s with Some x => VStr x | None => VUndefined end.

Definition login_json (c : LoginCredentials) : value :=
  VObj [("email", VStr (email c)); ("password", VStr (password c))].

Definition signup_json (c : SignupCredentials) : value :=
  VObj [("email", VStr (su_email c)); ("password", VStr (su_password c));
        ("name", opt_str (su_name c)); ("department", opt_str (su_department c))].

Section Client.
Variable JSON_parse : string -> option value.
Variable JSON_stringify : value -> string.
Variable coerce : value -> option Z.
Variable display : value -> string.
Variable network : Request -> Exchange.
Variable cfg : Config.

Local Abbreviation to_string := (JS.to_string display).
Local Abbreviation parse := (JS.parse JSON_parse).
Local Abbreviation fetch := (Browser.fetch network).

Definition getStoredSession : M value :=
  try_catch
    (stored ← localStorage_getItem tokenStorageKey;
     match stored with
     | None => mret VNull
     | Some s =>
         if String.eqb s "" then mret VNull else
         session ← lift (parse s);
         expiresAt ← lift (get session "expiresAt");
         t ← Date_now;
         if lt_num coerce expiresAt t then
           _ ← localStorage_removeItem tokenStorageKey;
           mret VNull
         else mret session
     end)
    (fun _ => mret VNull).

Definition storeSession (session : value) : M unit :=
  localStorage_setItem tokenStorageKey (JSON_stringify session).

Definition clearSession : M unit :=
  localStorage_removeItem tokenStorageKey.

(** [session?.token || null] *)
Definition getAuthToken : M value :=
  session ← getStoredSession;
  mret (or_else (get_opt session "token") VNull).

Definition getCurrentUser : M value :=
  session ← getStoredSession;
  mret (or_else (get_opt session "user") VNull).

(** The auth module's [parseLambdaResponse]. *)
Definition parseLambdaResponse (response : value) : outcome value :=
  statusCode ← get response "statusCode";
  if truthy statusCode then
    body ← get response "body";
    if truthy body then
      match JSON_parse (to_string body) with
      | Some v => Ok v
      | None => Ok (VObj [("error", body)])
      end
    else Ok response
  else Ok response.

(** [Date.now() + (parsed.expiresIn || 3600) * 1000] *)
Definition expiry (t : Z) (expiresIn : value) : value :=
  match to_number coerce (or_else expiresIn (VNum 3600)) with
  | Some s => VNum (t + s * 1000)
  | None => VNaN
  end.

Definition AuthSession (token refreshToken expiresAt user : value) : value :=
  VObj [("token", token); ("refreshToken", refreshToken);
        ("expiresAt", expiresAt); ("user", user)].

(** The body shared, word for word, by [login] and [signup]: they differ in
    the path, the credentials and the fallback message. *)
Definition auth_request (path : string) (credentials : value) : Request :=
  {| url := authEndpoint cfg ++ path; payload := JSON_stringify credentials |}.

Definition authenticate (path : string) (credentials : value) (failed : string) : M value :=
  response ← fetch (auth_request path credentials);
  data ← lift (json response);
  parsed ← lift (parseLambdaResponse data);
  err ← lift (get parsed "error");
  if negb (ok response) || truthy err then
    message ← lift (get parsed "message");
    throw (Error (to_string (or_else (or_else err message) (VStr failed))))
  else
    token ← lift (get parsed "token");
    user ← lift (get parsed "user");
    if negb (truthy token) || negb (truthy user) then
      throw (Error "Invalid auth response: missing token or user")
    else
      refreshToken ← lift (get parsed "refreshToken");
      expiresIn ← lift (get parsed "expiresIn");
      t ← Date_now;
      let session := AuthSession token refreshToken (expiry t expiresIn) user in
      _ ← storeSession session;
      mret session.

Definition login (credentials : LoginCredentials) : M value :=
  authenticate "/login" (login_json credentials) "Login failed".

Definition signup (credentials : SignupCredentials) : M value :=
  authenticate "/signup" (signup_json credentials) "Signup failed".

Definition logout : M unit :=
  token ← getAuthToken;
  _ ← clearSession;
  if truthy token then
    try_catch
      (_ ← fetch {| url := authEndpoint cfg ++ "/logout"; payload := "" |}; mret ())
      (fun _ => mret ())
  else mret ().

(** [session.expiresAt - Date.now() < 5 * 60 * 1000] *)
Definition shouldRefresh (expiresAt : value) (t : Z) : bool :=
  match sub_num coerce expiresAt t with
  | Some d => d <? 5 * 60 * 1000
  | None => false
  end.

Definition refresh_request (refreshToken : value) : Request :=
  {| url := authEndpoint cfg ++ "/refresh";
     payload := JSON_stringify (VObj [("refreshToken", refreshToken)]) |}.

(** The [try] block of [refreshSession] with its [catch]. *)
Definition refresh_attempt (session refreshToken : value) : M value :=
  try_catch
    (response ← fetch (refresh_request refreshToken);
     data ← lift (json response);
     parsed ← lift (parseLambdaResponse data);
     failed ← lift (if negb (ok response) then Ok true else
                    err ← get parsed "error";
                    if truthy err then Ok true else
                    token ← get parsed "token";
                    Ok (negb (truthy token)));
     if failed : bool then
       _ ← clearSession;
       mret VNull
     else
       token ← lift (get parsed "token");
       newRefresh ← lift (get parsed "refreshToken");
       expiresIn ← lift (get parsed "expiresIn");
       t' ← Date_now;
       newUser ← lift (get parsed "user");
       user ← lift (get session "user");
       let newSession :=
         AuthSession token (or_else newRefresh refreshToken)
                     (expiry t' expiresIn) (or_else newUser user) in
       _ ← storeSession newSession;
       mret newSession)
    (fun _ => _ ← clearSession; mret VNull).

Definition refreshSession : M value :=
  session ← getStoredSession;
  let refreshToken := get_opt session "refreshToken" in
  if negb (truthy refreshToken) then mret VNull else
  expiresAt ← lift (get session "expiresAt");
  t ← Date_now;
  if negb (shouldRefresh expiresAt t) then mret session else
  refresh_attempt session refreshToken.

End Client.
End Auth.

(** ** The chat API client *)

Module ApiClient.
Import JS Browser.

Record ChatMessage := { role : string; content : string }.

Record ChatRequest := {
  messages : list ChatMessage;
  department : string;
  session_id : option string;
  locale : option string;
  rag_mode : option string }.

Record ChatResponse := {
  resp_content : value;
  resp_analytics : value;
  resp_sources : value }.

Definition opt_str_or_null (s : option string) : value :=
  match s with
  | Some x => if String.eqb x "" then VNull else VStr x
  | None => VNull
  end.

Definition message_json (m : ChatMessage) : value :=
  VObj [("role", VStr (role m)); ("content", VStr (content m))].

Section Client.
Variable JSON_parse : string -> option value.
Variable JSON_stringify : value -> string.
Variable coerce : value -> option Z.
Variable display : value -> string.
Variable network : Request -> Exchange.
Variable cfg : Config.
(** [Math.random().toString(36).substring(2, 9)] and
    [new Date().toISOString()] at a given [Date.now()]. *)
Variable random_suffix : string.
Variable toISOString : Z -> string.

Local Abbreviation to_string := (JS.to_string display).
Local Abbreviation fetch := (Browser.fetch network).
Local Abbreviation refreshSession :=
  (Auth.refreshSession JSON_parse JSON_stringify coerce display network cfg).
Local Abbreviation getAuthToken := (Auth.getAuthToken JSON_parse coerce).

(** [typeof data === "object" && data !== null && "statusCode" in data &&
    "body" in data] *)
Definition isLambdaProxyResponse (data : value) : bool :=
  is_object data &&
  match has_property "statusCode" data, has_property "body" data with
  | Ok a, Ok b => a && b
  | _, _ => false
  end.

(** The API client's [parseLambdaResponse]. *)
Definition parseLambdaResponse (data : value) : outcome value :=
  if isLambdaProxyResponse data then
    body ← get data "body";
    match JSON_parse (to_string body) with
    | Some v => Ok v
    | None => Throw (Error ("Failed to parse Lambda response body: " ++ to_string body))
    end
  else Ok data.

(** The headers carry the bearer token read after the refresh attempt. *)
Definition getHeaders : M value :=
  _ ← refreshSession;
  token ← getAuthToken;
  mret (VObj [("Content-Type", VStr "application/json");
              ("Authorization", if truthy token then VStr ("Bearer " ++ to_string token)
                                else VUndefined);
              ("x-api-key", if negb (String.eqb (apiKey cfg) "") then VStr (apiKey cfg)
                            else VUndefined)]).

Definition generateSessionId : M string :=
  t ← Date_now;
  mret ("session_" ++ pretty t ++ "_" ++ random_suffix).

Definition getSessionId : M string :=
  sessionId ← sessionStorage_getItem sessionStorageKey;
  match sessionId with
  | Some s =>
      if String.eqb s "" then
        fresh ← generateSessionId;
        _ ← sessionStorage_setItem sessionStorageKey fresh;
        mret fresh
      else mret s
  | None =>
      fresh ← generateSessionId;
      _ ← sessionStorage_setItem sessionStorageKey fresh;
      mret fresh
  end.

(** [request.messages[request.messages.length - 1]?.content || ""] *)
Definition user_query (request : ChatRequest) : string :=
  match last (messages request) with
  | Some m => content m
  | None => ""
  end.

Definition request_json (request : ChatRequest) (sessionId : string) : value :=
  VObj [("messages", VArr (map message_json (messages request)));
        ("department", VStr (department request));
        ("session_id", VStr sessionId);
        ("locale", match locale request with Some l => VStr l | None => VUndefined end);
        ("rag_mode", match rag_mode request with Some l => VStr l | None => VUndefined end);
        ("user_query", VStr (user_query request))].

(** What [sendChatMessage] makes of the reply of the chat endpoint: the
    error taxonomy and the normalisation of the decoded body. *)
Definition settle (request : ChatRequest) (sessionId : string) (response : HttpResponse)
    : M ChatResponse :=
  data ← lift (json response);
  if negb (ok response) then
    if status response =? 429 then
      throw (Error "Rate limit exceeded. Please try again later.")
    else if (status response =? 401) || (status response =? 403) then
      throw (Error "Authentication required. Please log in.")
    else
      parsed ← lift (parseLambdaResponse data);
      err ← lift (get parsed "error");
      message ← lift (get parsed "message");
      throw (Error (to_string (or_else (or_else err message)
                                 (VStr ("API error: " ++ pretty (status response))))))
  else
    parsed ← lift (parseLambdaResponse data);
    statusCode ← lift (if isLambdaProxyResponse data then get data "statusCode"
                       else Ok VUndefined);
    if isLambdaProxyResponse data && ge_num coerce statusCode 400 then
      err ← lift (get parsed "error");
      throw (Error (to_string (or_else err (VStr ("Lambda error: " ++ to_string statusCode)))))
    else
      content ← lift (get parsed "content");
      resp ← lift (get parsed "response");
      message ← lift (get parsed "message");
      analytics ← lift (get parsed "analytics");
      sources ← lift (get parsed "sources");
      t ← Date_now;
      mret {| resp_content := or_else (or_else (or_else content resp) message) (VStr "");
              resp_analytics :=
                or_else analytics
                  (VObj [("session_id", VStr sessionId);
                         ("execution_time_ms", VNum 0);
                         ("invocation_count", VNum 1);
                         ("input_tokens", VNum 0);
                         ("output_tokens", VNum 0);
                         ("total_tokens", VNum 0);
                         ("model", VStr "bedrock");
                         ("department", VStr (department request));
                         ("timestamp", VStr (toISOString t));
                         ("locale", VStr (match locale request with
                                          | Some l => if String.eqb l "" then "en_US" else l
                                          | None => "en_US"
                                          end));
                         ("rag_mode", opt_str_or_null (rag_mode request))]);
              resp_sources := or_else sources (VArr []) |}.

Definition sendChatMessage (request : ChatRequest) : M ChatResponse :=
  headers ← getHeaders;
  sessionId ← match session_id request with
              | Some s => if String.eqb s "" then getSessionId else mret s
              | None => getSessionId
              end;
  response ← fetch {| url := chatEndpoint cfg;
                      payload := JSON_stringify (request_json request sessionId) |};
  settle request sessionId response.

(** [clearSessionId()] *)
Definition clearSessionId : M unit :=
  sessionStorage_removeItem sessionStorageKey.

(** [saveAnalytics(analytics)]: skipped while the endpoint is the
    placeholder; whatever the attempt throws is caught. *)
Definition saveAnalytics (analytics : value) : M unit :=
  if includes "your-api-id" (analyticsEndpoint cfg) then mret tt else
  try_catch
    (headers ← getHeaders;
     _ ← fetch {| url := analyticsEndpoint cfg; payload := JSON_stringify analytics |};
     mret tt)
    (fun _ => mret tt).

(** [healthCheck()]: a GET without body. *)
Definition healthCheck : M bool :=
  try_catch
    (response ← fetch {| url := replace_first "/chat" "/health" (chatEndpoint cfg);
                         payload := "" |};
     mret (ok response))
    (fun _ => mret false).

End Client.
End ApiClient.

(** ** The chat hooks *)

Module ChatHook.
Import JS Browser.

Inductive Role := user | assistant.

Record Message := {
  id : string;
  role : Role;
  content : string;
  timestamp : Z;
  feedback : option Analytics.Rating;
  sources : option value;
  analytics : option value }.

(** The React state of [useAwsChat] and [useChatWithAnalytics] that
    [handleFeedback] and [clearMessages] touch. *)
Record State := {
  messages : list Message;
  sessionIdRef : option string;
  hook : AnalyticsHook.State }.

(** [prev.map((msg) => (msg.id === messageId ? { ...msg, feedback } : msg))] *)
Definition with_feedback (messageId : string) (rating : Analytics.Rating)
    (prev : list Message) : list Message :=
  map (fun msg => if String.eqb (id msg) messageId
                  then {| id := id msg; role := role msg; content := content msg;
                          timestamp := timestamp msg; feedback := Some rating;
                          sources := sources msg; analytics := analytics msg |}
                  else msg) prev.

Definition handleFeedback (messageId : string) (rating : Analytics.Rating) (st : State) : State :=
  {| messages := with_feedback messageId rating (messages st);
     sessionIdRef := sessionIdRef st;
     hook := AnalyticsHook.trackFeedback messageId rating (hook st) |}.

(** [clearMessages] of [useChatWithAnalytics]. *)
Definition clearMessages (st : State) : State :=
  {| messages := []; sessionIdRef := None; hook := hook st |}.

(** [clearMessages] of [useAwsChat], which also forgets the stored
    session id. *)
Definition clearMessages_aws (st : State) : M State :=
  _ ← sessionStorage_removeItem sessionStorageKey;
  mret (clearMessages st).

End ChatHook.

(** ** A reference JSON codec

    The theorems below hold for every [JSON.parse] and [JSON.stringify].
    To run the program on concrete storage contents and replies, this
    module gives one implementation for the fragment of JSON the program
    exchanges: objects, arrays, strings without control characters,
    integers, booleans and [null]. *)

Module Json.
Import JS.

Definition dquote : Ascii.ascii := Ascii.ascii_of_nat 34.
Definition backslash : Ascii.ascii := Ascii.ascii_of_nat 92.

Fixpoint escape (s : string) : string :=
  match s with
  | EmptyString => EmptyString
  | String c rest =>
      if Ascii.eqb c dquote || Ascii.eqb c backslash
      then String backslash (String c (escape rest))
      else String c (escape rest)
  end.

Definition quote (s : string) : string :=
  String dquote (escape s ++ String dquote EmptyString).

Definition omitted (v : value) : bool :=
  match v with VUndefined | VFun _ => true | _ => false end.

(** [JSON.stringify]: members whose value is [undefined] or a function are
    left out of an object and become [null] in an array; NaN is [null]. *)
Fixpoint stringify (v : value) : string :=
  match v with
  | VUndefined | VNull | VNaN | VFun _ => "null"
  | VBool b => if b then "true" else "false"
  | VNum n => pretty n
  | VStr s => quote s
  | VArr xs => "[" ++ String.concat "," (map stringify xs) ++ "]"
  | VObj fields =>
      "{" ++ String.concat ","
               (flat_map (fun kv =>
                            match kv with
                            | (k, x) => if omitted x then []
                                        else [quote k ++ ":" ++ stringify x]
                            end) fields) ++ "}"
  end.

Definition is_space (c : Ascii.ascii) : bool :=
  Ascii.eqb c " "%char || Ascii.eqb c (Ascii.ascii_of_nat 10)
  || Ascii.eqb c (Ascii.ascii_of_nat 13) || Ascii.eqb c (Ascii.ascii_of_nat 9).

Fixpoint skip_ws (s : string) : string :=
  match s with
  | String c rest => if is_space c then skip_ws rest else s
  | EmptyString => s
  end.

Fixpoint strip_prefix (p s : string) : option string :=
  match p, s with
  | EmptyString, _ => Some s
  | String a p', String b s' => if Ascii.eqb a b then strip_prefix p' s' else None
  | _, EmptyString => None
  end.

Definition digit (c : Ascii.ascii) : option Z :=
  let n := Z.of_nat (Ascii.nat_of_ascii c) in
  if (48 <=? n) && (n <=? 57) then Some (n - 48) else None.

Fixpoint digits (acc : Z) (s : string) : Z * string :=
  match s with
  | String c rest =>
      match digit c with
      | Some d => digits (10 * acc + d) rest
      | None => (acc, s)
      end
  | EmptyString => (acc, s)
  end.

(** The characters of a string literal after its opening quote. *)
Fixpoint string_body (s : string) : option (string * string) :=
  match s with
  | EmptyString => None
  | String c rest =>
      if Ascii.eqb c dquote then Some (EmptyString, rest)
      else if Ascii.eqb c backslash then
        match rest with
        | String e rest' =>
            match string_body rest' with
            | Some (str, tail) => Some (String e str, tail)
            | None => None
            end
        | EmptyString => None
        end
      else
        match string_body rest with
        | Some (str, tail) => Some (String c str, tail)
        | None => None
        end
  end.

(** A later member with the same key replaces the earlier one. *)
Fixpoint set_field (k : string) (v : value) (fields : list (string * value))
    : list (string * value) :=
  match fields with
  | [] => [(k, v)]
  | (k', v') :: rest =>
      if String.eqb k k' then (k, v) :: rest else (k', v') :: set_field k v rest
  end.

Fixpoint value_at (fuel : nat) (s : string) : option (value * string) :=
  match fuel with
  | O => None
  | S fuel' =>
      match skip_ws s with
      | EmptyString => None
      | String c rest =>
          if Ascii.eqb c dquote then
            match string_body rest with
            | Some (str, tail) => Some (VStr str, tail)
            | None => None
            end
          else if Ascii.eqb c "["%char then
            match skip_ws rest with
            | String "]"%char tail => Some (VArr [], tail)
            | _ => elements_at fuel' [] rest
            end
          else if Ascii.eqb c "{"%char then
            match skip_ws rest with
            | String "}"%char tail => Some (VObj [], tail)
            | _ => members_at fuel' [] rest
            end
          else if Ascii.eqb c "-"%char then
            match rest with
            | String d _ =>
                match digit d with
                | Some _ => let '(n, tail) := digits 0 rest in Some (VNum (- n), tail)
                | None => None
                end
            | EmptyString => None
            end
          else
            match digit c with
            | Some _ => let '(n, tail) := digits 0 (String c rest) in Some (VNum n, tail)
            | None =>
                match strip_prefix "null" (String c rest) with
                | Some tail => Some (VNull, tail)
                | None =>
                    match strip_prefix "true" (String c rest) with
                    | Some tail => Some (VBool true, tail)
                    | None =>
                        match strip_prefix "false" (String c rest) with
                        | Some tail => Some (VBool false, tail)
                        | None => None
                        end
                    end
                end
            end
      end
  end
with elements_at (fuel : nat) (acc : list value) (s : string) : option (value * string) :=
  match fuel with
  | O => None
  | S fuel' =>
      match value_at fuel' s with
      | Some (v, tail) =>
          match skip_ws tail with
          | String ","%char tail' => elements_at fuel' (acc ++ [v]) tail'
          | String "]"%char tail' => Some (VArr (acc ++ [v]), tail')
          | _ => None
          end
      | None => None
      end
  end
with members_at (fuel : nat) (acc : list (string * value)) (s : string)
    : option (value * string) :=
  match fuel with
  | O => None
  | S fuel' =>
      match skip_ws s with
      | String q rest =>
          if Ascii.eqb q dquote then
            match string_body rest with
            | Some (k, tail) =>
                match skip_ws tail with
                | String ":"%char tail' =>
                    match value_at fuel' tail' with
                    | Some (v, tail'') =>
                        match skip_ws tail'' with
                        | String ","%char more => members_at fuel' (set_field k v acc) more
                        | String "}"%char more => Some (VObj (set_field k v acc), more)
                        | _ => None
                        end
                    | None => None
                    end
                | _ => None
                end
            | None => None
            end
          else None
      | EmptyString => None
      end
  end.

(** [JSON.parse]: [None] stands for the [SyntaxError]. *)
Definition parse (s : string) : option value :=
  match value_at (2 * String.length s + 2) s with
  | Some (v, tail) => if String.eqb (skip_ws tail) "" then Some v else None
  | None => None
  end.

(** No string, array or object is coerced in the examples. *)
Definition coerce (v : value) : option Z := None.

(** Nor is an array printed. *)
Definition display (v : value) : string :=
  match v with VObj _ => "[object Object]" | _ => "" end.

End Json.

(** * Vocabulary of the statements *)

Import JS.

(** The keys of the two department tables. *)
Definition known_departments : list string := ["HR"; "Finance"; "IT"; "Operations"].


(** The decoded body the Lambda-proxy variant works on: for an envelope its
    [body], parsed when it is JSON text and wrapped as [{response: body}]
    when it is other text; the reply itself otherwise. *)
Definition effective_body (JSON_parse : string -> option value) (reply : value)
    : outcome value :=
  hasStatus ← has_property "statusCode" reply;
  hasBody ← (if hasStatus : bool then has_property "body" reply else Ok false);
  if hasBody : bool then
    b ← get reply "body";
    mret (match b with
          | VStr text => match JSON_parse text with
                         | Some v => v
                         | None => VObj [("response", b)]
                         end
          | _ => b
          end)
  else Ok reply.

Section FeedbackVocabulary.
Import Analytics.

(** The records of the list that belong to a message. *)
Definition records_of (id : string) (records : list FeedbackRecord) : list FeedbackRecord :=
  List.filter (fun f => String.eqb (messageId f) id) records.

(** The records of the list that belong to other messages. *)
Definition records_besides (id : string) (records : list FeedbackRecord) : list FeedbackRecord :=
  List.filter (fun f => negb (String.eqb (messageId f) id)) records.

(** The rating of the last call for a message, if any. *)
Definition latest (id : string) (calls : list (string * Rating)) : option Rating :=
  last (map snd (List.filter (fun c => String.eqb (fst c) id) calls)).

(** The callback of [prev.map] in [trackFeedback]. *)
Definition upsert_entry (id : string) (r : Rating) (f : FeedbackRecord) : FeedbackRecord :=
  if String.eqb (messageId f) id then {| messageId := messageId f; rating := r |} else f.

End FeedbackVocabulary.

Section DailyVocabulary.
Import Analytics.
Variable isoDate : string -> option string.

(** The records of a calendar day, their number and their tokens. *)
Definition on_day (d : string) (history : list AnalyticsMetadata) : list AnalyticsMetadata :=
  List.filter (fun a => bool_decide (isoDate (timestamp a) = Some d)) history.

Definition count_on (d : string) (history : list AnalyticsMetadata) : Z :=
  Z.of_nat (List.length (on_day d history)).

Definition tokens_on (d : string) (history : list AnalyticsMetadata) : Z :=
  foldr (fun a acc => total_tokens a + acc) 0 (on_day d history).

(** What [dailyMap[d]] holds after the loop went over [history], having
    started with the entry [before]. *)
Definition entry_after (before : option (Z * Z)) (d : string)
    (history : list AnalyticsMetadata) : option (Z * Z) :=
  match on_day d history with
  | [] => before
  | _ => Some ((default (0, 0) before).1 + count_on d history,
               (default (0, 0) before).2 + tokens_on d history)
  end.

End DailyVocabulary.

(** The same surroundings with another outcome of the upstream call. *)
Definition with_upstream (fetched : outcome Edge.Upstream) (env : Edge.Env) : Edge.Env :=
  {| Edge.LOVABLE_API_KEY := Edge.LOVABLE_API_KEY env;
     Edge.generated_id := Edge.generated_id env;
     Edge.generated_id_catch := Edge.generated_id_catch env;
     Edge.elapsed_ms := Edge.elapsed_ms env;
     Edge.elapsed_ms_catch := Edge.elapsed_ms_catch env;
     Edge.now_iso := Edge.now_iso env;
     Edge.fetched := fetched |}.

(** The 500 response of the [catch] block for a thrown message. *)
Definition failure (env : Edge.Env) (model_name message : string) : Edge.Response :=
  {| Edge.status := 500;
     Edge.body := Edge.ErrorBody message (Some (Edge.error_analytics env model_name)) |}.

(** The 403 response of the Lambda variants. *)
Definition access_denied : Edge.Response :=
  {| Edge.status := 403;
     Edge.body := Edge.ErrorBody "Access denied. Check Lambda API key configuration." None |}.

(** [needle] occurs in [hay]. *)
Definition contains (needle hay : string) : Prop :=
  exists before after, hay = before ++ needle ++ after.

(** The response to the preflight: 200 without a body. *)
Definition preflight_response : Edge.Response :=
  {| Edge.status := 200; Edge.body := Edge.NoBody |}.

(** The shape of the response to a request other than the preflight: 200
    with a reply, one of the [refusals] with [analytics: null], or 500 with
    the zeroed record flagged [error: true]; never without a body. *)
Definition well_formed (refusals : list Z) (resp : Edge.Response) : Prop :=
  match Edge.body resp with
  | Edge.NoBody => False
  | Edge.ChatBody _ a _ => Edge.status resp = 200 /\ Edge.error a = false
  | Edge.ErrorBody _ None => Edge.status resp ∈ refusals
  | Edge.ErrorBody _ (Some a) =>
      Edge.status resp = 500
      /\ Edge.error a = true
      /\ Edge.input_tokens a = VNum 0
      /\ Edge.output_tokens a = VNum 0
      /\ Edge.total_tokens a = VNum 0
      /\ Edge.invocation_count a = VNum 0
      /\ Edge.department a = "Unknown"
  end.

(** The world after [clearSession()]. *)
Definition signed_out (w : Browser.World) : Browser.World :=
  Browser.remove_local Browser.tokenStorageKey w.

(** The world after [storeSession] wrote [text]. *)
Definition signed_in (text : string) (w : Browser.World) : Browser.World :=
  Browser.set_local Browser.tokenStorageKey text w.

(** The sum of a list of numbers. *)
Definition total (l : list Z) : Z := foldr Z.add 0 l.

(** The calls of the analytics hook, and the state a sequence of calls
    leaves behind. *)
Inductive HookCall :=
| TrackAnalytics (analytics : Analytics.AnalyticsMetadata)
| TrackFeedback (messageId : string) (rating : Analytics.Rating)
| ClearAnalytics.

Definition hook_step (st : AnalyticsHook.State) (c : HookCall) : AnalyticsHook.State :=
  match c with
  | TrackAnalytics analytics => AnalyticsHook.trackAnalytics analytics st
  | TrackFeedback messageId rating => AnalyticsHook.trackFeedback messageId rating st
  | ClearAnalytics => AnalyticsHook.clearAnalytics st
  end.

Definition hook_after (calls : list HookCall) : AnalyticsHook.State :=
  fold_left hook_step calls AnalyticsHook.initial.

(** Every rating the transcript shows is on record. *)
Definition ratings_recorded (st : ChatHook.State) : Prop :=
  forall m r,
    m ∈ ChatHook.messages st ->
    ChatHook.feedback m = Some r ->
    {| Analytics.messageId := ChatHook.id m; Analytics.rating := r |}
    ∈ AnalyticsHook.feedbackRecords (ChatHook.hook st).

(** * Concrete inputs

    The runs below use the reference codec of [Json]. *)

Module EdgeExamples.

Definition question (department : option string) : Edge.ChatRequest :=
  {| Edge.req_messages := [ {| Edge.role := "user"; Edge.content := "What is the leave policy?" |} ];
     Edge.req_department := department;
     Edge.req_session_id := None;
     Edge.req_locale := None;
     Edge.req_rag_mode := None |}.

Definition hr_request : Edge.ChatRequest := question (Some "HR").

Definition post (req : Edge.ChatRequest) : Edge.HttpRequest :=
  {| Edge.method := "POST"; Edge.json := Ok req |}.

Definition env_with (up : Edge.Upstream) : Edge.Env :=
  {| Edge.LOVABLE_API_KEY := Some "key";
     Edge.generated_id := "session_1700000000000_abc1234";
     Edge.generated_id_catch := "session_1700000000100_def5678";
     Edge.elapsed_ms := 42;
     Edge.elapsed_ms_catch := 43;
     Edge.now_iso := "2024-01-15T10:30:00.000Z";
     Edge.fetched := Ok up |}.

(** An OpenAI-style completion. *)
Definition completion (text : string) : string :=
  Json.stringify
    (VObj [("choices",
            VArr [VObj [("message", VObj [("role", VStr "assistant"); ("content", VStr text)])]])]).

(** A Lambda reply whose analytics do not add up. *)
Definition lambda_reply_5_of_1_and_1 : string :=
  Json.stringify
    (VObj [("response", VStr "ok");
           ("analytics", VObj [("input_tokens", VNum 1); ("output_tokens", VNum 1);
                               ("total_tokens", VNum 5)])]).



Definition healthy_env : Edge.Env :=
  env_with {| Edge.up_status := 200;
              Edge.up_text := completion "Employees accrue leave monthly." |}.

Definition healthy : Edge.Upstream :=
  {| Edge.up_status := 200;
     Edge.up_text := completion "Employees accrue leave monthly." |}.

(** The surroundings of [env_with] without the gateway key. *)
Definition env_without_key (up : Edge.Upstream) : Edge.Env :=
  {| Edge.LOVABLE_API_KEY := None;
     Edge.generated_id := "session_1700000000000_abc1234";
     Edge.generated_id_catch := "session_1700000000100_def5678";
     Edge.elapsed_ms := 42;
     Edge.elapsed_ms_catch := 43;
     Edge.now_iso := "2024-01-15T10:30:00.000Z";
     Edge.fetched := Ok up |}.

(** A follow-up question of a conversation already under way. *)
Definition follow_up : Edge.ChatRequest :=
  {| Edge.req_messages :=
       [ {| Edge.role := "user"; Edge.content := "What is the leave policy?" |};
         {| Edge.role := "assistant"; Edge.content := "Employees accrue leave monthly." |};
         {| Edge.role := "user"; Edge.content := "And for part-time staff?" |} ];
     Edge.req_department := Some "HR";
     Edge.req_session_id := Some "session_1699999999000_zzz0001";
     Edge.req_locale := Some "de_DE";
     Edge.req_rag_mode := Some "strict" |}.

Definition out_of_credit : Edge.Upstream :=
  {| Edge.up_status := 402; Edge.up_text := "Payment Required" |}.


(** A Lambda reply in direct form with all three text fields and its own,
    empty, list of sources. *)
Definition direct_fields : list (string * value) :=
  [("message", VStr "fallback text"); ("content", VStr "second choice");
   ("response", VStr "first choice"); ("sources", VArr [])].

Definition direct_reply : Edge.Upstream :=
  {| Edge.up_status := 200; Edge.up_text := Json.stringify (VObj direct_fields) |}.

(** An envelope whose body is plain text. *)
Definition text_envelope_fields : list (string * value) :=
  [("statusCode", VNum 200); ("body", VStr "Leave accrues monthly.")].

Definition text_envelope : Edge.Upstream :=
  {| Edge.up_status := 200; Edge.up_text := Json.stringify (VObj text_envelope_fields) |}.

Definition serve_gateway := Edge.serve_gateway Json.parse Json.coerce Json.display.

Definition serve_lambda := Edge.serve_lambda Json.parse Json.coerce Json.display.

Definition serve_lambda_proxy := Edge.serve_lambda_proxy Json.parse Json.coerce Json.display.

End EdgeExamples.

Module DailyExamples.

(** On a timestamp written by [toISOString] (24 characters,
    YYYY-MM-DDTHH:mm:ss.sssZ) the date is the first ten characters. *)
Definition utc_date (ts : string) : option string :=
  if (String.length ts =? 24)%nat then Some (String.substring 0 10 ts) else None.

(** The message one engine gives the [RangeError] of [toISOString]. *)
Definition invalid_time : string := "Invalid time value".

Definition turn (ts : string) (input output : Z) : Analytics.AnalyticsMetadata :=
  {| Analytics.session_id := "session_1705312200000_abc1234";
     Analytics.execution_time_ms := 120;
     Analytics.invocation_count := 1;
     Analytics.input_tokens := input;
     Analytics.output_tokens := output;
     Analytics.total_tokens := input + output;
     Analytics.model := "bedrock";
     Analytics.department := "HR";
     Analytics.timestamp := ts;
     Analytics.locale := "en_US";
     Analytics.rag_mode := None |}.

Definition three_turns : list Analytics.AnalyticsMetadata :=
  [ turn "2024-01-15T09:50:00.000Z" 6 4;
    turn "2024-01-15T13:05:10.250Z" 12 8;
    turn "2024-01-15T23:59:59.999Z" 21 9 ].

End DailyExamples.

Module AuthExamples.

Definition user : value := VObj [("id", VStr "u-17"); ("email", VStr "ana@example.com")].

Definition session_without_refresh_token (expiresAt : Z) : value :=
  VObj [("token", VStr "tok-1"); ("expiresAt", VNum expiresAt); ("user", user)].

Definition session_with_refresh_token (expiresAt : Z) : value :=
  VObj [("token", VStr "tok-1"); ("refreshToken", VStr "ref-1");
        ("expiresAt", VNum expiresAt); ("user", user)].

(** A browser whose storage holds [session], at time [t]. *)
Definition world_with (session : value) (t : Z) : Browser.World :=
  {| Browser.localStorage := {[ Browser.tokenStorageKey := Json.stringify session ]};
     Browser.sessionStorage := ∅;
     Browser.now := t;
     Browser.sent := [] |}.

Definition signed_out_world (t : Z) : Browser.World :=
  {| Browser.localStorage := ∅; Browser.sessionStorage := ∅;
     Browser.now := t; Browser.sent := [] |}.

Definition offline (r : Browser.Request) : Browser.Exchange :=
  {| Browser.reply := Throw (TypeError "Failed to fetch"); Browser.duration := 30 |}.

Definition cfg : Browser.Config :=
  {| Browser.chatEndpoint := "https://api.example.com/prod/chat";
     Browser.authEndpoint := "https://api.example.com/prod/auth";
     Browser.analyticsEndpoint := "https://api.example.com/prod/analytics";
     Browser.apiKey := "" |}.

(** A refresh endpoint that grants a new token and nothing else, 30 ms
    later. *)
Definition renewed : list (string * value) :=
  [("token", VStr "tok-2"); ("expiresIn", VNum 7200)].

Definition refresh_server (r : Browser.Request) : Browser.Exchange :=
  {| Browser.reply := Ok {| Browser.status := 200; Browser.json := Ok (VObj renewed) |};
     Browser.duration := 30 |}.

Definition getStoredSession := Auth.getStoredSession Json.parse Json.coerce.

Definition refreshSession (network : Browser.Request -> Browser.Exchange) :=
  Auth.refreshSession Json.parse Json.stringify Json.coerce Json.display network cfg.

End AuthExamples.

Module LoginExamples.

Definition credentials : Auth.LoginCredentials :=
  {| Auth.email := "ana@example.com"; Auth.password := "correct horse" |}.

(** The decoded body of a successful reply, with the given [expiresIn]. *)
Definition granted (expiresIn : value) : list (string * value) :=
  [("token", VStr "tok-2"); ("refreshToken", VStr "ref-2");
   ("expiresIn", expiresIn); ("user", AuthExamples.user)].

(** An auth endpoint that answers every request, 30 ms later, with a
    direct-form grant. *)
Definition auth_server (expiresIn : value) (r : Browser.Request) : Browser.Exchange :=
  {| Browser.reply := Ok {| Browser.status := 200;
                            Browser.json := Ok (VObj (granted expiresIn)) |};
     Browser.duration := 30 |}.

Definition login (expiresIn : value) :=
  Auth.login Json.parse Json.stringify Json.coerce Json.display
    (auth_server expiresIn) AuthExamples.cfg credentials.

(** The same grant wrapped in an envelope with the given [statusCode]. *)
Definition enveloped (statusCode : value) : list (string * value) :=
  [("statusCode", statusCode); ("body", VStr (Json.stringify (VObj (granted (VNum 7200)))))].

Definition enveloped_server (statusCode : value) (r : Browser.Request) : Browser.Exchange :=
  {| Browser.reply := Ok {| Browser.status := 200;
                            Browser.json := Ok (VObj (enveloped statusCode)) |};
     Browser.duration := 30 |}.

Definition session (expiresAt : Z) : value :=
  Auth.AuthSession (VStr "tok-2") (VStr "ref-2") (VNum expiresAt) AuthExamples.user.

End LoginExamples.

Module ChatExamples.

Definition denied : value := VObj [("error", VStr "denied")].

Definition leave_question : ApiClient.ChatRequest :=
  {| ApiClient.messages :=
       [ {| ApiClient.role := "user"; ApiClient.content := "What is the leave policy?" |} ];
     ApiClient.department := "HR";
     ApiClient.session_id := None;
     ApiClient.locale := Some "en_US";
     ApiClient.rag_mode := None |}.

(** The chat endpoint answers with [response]; nothing else is reachable. *)
Definition chat_only (response : Browser.HttpResponse) (r : Browser.Request) : Browser.Exchange :=
  {| Browser.reply :=
       if String.eqb (Browser.url r) (Browser.chatEndpoint AuthExamples.cfg)
       then Ok response else Throw (TypeError "Failed to fetch");
     Browser.duration := 80 |}.

Definition proxy_403 : Browser.HttpResponse :=
  {| Browser.status := 200;
     Browser.json := Ok (VObj [("statusCode", VNum 403); ("body", VStr (Json.stringify denied))]) |}.

Definition direct_403 : Browser.HttpResponse :=
  {| Browser.status := 403; Browser.json := Ok denied |}.

Definition unavailable : Browser.HttpResponse :=
  {| Browser.status := 503;
     Browser.json := Ok (VObj [("message", VStr "Service Unavailable")]) |}.



Definition sendChatMessage (network : Browser.Request -> Browser.Exchange) :=
  ApiClient.sendChatMessage Json.parse Json.stringify Json.coerce Json.display network
    AuthExamples.cfg "k3j9x2a" (fun _ => "2024-01-15T10:30:00.000Z").

(** A question, its answer, and nothing rated yet. *)
Definition asked : ChatHook.Message :=
  {| ChatHook.id := "m-1"; ChatHook.role := ChatHook.user;
     ChatHook.content := "What is the leave policy?"; ChatHook.timestamp := 1700000000000;
     ChatHook.feedback := None; ChatHook.sources := None; ChatHook.analytics := None |}.

Definition answer (feedback : option Analytics.Rating) : ChatHook.Message :=
  {| ChatHook.id := "m-2"; ChatHook.role := ChatHook.assistant;
     ChatHook.content := "Leave accrues monthly."; ChatHook.timestamp := 1700000000080;
     ChatHook.feedback := feedback; ChatHook.sources := Some (VArr []);
     ChatHook.analytics := None |}.

Definition transcript : ChatHook.State :=
  {| ChatHook.messages := [asked; answer None];
     ChatHook.sessionIdRef := Some "session_1700000000000_k3j9x2a";
     ChatHook.hook := AnalyticsHook.initial |}.

End ChatExamples.

(** * Properties *)

Tactic Notation "run" "in" hyp(H) :=
  cbn [mbind mret outcome_bind outcome_ret Edge.body Edge.status negb] in H.

Tactic Notation "run_M" :=
  cbv beta iota zeta delta
      [mbind mret outcome_bind outcome_ret
       Browser.M_bind Browser.M_ret Browser.lift Browser.try_catch Browser.throw
       Browser.Date_now Browser.localStorage_getItem Browser.localStorage_removeItem
       Browser.localStorage_setItem].

(** Case analysis on every scrutinee of the goal, innermost first. *)
Ltac run_cases tac :=
  repeat match goal with
         | |- context [match ?x with _ => _ end] =>
             lazymatch x with
             | context [match _ with _ => _ end] => fail
             | _ => destruct x; tac
             end
         end.

(** ** Token estimate *)

Lemma Qceiling_quarter (n : Z) : 4 * (Qceiling (n # 4) - 1) < n <= 4 * Qceiling (n # 4).
Proof.
  unfold Qceiling, Qfloor, Qopp. cbn [Qnum Qden].
  pose proof (Z.div_mod (- n) 4 ltac:(lia)) as Hdm.
  pose proof (Z.mod_pos_bound (- n) 4 ltac:(lia)) as Hb.
  change (Z.pos 4) with 4. lia.
Qed.

(** C8.  For every text the estimate is the integer ceiling of a quarter of
    its length: the least [k] with [length text <= 4 * k]; the empty text
    estimates to 0.  The function is the same in the gateway and the Lambda
    variants. *)
Theorem estimateTokens_is_ceiling (coerce : value -> option Z) (text : string) :
  exists k : Z,
    Edge.estimateTokens coerce (VStr text) = Ok (VNum k)
    /\ 4 * (k - 1) < Z.of_nat (String.length text) <= 4 * k
    /\ Edge.estimateTokens coerce (VStr "") = Ok (VNum 0).
Proof.
  exists (Qceiling (Z.of_nat (String.length text) # 4)).
  split; [reflexivity|]. split; [apply Qceiling_quarter | reflexivity].
Qed.

(** ** Department lookup *)

Lemma own_unknown (d : string) (a b c e : value) :
  d ∉ known_departments ->
  own d [("HR", a); ("Finance", b); ("IT", c); ("Operations", e)] = None.
Proof.
  intros Hd. unfold known_departments in Hd. cbn [own].
  repeat match goal with
         | |- context [String.eqb d ?k] =>
             destruct (String.eqb_spec d k) as [->|_]; [exfalso; apply Hd; set_solver|]
         end.
  reflexivity.
Qed.

Lemma inherited_none (d : string) : d ∉ Object_prototype_keys -> inherited d = VUndefined.
Proof. intros Hd. unfold inherited. rewrite bool_decide_eq_false_2; done. Qed.

(** A department that is neither a key of the table nor a name found on
    [Object.prototype] gets the generic prompt and no sources. *)
Lemma department_fallback (d : string) :
  d ∉ known_departments -> d ∉ Object_prototype_keys ->
  Edge.systemPrompt (Some d) = VStr Edge.generic_prompt
  /\ Edge.generateSources (Some d) = VArr [].
Proof.
  intros Hk Hp. unfold Edge.systemPrompt, Edge.generateSources, lookup_obj, Edge.key_of.
  cbn [default]. unfold Edge.departmentPrompts, Edge.departmentSources.
  rewrite !own_unknown by done. rewrite inherited_none by done. done.
Qed.

(** An absent department is the key ["undefined"]. *)
Lemma department_absent :
  Edge.systemPrompt None = VStr Edge.generic_prompt /\ Edge.generateSources None = VArr [].
Proof. split; reflexivity. Qed.

(** Each known department has its two fixed entries. *)
Lemma generateSources_known :
  Edge.generateSources (Some "HR") =
    VArr [ Edge.source "Employee Handbook v3.2" "document" "HR-DOC-001";
           Edge.source "HR Policy Guidelines" "policy" "HR-POL-002" ]
  /\ Edge.generateSources (Some "Finance") =
    VArr [ Edge.source "Financial Procedures Manual" "document" "FIN-DOC-001";
           Edge.source "Expense Policy 2024" "policy" "FIN-POL-001" ]
  /\ Edge.generateSources (Some "IT") =
    VArr [ Edge.source "IT Security Handbook" "document" "IT-DOC-001";
           Edge.source "Software Request Portal" "link" "IT-SYS-001" ]
  /\ Edge.generateSources (Some "Operations") =
    VArr [ Edge.source "Operations Manual" "document" "OPS-DOC-001";
           Edge.source "Vendor Guidelines" "policy" "OPS-POL-001" ].
Proof. repeat split. Qed.

(** C7, at the department ["constructor"].  The string is none of the four
    keys, yet the lookup in the object literal finds the inherited
    [Object.prototype.constructor], which is truthy: the system prompt is
    that function instead of the generic prompt and [generateSources]
    returns it instead of the empty list, also in the reply of the
    endpoint. *)
Theorem department_constructor_not_generic :
  ("constructor" ∉ known_departments)
  /\ Edge.systemPrompt (Some "constructor") = VFun "Object"
  /\ Edge.systemPrompt (Some "constructor") <> VStr Edge.generic_prompt
  /\ Edge.generateSources (Some "constructor") = VFun "Object"
  /\ Edge.generateSources (Some "constructor") <> VArr []
  /\ exists content analytics,
       Edge.body (EdgeExamples.serve_gateway EdgeExamples.healthy_env
                    (EdgeExamples.post (EdgeExamples.question (Some "constructor"))))
       = Edge.ChatBody content analytics (VFun "Object").
Proof.
  split.
  { unfold known_departments. rewrite !not_elem_of_cons.
    repeat split; try discriminate. apply not_elem_of_nil. }
  split; [reflexivity|]. split; [vm_compute; congruence|].
  split; [reflexivity|]. split; [vm_compute; congruence|].
  eexists _, _. vm_compute. reflexivity.
Qed.

(** ** The edge handlers *)

Section EdgeProperties.
Variable JSON_parse : string -> option value.
Variable coerce : value -> option Z.
Variable display : value -> string.

Local Abbreviation serve_gateway := (Edge.serve_gateway JSON_parse coerce display).
Local Abbreviation serve_lambda := (Edge.serve_lambda JSON_parse coerce display).
Local Abbreviation serve_lambda_proxy := (Edge.serve_lambda_proxy JSON_parse coerce display).

Lemma estimate_of_string (text : string) :
  Edge.estimateTokens coerce (VStr text)
  = Ok (VNum (Qceiling (Z.of_nat (String.length text) # 4))).
Proof. reflexivity. Qed.

Lemma input_estimate_number (req : Edge.ChatRequest) :
  exists i, Edge.input_estimate coerce display req = Ok (VNum i).
Proof. unfold Edge.input_estimate. rewrite estimate_of_string. eauto. Qed.

(** The estimate of any value is a number or NaN. *)
Lemma estimate_number_or_nan (v o : value) :
  Edge.estimateTokens coerce v = Ok o -> (exists k, o = VNum k) \/ o = VNaN.
Proof.
  unfold Edge.estimateTokens. destruct (get v "length") as [len|]; cbn; [|discriminate].
  intros [= <-]. unfold Math_ceil_div. destruct (to_number coerce len); eauto.
Qed.

Lemma estimated_reply_tokens env req sid (i : Z) data resp c a s :
  Edge.estimated_reply coerce env req sid (VNum i) data = Ok resp ->
  Edge.body resp = Edge.ChatBody c a s ->
  exists choices len,
    get data "choices" = Ok choices
    /\ c = or_else (get_opt (get_opt (first_opt choices) "message") "content") (VStr "")
    /\ get c "length" = Ok len
    /\ Edge.input_tokens a = VNum i
    /\ Edge.output_tokens a = Math_ceil_div (to_number coerce len) 4
    /\ Edge.total_tokens a = add_num (Edge.input_tokens a) (Edge.output_tokens a).
Proof.
  unfold Edge.estimated_reply, Edge.estimateTokens. intros H Hb.
  destruct (get data "choices") as [choices|]; cbn [mbind outcome_bind] in H;
    [|discriminate].
  set (content := or_else _ (VStr "")) in H.
  destruct (get content "length") as [len|] eqn:Elen; cbn in H; [|discriminate].
  injection H as <-. cbn in Hb. injection Hb as <- <- <-.
  exists choices, len. cbn. by rewrite Elen.
Qed.

Lemma gateway_success env r c a s :
  Edge.body (serve_gateway env r) = Edge.ChatBody c a s ->
  exists req up data sid resp,
    Edge.json r = Ok req
    /\ Edge.fetched env = Ok up
    /\ JSON_parse (Edge.up_text up) = Some data
    /\ Edge.estimated_reply coerce env req sid
         (VNum (Qceiling
                  (Z.of_nat
                     (String.length
                        (Edge.inputText req
                         ++ JS.to_string display (Edge.systemPrompt (Edge.req_department req))))
                   # 4)))
         data
       = Ok resp
    /\ Edge.body resp = Edge.ChatBody c a s.
Proof.
  unfold Edge.serve_gateway, Edge.catch_all. intros H.
  destruct (String.eqb (Edge.method r) "OPTIONS"); [discriminate H|].
  destruct (Edge.json r) as [req|] eqn:Hreq; run in H; [|discriminate H].
  destruct (String.eqb (Edge.str_or (Edge.LOVABLE_API_KEY env) "") ""); run in H;
    [discriminate H|].
  unfold Edge.input_estimate in H. rewrite estimate_of_string in H. run in H.
  destruct (Edge.fetched env) as [up|] eqn:Hup; run in H; [|discriminate H].
  destruct (Edge.ok up); run in H.
  - unfold JS.parse in H.
    destruct (JSON_parse (Edge.up_text up)) as [data|] eqn:Hdata; run in H;
      [|discriminate H].
    destruct (Edge.estimated_reply coerce env req _ _ data) as [resp|] eqn:Er;
      run in H; [|discriminate H].
    eexists req, up, data, _, resp. repeat split; first [eassumption | reflexivity].
  - destruct (Edge.up_status up =? 429); [discriminate H|].
    destruct (Edge.up_status up =? 402); discriminate H.
Qed.

Lemma lambda_success env r c a s :
  Edge.body (serve_lambda env r) = Edge.ChatBody c a s ->
  exists req up data sid resp,
    Edge.json r = Ok req
    /\ Edge.fetched env = Ok up
    /\ JSON_parse (Edge.up_text up) = Some data
    /\ Edge.estimated_reply coerce env req sid
         (VNum (Qceiling
                  (Z.of_nat
                     (String.length
                        (Edge.inputText req
                         ++ JS.to_string display (Edge.systemPrompt (Edge.req_department req))))
                   # 4)))
         data
       = Ok resp
    /\ Edge.body resp = Edge.ChatBody c a s.
Proof.
  unfold Edge.serve_lambda, Edge.catch_all. intros H.
  destruct (String.eqb (Edge.method r) "OPTIONS"); [discriminate H|].
  destruct (Edge.json r) as [req|] eqn:Hreq; run in H; [|discriminate H].
  unfold Edge.input_estimate in H. rewrite estimate_of_string in H. run in H.
  destruct (Edge.fetched env) as [up|] eqn:Hup; run in H; [|discriminate H].
  destruct (Edge.ok up); run in H.
  - unfold JS.parse in H.
    destruct (JSON_parse (Edge.up_text up)) as [data|] eqn:Hdata; run in H;
      [|discriminate H].
    destruct (Edge.estimated_reply coerce env req _ _ data) as [resp|] eqn:Er;
      run in H; [|discriminate H].
    eexists req, up, data, _, resp. repeat split; first [eassumption | reflexivity].
  - destruct (Edge.up_status up =? 429); [discriminate H|].
    destruct (Edge.up_status up =? 403); discriminate H.
Qed.

Lemma proxy_success env r c a s :
  Edge.body (serve_lambda_proxy env r) = Edge.ChatBody c a s ->
  exists up reply bodyContent upstream_analytics,
    Edge.fetched env = Ok up
    /\ JSON_parse (Edge.up_text up) = Some reply
    /\ effective_body JSON_parse reply = Ok bodyContent
    /\ get bodyContent "analytics" = Ok upstream_analytics
    /\ Edge.input_tokens a = or_else (get_opt upstream_analytics "input_tokens") (VNum 0)
    /\ Edge.output_tokens a = or_else (get_opt upstream_analytics "output_tokens") (VNum 0)
    /\ Edge.total_tokens a = or_else (get_opt upstream_analytics "total_tokens") (VNum 0).
Proof.
  unfold Edge.serve_lambda_proxy, Edge.catch_all. intros H.
  destruct (String.eqb (Edge.method r) "OPTIONS"); [discriminate H|].
  destruct (Edge.json r) as [req|]; run in H; [|discriminate H].
  destruct (Edge.fetched env) as [up|]; run in H; [|discriminate H].
  unfold JS.parse in H.
  destruct (JSON_parse (Edge.up_text up)) as [reply|] eqn:Hparse;
    cbn [JS.try_catch] in H; run in H; [|discriminate H].
  exists up, reply. unfold effective_body.
  destruct (has_property "statusCode" reply) as [hasStatus|]; run in H;
    cbn [mbind outcome_bind]; [|discriminate H].
  destruct (if hasStatus then _ else _) as [hasBody|]; run in H;
    cbn [mbind outcome_bind]; [|discriminate H].
  assert (exists statusCode bodyContent,
             (if hasBody
              then statusCode ← get reply "statusCode";
                   b ← get reply "body";
                   mret (statusCode,
                         match b with
                         | VStr s0 => match JSON_parse s0 with
                                      | Some v => v
                                      | None => VObj [("response", b)]
                                      end
                         | _ => b
                         end)
              else mret (VNum (Edge.up_status up), reply))
             = Ok (statusCode, bodyContent)
             /\ (if hasBody
                 then b ← get reply "body";
                      mret (match b with
                            | VStr text => match JSON_parse text with
                                           | Some v => v
                                           | None => VObj [("response", b)]
                                           end
                            | _ => b
                            end)
                 else Ok reply)
                = Ok bodyContent)
    as (statusCode & bodyContent & Hpair & Hbody).
  { destruct hasBody; [|by eexists _, _].
    destruct (get reply "statusCode") as [statusCode|]; run in H; [|discriminate H].
    destruct (get reply "body") as [b|]; run in H; [|discriminate H].
    by eexists _, _. }
  rewrite Hpair in H. run in H. rewrite Hbody.
  destruct (_ || _); run in H.
  { destruct (strict_eq_num statusCode 429); [discriminate H|].
    destruct (_ || _); [discriminate H|].
    destruct (get bodyContent "error"); discriminate H. }
  destruct (get bodyContent "response"); run in H; [|discriminate H].
  destruct (get bodyContent "content"); run in H; [|discriminate H].
  destruct (get bodyContent "message"); run in H; [|discriminate H].
  destruct (get bodyContent "analytics") as [ua|] eqn:Hua; run in H; [|discriminate H].
  destruct (get bodyContent "sources"); run in H; [|discriminate H].
  injection H as <- <- <-. exists bodyContent, ua. cbn. by rewrite Hua.
Qed.

End EdgeProperties.

(** C3, as stated, fails in the Lambda-proxy variant: an upstream reply
    whose analytics say input 1, output 1, total 5 is passed through. *)
Lemma proxy_total_tokens_not_sum :
  exists c a s,
    EdgeExamples.serve_lambda_proxy
      (EdgeExamples.env_with {| Edge.up_status := 200;
                            Edge.up_text := EdgeExamples.lambda_reply_5_of_1_and_1 |})
      (EdgeExamples.post EdgeExamples.hr_request)
    = {| Edge.status := 200; Edge.body := Edge.ChatBody c a s |}
    /\ Edge.input_tokens a = VNum 1
    /\ Edge.output_tokens a = VNum 1
    /\ Edge.total_tokens a = VNum 5
    /\ Edge.total_tokens a <> add_num (Edge.input_tokens a) (Edge.output_tokens a).
Proof.
  eexists _, _, _. split; [vm_compute; reflexivity|].
  cbn. repeat split. discriminate.
Qed.

(** C3, amended.  In the gateway and Lambda variants the record of a
    successful reply has [input_tokens] = the ceiling of a quarter of the
    length of the joined message texts followed by the system prompt,
    [output_tokens] = the ceiling of a quarter of the length of the reply
    content, the content being [choices?.[0]?.message?.content || ""] of
    the upstream's JSON, and [total_tokens = input_tokens + output_tokens]:
    integers that add up when the content is a string, and NaN for both
    the output and the total when the content has no numeric length.  In
    the Lambda-proxy variant each of the three fields is the field of the
    [analytics] of the upstream's decoded body, or 0 when that is absent or
    falsy; nothing is added up. *)
Theorem total_tokens_by_variant
    (JSON_parse : string -> option value) (coerce : value -> option Z)
    (display : value -> string) (env : Edge.Env) (r : Edge.HttpRequest)
    (c : value) (a : Edge.AnalyticsMetadata) (s : value) :
  (Edge.body (Edge.serve_gateway JSON_parse coerce display env r) = Edge.ChatBody c a s
   \/ Edge.body (Edge.serve_lambda JSON_parse coerce display env r) = Edge.ChatBody c a s ->
   exists req up data choices len,
     Edge.json r = Ok req
     /\ Edge.fetched env = Ok up
     /\ JSON_parse (Edge.up_text up) = Some data
     /\ get data "choices" = Ok choices
     /\ c = or_else (get_opt (get_opt (first_opt choices) "message") "content") (VStr "")
     /\ get c "length" = Ok len
     /\ Edge.input_tokens a
        = VNum (Qceiling
                  (Z.of_nat
                     (String.length
                        (Edge.inputText req
                         ++ JS.to_string display (Edge.systemPrompt (Edge.req_department req))))
                   # 4))
     /\ Edge.output_tokens a = Math_ceil_div (to_number coerce len) 4
     /\ Edge.total_tokens a = add_num (Edge.input_tokens a) (Edge.output_tokens a)
     /\ (forall text,
           c = VStr text ->
           Edge.output_tokens a = VNum (Qceiling (Z.of_nat (String.length text) # 4))
           /\ Edge.total_tokens a
              = VNum (Qceiling
                        (Z.of_nat
                           (String.length
                              (Edge.inputText req
                               ++ JS.to_string display
                                    (Edge.systemPrompt (Edge.req_department req))))
                         # 4)
                      + Qceiling (Z.of_nat (String.length text) # 4)))
     /\ (to_number coerce len = None ->
         Edge.output_tokens a = VNaN /\ Edge.total_tokens a = VNaN))
  /\ (Edge.body (Edge.serve_lambda_proxy JSON_parse coerce display env r) = Edge.ChatBody c a s ->
      exists up reply bodyContent upstream_analytics,
        Edge.fetched env = Ok up
        /\ JSON_parse (Edge.up_text up) = Some reply
        /\ effective_body JSON_parse reply = Ok bodyContent
        /\ get bodyContent "analytics" = Ok upstream_analytics
        /\ Edge.input_tokens a = or_else (get_opt upstream_analytics "input_tokens") (VNum 0)
        /\ Edge.output_tokens a = or_else (get_opt upstream_analytics "output_tokens") (VNum 0)
        /\ Edge.total_tokens a = or_else (get_opt upstream_analytics "total_tokens") (VNum 0)).
Proof.
  split.
  - intros H.
    assert (exists req up data sid resp,
               Edge.json r = Ok req
               /\ Edge.fetched env = Ok up
               /\ JSON_parse (Edge.up_text up) = Some data
               /\ Edge.estimated_reply coerce env req sid
                    (VNum (Qceiling
                             (Z.of_nat
                                (String.length
                                   (Edge.inputText req
                                    ++ JS.to_string display
                                         (Edge.systemPrompt (Edge.req_department req))))
                              # 4)))
                    data
                  = Ok resp
               /\ Edge.body resp = Edge.ChatBody c a s)
      as (req & up & data & sid & resp & Hreq & Hup & Hdata & Hrun & Hbody).
    { destruct H as [H|H]; [eapply gateway_success | eapply lambda_success]; exact H. }
    destruct (estimated_reply_tokens _ _ _ _ _ _ _ _ _ _ Hrun Hbody)
      as (choices & len & Hchoices & Hc & Hlen & Hin & Hout & Htotal).
    exists req, up, data, choices, len.
    do 9 (split; [assumption|]). split.
    + intros text ->. cbn in Hlen. injection Hlen as <-.
      rewrite Htotal, Hin, Hout. cbn. done.
    + intros Hnan. rewrite Htotal, Hin, Hout, Hnan. cbn. done.
  - apply proxy_success.
Qed.

(** The success path is taken: a healthy gateway answers the HR question
    and the record adds up, 52 + 8 = 60; the Lambda proxy hands on an
    upstream record of 1, 1 and 5. *)
Lemma total_tokens_by_variant_witness :
  match Edge.body (EdgeExamples.serve_gateway EdgeExamples.healthy_env
                     (EdgeExamples.post EdgeExamples.hr_request)) with
  | Edge.ChatBody c a s =>
      Edge.total_tokens a = add_num (Edge.input_tokens a) (Edge.output_tokens a)
      /\ Edge.input_tokens a = VNum 52 /\ Edge.output_tokens a = VNum 8
      /\ Edge.total_tokens a = VNum 60
  | _ => False
  end
  /\ match Edge.body (Edge.serve_lambda_proxy Json.parse Json.coerce Json.display
                        (EdgeExamples.env_with
                           {| Edge.up_status := 200;
                              Edge.up_text := EdgeExamples.lambda_reply_5_of_1_and_1 |})
                        (EdgeExamples.post EdgeExamples.hr_request)) with
     | Edge.ChatBody c a s =>
         Edge.input_tokens a = VNum 1 /\ Edge.output_tokens a = VNum 1
         /\ Edge.total_tokens a = VNum 5
     | _ => False
     end.
Proof.
  split.
  - destruct (Edge.body _) as [| |c a s] eqn:E; try (vm_compute in E; discriminate E).
    destruct (proj1 (total_tokens_by_variant Json.parse Json.coerce Json.display
                       EdgeExamples.healthy_env (EdgeExamples.post EdgeExamples.hr_request)
                       c a s)
                (or_introl E))
      as (req & up & data & choices & len & Hreq & Hup & Hdata & Hchoices & Hc & Hlen
          & Hin & Hout & Hsum & Hstring & _).
    injection Hreq as <-. injection Hup as <-.
    vm_compute in Hdata. injection Hdata as <-.
    vm_compute in Hchoices. injection Hchoices as <-.
    vm_compute in Hc.
    destruct (Hstring _ Hc) as [Ho Ht].
    split; [exact Hsum|]. split; [rewrite Hin; vm_compute; reflexivity|].
    split; [rewrite Ho; vm_compute; reflexivity | rewrite Ht; vm_compute; reflexivity].
  - destruct (Edge.body _) as [| |c a s] eqn:E; try (vm_compute in E; discriminate E).
    destruct (proj2 (total_tokens_by_variant Json.parse Json.coerce Json.display
                       (EdgeExamples.env_with
                          {| Edge.up_status := 200;
                             Edge.up_text := EdgeExamples.lambda_reply_5_of_1_and_1 |})
                       (EdgeExamples.post EdgeExamples.hr_request) c a s) E)
      as (up & reply & bodyContent & ua & Hup & Hreply & Hbody & Hua & Hin & Hout & Htotal).
    injection Hup as <-.
    vm_compute in Hreply. injection Hreply as <-.
    vm_compute in Hbody. injection Hbody as <-.
    vm_compute in Hua. injection Hua as <-.
    rewrite Hin, Hout, Htotal. repeat split.
Defined.





(** ** Feedback records *)

Section Feedback.
Import Analytics.

Lemma trackFeedback_unfold id r prev :
  trackFeedback id r prev =
    match List.find (fun f => String.eqb (messageId f) id) prev with
    | Some _ => map (upsert_entry id r) prev
    | None => (prev ++ [ {| messageId := id; rating := r |} ])%list
    end.
Proof. reflexivity. Qed.

Lemma records_of_cons id f records :
  records_of id (f :: records) =
    if String.eqb (messageId f) id then f :: records_of id records else records_of id records.
Proof. reflexivity. Qed.

Lemma records_besides_cons id f records :
  records_besides id (f :: records) =
    if String.eqb (messageId f) id then records_besides id records
    else f :: records_besides id records.
Proof. unfold records_besides. cbn. by destruct (String.eqb (messageId f) id). Qed.

Lemma upsert_entry_id id r f : messageId (upsert_entry id r f) = messageId f.
Proof. unfold upsert_entry. by destruct (String.eqb (messageId f) id). Qed.

Lemma upsert_entry_hit id r f :
  messageId f = id -> upsert_entry id r f = {| messageId := id; rating := r |}.
Proof. intros <-. unfold upsert_entry. by rewrite String.eqb_refl. Qed.

Lemma upsert_entry_miss id r f : messageId f <> id -> upsert_entry id r f = f.
Proof. intros H%String.eqb_neq. unfold upsert_entry. by rewrite H. Qed.

Lemma find_none_records id prev :
  List.find (fun f => String.eqb (messageId f) id) prev = None -> records_of id prev = [].
Proof.
  induction prev as [|f prev IH]; [done|]. rewrite records_of_cons. cbn [List.find].
  destruct (String.eqb (messageId f) id); [discriminate | exact IH].
Qed.

Lemma upsert_ids id r prev :
  map messageId (map (upsert_entry id r) prev) = map messageId prev.
Proof.
  induction prev as [|f prev IH]; [done|]. cbn [map]. by rewrite IH, upsert_entry_id.
Qed.

Lemma upsert_absent id r prev :
  id ∉ map messageId prev -> map (upsert_entry id r) prev = prev.
Proof.
  induction prev as [|f prev IH]; [done|]. cbn [map].
  rewrite not_elem_of_cons. intros [Hne Hnotin].
  rewrite IH by done. by rewrite upsert_entry_miss.
Qed.

Lemma records_of_absent id prev :
  id ∉ map messageId prev -> records_of id prev = [].
Proof.
  induction prev as [|f prev IH]; [done|]. cbn [map]. rewrite records_of_cons.
  rewrite not_elem_of_cons. intros [Hne Hnotin].
  destruct (String.eqb_spec (messageId f) id); [congruence | auto].
Qed.

Lemma upsert_records id r prev f0 :
  NoDup (map messageId prev) ->
  List.find (fun f => String.eqb (messageId f) id) prev = Some f0 ->
  records_of id (map (upsert_entry id r) prev) = [ {| messageId := id; rating := r |} ].
Proof.
  induction prev as [|f prev IH]; [discriminate|]. cbn [map List.find].
  rewrite NoDup_cons, records_of_cons, upsert_entry_id. intros [Hnotin Hnd].
  destruct (String.eqb_spec (messageId f) id) as [Heq|Hne].
  - intros _. rewrite upsert_entry_hit by done. f_equal.
    rewrite Heq in Hnotin. rewrite upsert_absent by done. by apply records_of_absent.
  - intros Hfind. by apply IH.
Qed.

Lemma upsert_other id id' r prev :
  id' <> id -> records_of id' (map (upsert_entry id r) prev) = records_of id' prev.
Proof.
  intros Hne. induction prev as [|f prev IH]; [done|]. cbn [map].
  rewrite !records_of_cons, upsert_entry_id, IH.
  destruct (String.eqb_spec (messageId f) id') as [Heq|_]; [|done].
  rewrite upsert_entry_miss by congruence. done.
Qed.

Lemma upsert_besides id r prev :
  records_besides id (map (upsert_entry id r) prev) = records_besides id prev.
Proof.
  induction prev as [|f prev IH]; [done|]. cbn [map].
  rewrite !records_besides_cons, upsert_entry_id, IH.
  destruct (String.eqb_spec (messageId f) id) as [|Hne]; [done|].
  by rewrite upsert_entry_miss.
Qed.

(** One call: a single record for the message with the new rating, the
    others as they were, and still one record per message. *)
Lemma trackFeedback_step id r prev :
  NoDup (map messageId prev) ->
  NoDup (map messageId (trackFeedback id r prev))
  /\ records_of id (trackFeedback id r prev) = [ {| messageId := id; rating := r |} ]
  /\ (forall id', id' <> id -> records_of id' (trackFeedback id r prev) = records_of id' prev)
  /\ records_besides id (trackFeedback id r prev) = records_besides id prev.
Proof.
  intros Hnd. rewrite trackFeedback_unfold.
  destruct (List.find _ prev) as [f0|] eqn:Hfind.
  - rewrite upsert_ids. split; [done|]. split; [by eapply upsert_records|].
    split; [intros; by apply upsert_other | apply upsert_besides].
  - assert (Hnotin : id ∉ map messageId prev).
    { intros Hin. apply list_elem_of_In, in_map_iff in Hin as (f & Hf & Hin).
      eapply List.find_none in Hfind; [|exact Hin]. cbn in Hfind.
      rewrite Hf, String.eqb_refl in Hfind. discriminate. }
    unfold records_of, records_besides. rewrite map_app, !List.filter_app. cbn.
    rewrite String.eqb_refl. cbn. repeat split.
    + apply NoDup_app. split; [done|]. split; [|apply NoDup_singleton].
      intros x Hx Hx'. apply list_elem_of_singleton in Hx' as ->. done.
    + fold (records_of id prev). by rewrite find_none_records.
    + intros id' Hne. rewrite List.filter_app. cbn.
      destruct (String.eqb_spec id id'); [congruence|]. by rewrite app_nil_r.
    + by rewrite app_nil_r.
Qed.

Lemma feedbackRecords_snoc calls id r :
  feedbackRecords (calls ++ [(id, r)]) = trackFeedback id r (feedbackRecords calls).
Proof. unfold feedbackRecords. by rewrite fold_left_app. Qed.

Lemma latest_snoc id id' r calls :
  latest id (calls ++ [(id', r)]) = if String.eqb id' id then Some r else latest id calls.
Proof.
  unfold latest. rewrite List.filter_app. cbn.
  destruct (String.eqb id' id); cbn.
  - rewrite List.map_app. cbn [map snd]. apply last_snoc.
  - by rewrite app_nil_r.
Qed.

Lemma feedbackRecords_invariant calls :
  NoDup (map messageId (feedbackRecords calls))
  /\ forall id, records_of id (feedbackRecords calls) =
                match latest id calls with
                | Some r => [ {| messageId := id; rating := r |} ]
                | None => []
                end.
Proof.
  induction calls as [|[id' r] calls [IHnd IHrec]] using rev_ind.
  - split; [apply NoDup_nil_2 | done].
  - rewrite feedbackRecords_snoc.
    destruct (trackFeedback_step id' r _ IHnd) as (Hnd & Hrec & Hother & _).
    split; [exact Hnd|]. intros id. rewrite latest_snoc.
    destruct (String.eqb_spec id' id) as [<-|Hne]; [exact Hrec|].
    rewrite Hother by congruence. apply IHrec.
Qed.

End Feedback.

(** C6.  After any sequence of [trackFeedback] calls the list has at most
    one record per message id; the records of a message are exactly one
    record with the rating of the latest call for it (none if it was never
    rated); a call leaves the records of the other messages as they were;
    and two calls for one message leave the single record with the second
    rating. *)
Theorem feedback_upsert (calls : list (string * Analytics.Rating)) :
  NoDup (map Analytics.messageId (Analytics.feedbackRecords calls))
  /\ (forall id,
        records_of id (Analytics.feedbackRecords calls) =
          match latest id calls with
          | Some r => [ {| Analytics.messageId := id; Analytics.rating := r |} ]
          | None => []
          end)
  /\ (forall id r,
        records_besides id (Analytics.trackFeedback id r (Analytics.feedbackRecords calls))
        = records_besides id (Analytics.feedbackRecords calls))
  /\ (forall id r1 r2,
        records_of id (Analytics.trackFeedback id r2
                         (Analytics.trackFeedback id r1 (Analytics.feedbackRecords calls)))
        = [ {| Analytics.messageId := id; Analytics.rating := r2 |} ]).
Proof.
  destruct (feedbackRecords_invariant calls) as [Hnd Hrec].
  split; [exact Hnd|]. split; [exact Hrec|]. split.
  - intros id r. by apply trackFeedback_step.
  - intros id r1 r2.
    destruct (trackFeedback_step id r1 _ Hnd) as (Hnd1 & _).
    by apply trackFeedback_step.
Qed.

(** Like, then dislike, for message ["m1"], with another message rated in
    between: one record for ["m1"], holding [dislike]. *)
Example feedback_like_then_dislike :
  Analytics.feedbackRecords
    [("m1", Analytics.like); ("m2", Analytics.like); ("m1", Analytics.dislike)]
  = [ {| Analytics.messageId := "m1"; Analytics.rating := Analytics.dislike |};
      {| Analytics.messageId := "m2"; Analytics.rating := Analytics.like |} ].
Proof. reflexivity. Qed.

(** ** Daily usage *)

Section DailyUsage.
Import Analytics.
Variable isoDate : string -> option string.
Variable invalid_time : string.

Local Abbreviation on_day := (on_day isoDate).
Local Abbreviation count_on := (count_on isoDate).
Local Abbreviation tokens_on := (tokens_on isoDate).
Local Abbreviation entry_after := (entry_after isoDate).

Lemma daily_step_lookup dailyMap a d0 :
  isoDate (timestamp a) = Some d0 ->
  exists m, daily_step isoDate invalid_time dailyMap a = Ok m
    /\ m !! d0 = Some ((default (0, 0) (dailyMap !! d0)).1 + 1,
                       (default (0, 0) (dailyMap !! d0)).2 + total_tokens a)
    /\ forall d, d <> d0 -> m !! d = dailyMap !! d.
Proof.
  intros Hd. unfold daily_step. rewrite Hd. eexists. split; [reflexivity|].
  destruct (dailyMap !! d0) as [e|] eqn:He.
  - split.
    + by rewrite lookup_alter_eq, He.
    + intros d Hne. by rewrite lookup_alter_ne.
  - split.
    + by rewrite lookup_alter_eq, lookup_insert_eq.
    + intros d Hne. by rewrite lookup_alter_ne, lookup_insert_ne.
Qed.

Lemma daily_fill_lookup history : forall dailyMap,
  Forall (fun a => is_Some (isoDate (timestamp a))) history ->
  exists m, daily_fill isoDate invalid_time dailyMap history = Ok m
    /\ forall d, m !! d = entry_after (dailyMap !! d) d history.
Proof.
  induction history as [|a history IH]; intros dailyMap Hvalid.
  - exists dailyMap. split; [reflexivity|]. intros d. reflexivity.
  - apply Forall_cons in Hvalid as [[d0 Hd0] Hvalid].
    destruct (daily_step_lookup dailyMap a d0 Hd0) as (m1 & Hstep & Hhit & Hmiss).
    destruct (IH m1 Hvalid) as (m & Hfill & Hlookup).
    exists m. split.
    { cbn [daily_fill]. rewrite Hstep. exact Hfill. }
    intros d. rewrite Hlookup. unfold entry_after, count_on, tokens_on, on_day.
    cbn [List.filter]. rewrite Hd0.
    destruct (decide (d = d0)) as [->|Hne].
    + rewrite bool_decide_eq_true_2 by done. rewrite Hhit.
      destruct (default (0, 0) (dailyMap !! d0)) as [n0 t0].
      destruct (List.filter _ history) as [|b rest]; cbn [default fst snd foldr List.length].
      * f_equal. f_equal; lia.
      * cbn. f_equal. f_equal; lia.
    + rewrite bool_decide_eq_false_2 by congruence. by rewrite Hmiss.
Qed.

Lemma on_day_nonempty d history :
  on_day d history <> [] <-> exists a, a ∈ history /\ isoDate (timestamp a) = Some d.
Proof.
  unfold on_day. split.
  - destruct (List.filter _ history) as [|a rest] eqn:E; [done|]. intros _.
    assert (Hin : In a (List.filter (fun a => bool_decide (isoDate (timestamp a) = Some d)) history))
      by (rewrite E; left; reflexivity).
    apply List.filter_In in Hin as [Hin Hd]. exists a.
    split; [by apply list_elem_of_In | by apply bool_decide_eq_true_1 in Hd].
  - intros (a & Hin & Hd) E.
    assert (In a (List.filter (fun a => bool_decide (isoDate (timestamp a) = Some d)) history)) as Hf.
    { apply List.filter_In. split; [by apply list_elem_of_In | by apply bool_decide_eq_true_2]. }
    rewrite E in Hf. destruct Hf.
Qed.

End DailyUsage.

(** C9.  When every timestamp is a date, the aggregation returns one bucket
    per calendar day that occurs in the history: its [messages] is the
    number of records of that day and its [tokens] the sum of their
    [total_tokens].  Three records of one day with 10, 20 and 30 tokens give
    the single bucket [{date, messages: 3, tokens: 60}]. *)
Theorem daily_buckets (isoDate : string -> option string) (invalid_time : string)
    (history : list Analytics.AnalyticsMetadata)
    (Hvalid : Forall (fun a => is_Some (isoDate (Analytics.timestamp a))) history) :
  exists buckets,
    Analytics.dailyUsage isoDate invalid_time history = Ok buckets
    /\ NoDup (map Analytics.date buckets)
    /\ (forall d n t,
          {| Analytics.date := d; Analytics.messages := n; Analytics.tokens := t |} ∈ buckets
          <-> (exists a, a ∈ history /\ isoDate (Analytics.timestamp a) = Some d)
              /\ n = count_on isoDate d history
              /\ t = tokens_on isoDate d history)
    /\ (forall a1 a2 a3 d,
          history = [a1; a2; a3] ->
          isoDate (Analytics.timestamp a1) = Some d ->
          isoDate (Analytics.timestamp a2) = Some d ->
          isoDate (Analytics.timestamp a3) = Some d ->
          Analytics.total_tokens a1 = 10 ->
          Analytics.total_tokens a2 = 20 ->
          Analytics.total_tokens a3 = 30 ->
          buckets = [ {| Analytics.date := d; Analytics.messages := 3;
                         Analytics.tokens := 60 |} ]).
Proof.
  destruct (daily_fill_lookup isoDate invalid_time history ∅ Hvalid)
    as (m & Hfill & Hlookup).
  assert (Hentry : forall d, m !! d = entry_after isoDate None d history).
  { intros d. rewrite Hlookup. by rewrite lookup_empty. }
  eexists. split; [unfold Analytics.dailyUsage; rewrite Hfill; reflexivity|].
  split; [|split].
  - rewrite <- list_fmap_compose.
    change (NoDup ((map_to_list m).*1)). apply NoDup_fst_map_to_list.
  - intros d n t. rewrite list_elem_of_fmap. split.
    + intros ([d' [n' t']] & Heq & Hin). cbn in Heq. injection Heq as -> -> ->.
      apply elem_of_map_to_list in Hin. rewrite Hentry in Hin.
      unfold entry_after in Hin.
      destruct (on_day isoDate d' history) as [|a rest] eqn:E; [discriminate|].
      injection Hin as <- <-. cbn [default fst snd].
      split; [|split; lia].
      apply on_day_nonempty. by rewrite E.
    + intros (Hex & -> & ->). exists (d, (count_on isoDate d history, tokens_on isoDate d history)).
      split; [reflexivity|]. apply elem_of_map_to_list. rewrite Hentry.
      apply on_day_nonempty in Hex. unfold entry_after.
      destruct (on_day isoDate d history); [done|]. reflexivity.
  - intros a1 a2 a3 d -> H1 H2 H3 T1 T2 T3.
    assert (m = {[ d := (3, 60) ]}) as ->.
    { apply map_eq. intros d'. rewrite Hentry.
      unfold entry_after, count_on, tokens_on, on_day. cbn [List.filter].
      rewrite H1, H2, H3. destruct (decide (d' = d)) as [->|Hne].
      - rewrite bool_decide_eq_true_2 by done. cbn. rewrite T1, T2, T3.
        by rewrite lookup_singleton_eq.
      - rewrite bool_decide_eq_false_2 by congruence. by rewrite lookup_singleton_ne. }
    by rewrite map_to_list_singleton.
Qed.

(** Three turns on 15 January 2024 with 10, 20 and 30 tokens. *)
Lemma daily_buckets_witness :
  Analytics.dailyUsage DailyExamples.utc_date DailyExamples.invalid_time
    DailyExamples.three_turns
  = Ok [ {| Analytics.date := "2024-01-15"; Analytics.messages := 3; Analytics.tokens := 60 |} ].
Proof.
  destruct (daily_buckets DailyExamples.utc_date DailyExamples.invalid_time
              DailyExamples.three_turns
              ltac:(repeat constructor; by eexists))
    as (buckets & Hrun & _ & _ & Hthree).
  rewrite Hrun. f_equal. eapply Hthree; reflexivity.
Defined.

(** ** The stored session *)

(** C10.  [getStoredSession] never throws.  It returns [null] and leaves
    storage alone when the key is absent (or holds the empty string) and
    when the stored text is not JSON; when the parsed session has
    [expiresAt < now] it removes the key and returns [null]; otherwise it
    returns the parsed value as it is (for a stored [null], that is [null]). *)
Theorem getStoredSession_total
    (JSON_parse : string -> option value) (coerce : value -> option Z)
    (w : Browser.World) :
  (exists session w', Auth.getStoredSession JSON_parse coerce w = (Ok session, w'))
  /\ (Browser.localStorage w !! Browser.tokenStorageKey = None ->
      Auth.getStoredSession JSON_parse coerce w = (Ok VNull, w))
  /\ (forall text,
        Browser.localStorage w !! Browser.tokenStorageKey = Some text ->
        text = "" \/ JSON_parse text = None ->
        Auth.getStoredSession JSON_parse coerce w = (Ok VNull, w))
  /\ (forall text session expiresAt,
        Browser.localStorage w !! Browser.tokenStorageKey = Some text ->
        text <> "" ->
        JSON_parse text = Some session ->
        get session "expiresAt" = Ok expiresAt ->
        Auth.getStoredSession JSON_parse coerce w
        = if lt_num coerce expiresAt (Browser.now w)
          then (Ok VNull, signed_out w)
          else (Ok session, w))
  /\ (forall text,
        Browser.localStorage w !! Browser.tokenStorageKey = Some text ->
        text <> "" ->
        JSON_parse text = Some VNull ->
        Auth.getStoredSession JSON_parse coerce w = (Ok VNull, w)).
Proof.
  unfold Auth.getStoredSession. run_M.
  destruct (Browser.localStorage w !! Browser.tokenStorageKey) as [text|] eqn:Hstored.
  2:{ repeat split; try discriminate. eauto. }
  destruct (String.eqb_spec text "") as [->|Hne].
  { repeat split; try (intros; congruence). eauto. }
  unfold JS.parse. destruct (JSON_parse text) as [session|] eqn:Hparse; run_M.
  2:{ repeat split; try (intros; congruence). eauto. }
  destruct (get session "expiresAt") as [expiresAt|e] eqn:Hget; run_M.
  - destruct (lt_num coerce expiresAt (Browser.now w)) eqn:Hlt; run_M.
    + split; [eauto|]. split; [discriminate|]. split.
      { intros ? [= <-] [|]; congruence. }
      split.
      { intros ? ? ? [= <-] _ Hp Hg. rewrite Hparse in Hp. injection Hp as <-.
        rewrite Hget in Hg. injection Hg as <-. by rewrite Hlt. }
      intros ? [= <-] _ Hp. rewrite Hparse in Hp. injection Hp as ->. discriminate Hget.
    + split; [eauto|]. split; [discriminate|]. split.
      { intros ? [= <-] [|]; congruence. }
      split.
      { intros ? ? ? [= <-] _ Hp Hg. rewrite Hparse in Hp. injection Hp as <-.
        rewrite Hget in Hg. injection Hg as <-. by rewrite Hlt. }
      intros ? [= <-] _ Hp. rewrite Hparse in Hp. injection Hp as ->. discriminate Hget.
  - split; [eauto|]. split; [discriminate|]. split.
    { intros ? [= <-] [|]; congruence. }
    split.
    { intros ? ? ? [= <-] _ Hp Hg. rewrite Hparse in Hp. injection Hp as <-.
      rewrite Hget in Hg. discriminate Hg. }
    done.
Qed.

(** ** Session refresh *)

Section Refresh.
Variable JSON_parse : string -> option value.
Variable JSON_stringify : value -> string.
Variable coerce : value -> option Z.
Variable display : value -> string.
Variable network : Browser.Request -> Browser.Exchange.
Variable cfg : Browser.Config.

Local Abbreviation getStoredSession := (Auth.getStoredSession JSON_parse coerce).
Local Abbreviation refresh_request := (Auth.refresh_request JSON_stringify cfg).
Local Abbreviation refresh_attempt :=
  (Auth.refresh_attempt JSON_parse JSON_stringify coerce display network cfg).
Local Abbreviation refreshSession :=
  (Auth.refreshSession JSON_parse JSON_stringify coerce display network cfg).

Lemma getStoredSession_world w :
  exists session,
    getStoredSession w = (Ok session, w)
    \/ (session = VNull /\ getStoredSession w = (Ok VNull, signed_out w)).
Proof.
  unfold Auth.getStoredSession. run_M.
  destruct (Browser.localStorage w !! Browser.tokenStorageKey) as [text|]; [|eauto].
  destruct (String.eqb text ""); [eauto|].
  unfold JS.parse. destruct (JSON_parse text) as [session|]; run_M; [|eauto].
  destruct (get session "expiresAt") as [expiresAt|]; run_M; [|eauto].
  destruct (lt_num coerce expiresAt (Browser.now w)); run_M; eauto.
Qed.

Lemma refreshToken_object (session : value) :
  truthy (get_opt session "refreshToken") = true -> exists fields, session = VObj fields.
Proof. destruct session; cbn; try discriminate; eauto. Qed.

Lemma shouldRefresh_number (e t : Z) :
  Auth.shouldRefresh coerce (VNum e) t = true <-> e - t < 5 * 60 * 1000.
Proof. unfold Auth.shouldRefresh. cbn. apply Z.ltb_lt. Qed.

Lemma refreshSession_unfold w :
  refreshSession w =
    match getStoredSession w with
    | (Ok session, w1) =>
        if negb (truthy (get_opt session "refreshToken")) then (Ok VNull, w1) else
        match get session "expiresAt" with
        | Ok expiresAt =>
            if negb (Auth.shouldRefresh coerce expiresAt (Browser.now w1))
            then (Ok session, w1)
            else refresh_attempt session (get_opt session "refreshToken") w1
        | Throw e => (Throw e, w1)
        end
    | (Throw e, w1) => (Throw e, w1)
    end.
Proof.
  unfold Auth.refreshSession, refresh_attempt.
  cbv beta iota zeta delta [mbind mret Browser.M_bind Browser.M_ret Browser.lift Browser.Date_now].
  destruct (getStoredSession w) as [[session|e] w1]; [|reflexivity].
  destruct (negb (truthy (get_opt session "refreshToken"))); [reflexivity|].
  destruct (get session "expiresAt"); [|reflexivity].
  destruct (negb _); reflexivity.
Qed.

(** Once the refresh request is sent, nothing the reply holds changes the
    list of requests. *)
Lemma refresh_attempt_sent session refreshToken w :
  Browser.sent (refresh_attempt session refreshToken w).2
  = (Browser.sent w ++ [refresh_request refreshToken])%list.
Proof.
  unfold refresh_attempt, Auth.clearSession, Auth.storeSession, Browser.fetch. run_M.
  run_cases ltac:(run_M); reflexivity.
Qed.

(** C1, amended.  With [session] the value [getStoredSession] returns:
    without a refresh token [refreshSession] returns [null], sends nothing
    and leaves storage as [getStoredSession] left it; with a refresh token
    and [expiresAt - now >= 5 minutes] it returns the stored session and
    changes nothing; with a refresh token and [expiresAt - now < 5 minutes]
    it posts the refresh request.  Hence a request is sent only when a
    refresh token is stored and the expiry is less than five minutes away. *)
Theorem refreshSession_cases (w w1 : Browser.World) (session : value)
    (Hread : getStoredSession w = (Ok session, w1)) :
  (truthy (get_opt session "refreshToken") = false ->
   refreshSession w = (Ok VNull, w1) /\ Browser.sent w1 = Browser.sent w)
  /\ (truthy (get_opt session "refreshToken") = true ->
      exists expiresAt,
        get session "expiresAt" = Ok expiresAt /\ w1 = w
        /\ (Auth.shouldRefresh coerce expiresAt (Browser.now w) = false ->
            refreshSession w = (Ok session, w))
        /\ (Auth.shouldRefresh coerce expiresAt (Browser.now w) = true ->
            Browser.sent (refreshSession w).2
            = (Browser.sent w ++ [refresh_request (get_opt session "refreshToken")])%list))
  /\ (Browser.sent (refreshSession w).2 <> Browser.sent w ->
      truthy (get_opt session "refreshToken") = true
      /\ exists expiresAt,
          get session "expiresAt" = Ok expiresAt
          /\ Auth.shouldRefresh coerce expiresAt (Browser.now w) = true)
  /\ (forall e : Z,
        Auth.shouldRefresh coerce (VNum e) (Browser.now w) = true
        <-> e - Browser.now w < 5 * 60 * 1000).
Proof.
  assert (Hsent1 : Browser.sent w1 = Browser.sent w).
  { destruct (getStoredSession_world w) as [s [H|[_ H]]];
      rewrite Hread in H; by injection H as _ ->. }
  assert (Hobj : truthy (get_opt session "refreshToken") = true ->
                 exists expiresAt, get session "expiresAt" = Ok expiresAt /\ w1 = w).
  { intros Hrt. destruct (refreshToken_object _ Hrt) as [fields ->].
    eexists. split; [reflexivity|].
    destruct (getStoredSession_world w) as [s [H|[_ H]]];
      rewrite Hread in H; by injection H. }
  pose proof (refreshSession_unfold w) as Hrun. rewrite Hread in Hrun.
  split; [|split; [|split]].
  - intros Hrt. rewrite Hrt in Hrun. done.
  - intros Hrt. destruct (Hobj Hrt) as (expiresAt & Hexp & ->).
    exists expiresAt. split; [done|]. split; [done|].
    rewrite Hrt, Hexp in Hrun. cbn [negb] in Hrun. split.
    + intros Hno. by rewrite Hno in Hrun.
    + intros Hyes. rewrite Hyes in Hrun. cbn [negb] in Hrun. rewrite Hrun.
      apply refresh_attempt_sent.
  - intros Hsent. destruct (truthy (get_opt session "refreshToken")) eqn:Hrt.
    + split; [done|]. destruct (Hobj eq_refl) as (expiresAt & Hexp & ->).
      exists expiresAt. split; [done|].
      rewrite Hexp in Hrun. cbn [negb] in Hrun.
      destruct (Auth.shouldRefresh coerce expiresAt (Browser.now w)); [done|].
      cbn [negb] in Hrun. rewrite Hrun in Hsent. done.
    + cbn [negb] in Hrun. rewrite Hrun in Hsent. done.
  - intros e. apply shouldRefresh_number.
Qed.

End Refresh.

(** C1, as stated, fails: a session stored without a refresh token, ten
    minutes before its expiry, is what [getStoredSession] returns, but
    [refreshSession] returns [null]. *)
Lemma refreshSession_null_without_refresh_token :
  (AuthExamples.getStoredSession
     (AuthExamples.world_with (AuthExamples.session_without_refresh_token 1700000600000)
        1700000000000)).1
  = Ok (AuthExamples.session_without_refresh_token 1700000600000)
  /\ (AuthExamples.refreshSession AuthExamples.offline
        (AuthExamples.world_with (AuthExamples.session_without_refresh_token 1700000600000)
           1700000000000)).1
     = Ok VNull
  /\ AuthExamples.session_without_refresh_token 1700000600000 <> VNull.
Proof. repeat split; [vm_compute; reflexivity .. | discriminate]. Qed.

(** A session with a refresh token, ten minutes before its expiry, comes
    back as it is and nothing is sent. *)
Lemma refreshSession_cases_witness :
  AuthExamples.refreshSession AuthExamples.offline
    (AuthExamples.world_with (AuthExamples.session_with_refresh_token 1700000600000)
       1700000000000)
  = (Ok (AuthExamples.session_with_refresh_token 1700000600000),
     AuthExamples.world_with (AuthExamples.session_with_refresh_token 1700000600000)
       1700000000000).
Proof.
  destruct (refreshSession_cases Json.parse Json.stringify Json.coerce Json.display
              AuthExamples.offline AuthExamples.cfg
              (AuthExamples.world_with (AuthExamples.session_with_refresh_token 1700000600000)
                 1700000000000)
              (AuthExamples.world_with (AuthExamples.session_with_refresh_token 1700000600000)
                 1700000000000)
              (AuthExamples.session_with_refresh_token 1700000600000)
              ltac:(vm_compute; reflexivity))
    as (_ & Hfresh & _).
  destruct (Hfresh eq_refl) as (expiresAt & Hexp & _ & Hkeep & _).
  apply Hkeep. injection Hexp as <-. reflexivity.
Defined.

(** ** Login and signup *)

Section Login.
Variable JSON_parse : string -> option value.
Variable JSON_stringify : value -> string.
Variable coerce : value -> option Z.
Variable display : value -> string.
Variable network : Browser.Request -> Browser.Exchange.
Variable cfg : Browser.Config.

Local Abbreviation authenticate :=
  (Auth.authenticate JSON_parse JSON_stringify coerce display network cfg).
Local Abbreviation auth_request := (Auth.auth_request JSON_stringify cfg).

Lemma expiry_supplied (t n : Z) : n <> 0 -> Auth.expiry coerce t (VNum n) = VNum (t + n * 1000).
Proof.
  intros Hn. unfold Auth.expiry, or_else. cbn [truthy].
  apply Z.eqb_neq in Hn. rewrite Hn. reflexivity.
Qed.

Lemma expiry_default (t : Z) (expiresIn : value) :
  truthy expiresIn = false -> Auth.expiry coerce t expiresIn = VNum (t + 3600 * 1000).
Proof. intros H. unfold Auth.expiry, or_else. rewrite H. reflexivity. Qed.

(** C4, amended.  On a successful login or signup (an OK response whose
    decoded body has no error and has a token and a user) the session
    returned and stored under the token key has
    [expiresAt = now + (expiresIn || 3600) * 1000], [now] being the time the
    reply arrived: a supplied non-zero [expiresIn] is used, an absent,
    [null] or zero one gives the 3600-second default. *)
Theorem authenticate_expiry (w : Browser.World) (path : string) (credentials : value)
    (failed : string) (response : Browser.HttpResponse) (data : value)
    (fields : list (string * value))
    (Hreply : Browser.reply (network (auth_request path credentials)) = Ok response)
    (Hok : Browser.ok response = true)
    (Hjson : Browser.json response = Ok data)
    (Hparsed : Auth.parseLambdaResponse JSON_parse display data = Ok (VObj fields))
    (Herror : truthy (lookup_obj fields "error") = false)
    (Htoken : truthy (lookup_obj fields "token") = true)
    (Huser : truthy (lookup_obj fields "user") = true) :
  let w' := Browser.delivered network (auth_request path credentials) w in
  let expiresAt := Auth.expiry coerce (Browser.now w') (lookup_obj fields "expiresIn") in
  let session := Auth.AuthSession (lookup_obj fields "token") (lookup_obj fields "refreshToken")
                                  expiresAt (lookup_obj fields "user") in
  authenticate path credentials failed w = (Ok session, signed_in (JSON_stringify session) w')
  /\ get session "expiresAt" = Ok expiresAt
  /\ (forall n, lookup_obj fields "expiresIn" = VNum n -> n <> 0 ->
      expiresAt = VNum (Browser.now w' + n * 1000))
  /\ (truthy (lookup_obj fields "expiresIn") = false ->
      expiresAt = VNum (Browser.now w' + 3600 * 1000))
  /\ (forall c, Auth.login JSON_parse JSON_stringify coerce display network cfg c
                = authenticate "/login" (Auth.login_json c) "Login failed")
  /\ (forall c, Auth.signup JSON_parse JSON_stringify coerce display network cfg c
                = authenticate "/signup" (Auth.signup_json c) "Signup failed").
Proof.
  cbv zeta. split; [|split; [reflexivity|split; [|split; [|split; reflexivity]]]].
  - unfold Auth.authenticate, Auth.storeSession, Browser.fetch. run_M.
    rewrite Hreply. run_M.
    rewrite Hjson. run_M. rewrite Hparsed. run_M.
    cbn [get]. run_M. rewrite Hok, Herror. cbn [negb orb]. run_M.
    rewrite Htoken, Huser. cbn [negb orb]. run_M. reflexivity.
  - intros n -> Hn. by apply expiry_supplied.
  - apply expiry_default.
Qed.

End Login.

(** C4, as stated, fails: the provider supplies [expiresIn = 0], the reply
    arrives at 1700000000030, and the session returned and stored expires
    at 1700000000030 + 3600000, not at 1700000000030 + 0. *)
Lemma login_expiresIn_zero_gets_default :
  (LoginExamples.login (VNum 0) (AuthExamples.signed_out_world 1700000000000)).1
  = Ok (LoginExamples.session 1700003600030)
  /\ Browser.localStorage
       (LoginExamples.login (VNum 0) (AuthExamples.signed_out_world 1700000000000)).2
     !! Browser.tokenStorageKey
     = Some (Json.stringify (LoginExamples.session 1700003600030))
  /\ Browser.now (LoginExamples.login (VNum 0) (AuthExamples.signed_out_world 1700000000000)).2
     = 1700000000030
  /\ LoginExamples.session 1700003600030 <> LoginExamples.session (1700000000030 + 0 * 1000).
Proof. repeat split; [vm_compute; reflexivity .. | discriminate]. Qed.

(** A grant with [expiresIn = 7200] arriving at 1700000000030 expires at
    1700000000030 + 7200000. *)
Lemma authenticate_expiry_witness :
  (LoginExamples.login (VNum 7200) (AuthExamples.signed_out_world 1700000000000)).1
  = Ok (LoginExamples.session 1700007200030).
Proof.
  destruct (authenticate_expiry Json.parse Json.stringify Json.coerce Json.display
              (LoginExamples.auth_server (VNum 7200)) AuthExamples.cfg
              (AuthExamples.signed_out_world 1700000000000)
              "/login" (Auth.login_json LoginExamples.credentials) "Login failed"
              {| Browser.status := 200;
                 Browser.json := Ok (VObj (LoginExamples.granted (VNum 7200))) |}
              (VObj (LoginExamples.granted (VNum 7200)))
              (LoginExamples.granted (VNum 7200))
              eq_refl eq_refl eq_refl eq_refl eq_refl eq_refl eq_refl)
    as (Hrun & _ & _ & _ & Hlogin & _).
  unfold LoginExamples.login. rewrite Hlogin, Hrun. reflexivity.
Defined.

(** ** The chat client's errors *)

Section Chat.
Variable JSON_parse : string -> option value.
Variable JSON_stringify : value -> string.
Variable coerce : value -> option Z.
Variable display : value -> string.
Variable network : Browser.Request -> Browser.Exchange.
Variable cfg : Browser.Config.
Variable random_suffix : string.
Variable toISOString : Z -> string.

Local Abbreviation getStoredSession := (Auth.getStoredSession JSON_parse coerce).
Local Abbreviation refreshSession :=
  (Auth.refreshSession JSON_parse JSON_stringify coerce display network cfg).
Local Abbreviation getHeaders :=
  (ApiClient.getHeaders JSON_parse JSON_stringify coerce display network cfg).
Local Abbreviation getSessionId := (ApiClient.getSessionId random_suffix).
Local Abbreviation settle := (ApiClient.settle JSON_parse coerce display toISOString).
Local Abbreviation sendChatMessage :=
  (ApiClient.sendChatMessage JSON_parse JSON_stringify coerce display network cfg
     random_suffix toISOString).

Lemma getStoredSession_returns w :
  exists session w', getStoredSession w = (Ok session, w').
Proof. destruct (getStoredSession_world JSON_parse coerce w) as [s [H|[_ H]]]; eauto. Qed.

Lemma refresh_attempt_returns session refreshToken w :
  exists v w',
    Auth.refresh_attempt JSON_parse JSON_stringify coerce display network cfg
      session refreshToken w
    = (Ok v, w').
Proof.
  unfold Auth.refresh_attempt, Auth.clearSession, Auth.storeSession, Browser.fetch. run_M.
  run_cases ltac:(run_M); eauto.
Qed.

Lemma refreshSession_returns w :
  exists v w', refreshSession w = (Ok v, w').
Proof.
  rewrite refreshSession_unfold.
  destruct (getStoredSession_returns w) as (session & w1 & ->).
  destruct (negb (truthy (get_opt session "refreshToken"))) eqn:Hrt; [eauto|].
  apply negb_false_iff, refreshToken_object in Hrt as [fields ->].
  cbn [get]. destruct (negb _); [eauto|]. apply refresh_attempt_returns.
Qed.

Lemma getHeaders_returns w :
  exists headers w', getHeaders w = (Ok headers, w').
Proof.
  unfold ApiClient.getHeaders, Auth.getAuthToken.
  cbv beta iota zeta delta [mbind mret Browser.M_bind Browser.M_ret].
  destruct (refreshSession_returns w) as (v & w1 & ->).
  destruct (getStoredSession_returns w1) as (session & w2 & ->). eauto.
Qed.

Lemma getSessionId_returns w :
  exists sessionId w', getSessionId w = (Ok sessionId, w').
Proof.
  unfold ApiClient.getSessionId, ApiClient.generateSessionId,
    Browser.sessionStorage_getItem, Browser.sessionStorage_setItem. run_M.
  destruct (Browser.sessionStorage w !! Browser.sessionStorageKey) as [s|]; [|eauto].
  destruct (String.eqb s ""); eauto.
Qed.

Lemma sendChatMessage_settles (request : ApiClient.ChatRequest) (w : Browser.World)
    (response : Browser.HttpResponse) :
  (forall r, Browser.url r = Browser.chatEndpoint cfg ->
             Browser.reply (network r) = Ok response) ->
  exists sessionId w', (sendChatMessage request w).1 = (settle request sessionId response w').1.
Proof.
  intros Hchat. unfold ApiClient.sendChatMessage.
  cbv beta iota zeta delta [mbind mret Browser.M_bind Browser.M_ret].
  destruct (getHeaders_returns w) as (headers & w1 & ->).
  assert (exists sessionId w2,
             match ApiClient.session_id request with
             | Some s => if String.eqb s "" then getSessionId else (fun w => (Ok s, w))
             | None => getSessionId
             end w1 = (Ok sessionId, w2)) as (sessionId & w2 & ->).
  { destruct (ApiClient.session_id request) as [s|]; [|apply getSessionId_returns].
    destruct (String.eqb s ""); [apply getSessionId_returns | eauto]. }
  unfold Browser.fetch at 1. rewrite Hchat by reflexivity.
  eexists sessionId, _. reflexivity.
Qed.

End Chat.

(** C2, amended.  The chat endpoint reports "denied" with status 403 once
    as a proxy envelope inside an HTTP 200 and once as a direct body with
    HTTP 403.  [sendChatMessage] throws in both cases: with the decoded
    body's own message, ["denied"], for the envelope, and with the fixed
    ["Authentication required. Please log in."] for the HTTP status. *)
Theorem proxy_403_and_http_403_differ
    (JSON_parse : string -> option value) (JSON_stringify : value -> string)
    (coerce : value -> option Z) (display : value -> string)
    (cfg : Browser.Config) (random_suffix : string) (toISOString : Z -> string)
    (proxy_network direct_network : Browser.Request -> Browser.Exchange)
    (request : ApiClient.ChatRequest) (w : Browser.World) (body : string)
    (Hbody : JSON_parse body = Some (VObj [("error", VStr "denied")]))
    (Hproxy : forall r, Browser.url r = Browser.chatEndpoint cfg ->
        Browser.reply (proxy_network r)
        = Ok {| Browser.status := 200;
                Browser.json := Ok (VObj [("statusCode", VNum 403); ("body", VStr body)]) |})
    (Hdirect : forall r, Browser.url r = Browser.chatEndpoint cfg ->
        Browser.reply (direct_network r)
        = Ok {| Browser.status := 403;
                Browser.json := Ok (VObj [("error", VStr "denied")]) |}) :
  (ApiClient.sendChatMessage JSON_parse JSON_stringify coerce display proxy_network cfg
     random_suffix toISOString request w).1
  = Throw (Error "denied")
  /\ (ApiClient.sendChatMessage JSON_parse JSON_stringify coerce display direct_network cfg
        random_suffix toISOString request w).1
     = Throw (Error "Authentication required. Please log in.").
Proof.
  split.
  - destruct (sendChatMessage_settles JSON_parse JSON_stringify coerce display proxy_network
                cfg random_suffix toISOString request w _ Hproxy) as (sessionId & w' & ->).
    unfold ApiClient.settle, ApiClient.parseLambdaResponse. run_M.
    cbn [Browser.json Browser.ok Browser.status]. cbn. rewrite Hbody. reflexivity.
  - destruct (sendChatMessage_settles JSON_parse JSON_stringify coerce display direct_network
                cfg random_suffix toISOString request w _ Hdirect) as (sessionId & w' & ->).
    reflexivity.
Qed.

(** C2, as stated, fails: a signed-in browser asks the HR question; the
    envelope form and the direct form of the same denial surface with
    different messages. *)
Lemma proxy_403_and_http_403_messages :
  (ChatExamples.sendChatMessage (ChatExamples.chat_only ChatExamples.proxy_403)
     ChatExamples.leave_question
     (AuthExamples.world_with (AuthExamples.session_with_refresh_token 1700003600000)
        1700000000000)).1
  = Throw (Error "denied")
  /\ (ChatExamples.sendChatMessage (ChatExamples.chat_only ChatExamples.direct_403)
        ChatExamples.leave_question
        (AuthExamples.world_with (AuthExamples.session_with_refresh_token 1700003600000)
           1700000000000)).1
     = Throw (Error "Authentication required. Please log in.")
  /\ "denied" <> "Authentication required. Please log in.".
Proof. repeat split; [vm_compute; reflexivity .. | discriminate]. Qed.

(** A signed-out browser asks the HR question against both endpoints. *)
Lemma proxy_403_and_http_403_differ_witness :
  (ChatExamples.sendChatMessage (ChatExamples.chat_only ChatExamples.proxy_403)
     ChatExamples.leave_question (AuthExamples.signed_out_world 1700000000000)).1
  = Throw (Error "denied")
  /\ (ChatExamples.sendChatMessage (ChatExamples.chat_only ChatExamples.direct_403)
        ChatExamples.leave_question (AuthExamples.signed_out_world 1700000000000)).1
     = Throw (Error "Authentication required. Please log in.").
Proof.
  apply (proxy_403_and_http_403_differ Json.parse Json.stringify Json.coerce Json.display
           AuthExamples.cfg "k3j9x2a" (fun _ => "2024-01-15T10:30:00.000Z")
           (ChatExamples.chat_only ChatExamples.proxy_403)
           (ChatExamples.chat_only ChatExamples.direct_403)
           ChatExamples.leave_question (AuthExamples.signed_out_world 1700000000000)
           (Json.stringify ChatExamples.denied)).
  - vm_compute. reflexivity.
  - intros r Hr. unfold ChatExamples.chat_only. cbn [Browser.reply].
    rewrite Hr, String.eqb_refl. reflexivity.
  - intros r Hr. unfold ChatExamples.chat_only. cbn [Browser.reply].
    rewrite Hr, String.eqb_refl. reflexivity.
Defined.

(** * Further properties

    The rest of the cited files: what the handlers answer when things go
    wrong, how the clients treat storage, and what the analytics hook
    keeps. *)

(** ** Edge functions: the shape of every response *)

Section EdgeShape.
Variable JSON_parse : string -> option value.
Variable coerce : value -> option Z.
Variable display : value -> string.

Local Abbreviation serve_gateway := (Edge.serve_gateway JSON_parse coerce display).
Local Abbreviation serve_lambda := (Edge.serve_lambda JSON_parse coerce display).
Local Abbreviation serve_lambda_proxy := (Edge.serve_lambda_proxy JSON_parse coerce display).

Lemma caught_well_formed refusals env model_name (r : outcome Edge.Response) :
  (forall resp, r = Ok resp -> well_formed refusals resp) ->
  well_formed refusals (Edge.catch_all env model_name r).
Proof.
  intros H. destruct r as [resp|e]; cbn; [by apply H|].
  unfold well_formed. cbn. repeat split.
Qed.

Lemma estimated_reply_well_formed refusals env req sid i data resp :
  Edge.estimated_reply coerce env req sid i data = Ok resp -> well_formed refusals resp.
Proof.
  unfold Edge.estimated_reply. intros H.
  destruct (get data "choices"); run in H; [|discriminate].
  destruct (Edge.estimateTokens coerce _); run in H; [|discriminate].
  injection H as <-. unfold well_formed. cbn. done.
Qed.

(** X1.  The OPTIONS preflight is answered 200 without a body by all three
    variants, whatever the environment.  To any other request, whatever
    the request, the environment and the upstream do, the gateway variant
    answers 200, 429, 402 or 500, the Lambda variants 200, 429, 403 or 500,
    always with a body; 429, 402 and 403 carry [analytics: null]; 500
    always carries the zeroed analytics record with [error: true] and
    department ["Unknown"]; a 200 reply never has the error flag. *)
Theorem responses_well_formed (env : Edge.Env) (r : Edge.HttpRequest) :
  (Edge.method r = "OPTIONS" ->
   serve_gateway env r = preflight_response
   /\ serve_lambda env r = preflight_response
   /\ serve_lambda_proxy env r = preflight_response)
  /\ (Edge.method r <> "OPTIONS" ->
      well_formed [429; 402] (serve_gateway env r)
      /\ well_formed [429; 403] (serve_lambda env r)
      /\ well_formed [429; 403] (serve_lambda_proxy env r)).
Proof.
  split.
  { intros Hmethod.
    unfold Edge.serve_gateway, Edge.serve_lambda, Edge.serve_lambda_proxy.
    rewrite Hmethod. repeat split. }
  intros Hmethod%String.eqb_neq.
  split; [|split].
  - unfold Edge.serve_gateway. rewrite Hmethod.
    apply caught_well_formed. intros resp H.
    destruct (Edge.json r) as [req|]; run in H; [|discriminate].
    destruct (String.eqb _ ""); run in H; [discriminate|].
    destruct (Edge.input_estimate coerce display req); run in H; [|discriminate].
    destruct (Edge.fetched env) as [up|]; run in H; [|discriminate].
    destruct (Edge.ok up); run in H.
    + destruct (JS.parse JSON_parse _); run in H; [|discriminate].
      by eapply estimated_reply_well_formed.
    + destruct (Edge.up_status up =? 429); [injection H as <-; cbv; set_solver|].
      destruct (Edge.up_status up =? 402); [injection H as <-; cbv; set_solver|discriminate].
  - unfold Edge.serve_lambda. rewrite Hmethod.
    apply caught_well_formed. intros resp H.
    destruct (Edge.json r) as [req|]; run in H; [|discriminate].
    destruct (Edge.input_estimate coerce display req); run in H; [|discriminate].
    destruct (Edge.fetched env) as [up|]; run in H; [|discriminate].
    destruct (Edge.ok up); run in H.
    + destruct (JS.parse JSON_parse _); run in H; [|discriminate].
      by eapply estimated_reply_well_formed.
    + destruct (Edge.up_status up =? 429); [injection H as <-; cbv; set_solver|].
      destruct (Edge.up_status up =? 403); [injection H as <-; cbv; set_solver|discriminate].
  - unfold Edge.serve_lambda_proxy. rewrite Hmethod.
    apply caught_well_formed. intros resp H.
    destruct (Edge.json r) as [req|]; run in H; [|discriminate].
    destruct (Edge.fetched env) as [up|]; run in H; [|discriminate].
    destruct (JS.try_catch _ _) as [lambdaResponse|]; run in H; [|discriminate].
    destruct (has_property "statusCode" lambdaResponse) as [hasStatus|]; run in H;
      [|discriminate].
    destruct (if hasStatus then _ else _) as [hasBody|]; run in H; [|discriminate].
    destruct (if hasBody then _ else _) as [[statusCode bodyContent]|]; run in H;
      [|discriminate].
    destruct (_ || _); run in H.
    { destruct (strict_eq_num statusCode 429); [injection H as <-; cbv; set_solver|].
      destruct (_ || _); [injection H as <-; cbv; set_solver|].
      destruct (get bodyContent "error"); discriminate. }
    destruct (get bodyContent "response"); run in H; [|discriminate].
    destruct (get bodyContent "content"); run in H; [|discriminate].
    destruct (get bodyContent "message"); run in H; [|discriminate].
    destruct (get bodyContent "analytics"); run in H; [|discriminate].
    destruct (get bodyContent "sources"); run in H; [|discriminate].
    injection H as <-. unfold well_formed. cbn. done.
Qed.

(** X2.  A request whose body cannot be read is answered 500 with the
    reader's message by all three variants, and the gateway variant answers
    500 "LOVABLE_API_KEY is not configured" when the key is unset or empty:
    in both cases the answer is the same whatever the upstream would have
    done, that is, before any upstream call. *)
Theorem rejected_before_upstream (env : Edge.Env) (r : Edge.HttpRequest)
    (Hmethod : Edge.method r <> "OPTIONS") :
  (forall e, Edge.json r = Throw e ->
     serve_gateway env r = failure env "google/gemini-3-flash-preview" (exn_message e)
     /\ serve_lambda env r = failure env "google/gemini-3-flash-preview" (exn_message e)
     /\ serve_lambda_proxy env r = failure env "lambda-llm" (exn_message e)
     /\ forall fetched,
          serve_gateway (with_upstream fetched env) r = serve_gateway env r
          /\ serve_lambda (with_upstream fetched env) r = serve_lambda env r
          /\ serve_lambda_proxy (with_upstream fetched env) r = serve_lambda_proxy env r)
  /\ (forall req, Edge.json r = Ok req ->
        Edge.str_or (Edge.LOVABLE_API_KEY env) "" = "" ->
        serve_gateway env r
        = failure env "google/gemini-3-flash-preview" "LOVABLE_API_KEY is not configured"
        /\ forall fetched, serve_gateway (with_upstream fetched env) r = serve_gateway env r).
Proof.
  apply String.eqb_neq in Hmethod.
  unfold Edge.serve_gateway, Edge.serve_lambda, Edge.serve_lambda_proxy.
  rewrite Hmethod. split.
  - intros e ->. cbn. repeat split.
  - intros req -> Hkey. cbn. rewrite Hkey. cbn. split; [reflexivity|].
    intros fetched. reflexivity.
Qed.

(** X3.  A successful reply of any variant echoes the request: the record
    carries the request's [session_id] when it has a non-empty one and the
    generated id otherwise, the department or ["General"], the locale or
    ["en_US"], and the request's [rag_mode]. *)
Theorem reply_echoes_request (env : Edge.Env) (r : Edge.HttpRequest)
    (req : Edge.ChatRequest) (c : value) (a : Edge.AnalyticsMetadata) (s : value)
    (Hreq : Edge.json r = Ok req)
    (Hreply : Edge.body (serve_gateway env r) = Edge.ChatBody c a s
              \/ Edge.body (serve_lambda env r) = Edge.ChatBody c a s
              \/ Edge.body (serve_lambda_proxy env r) = Edge.ChatBody c a s) :
  Edge.session_id a = Edge.str_or (Edge.req_session_id req) (Edge.generated_id env)
  /\ Edge.department a = Edge.str_or (Edge.req_department req) "General"
  /\ Edge.locale a = default "en_US" (Edge.req_locale req)
  /\ Edge.rag_mode a = Edge.req_rag_mode req
  /\ Edge.timestamp a = Edge.now_iso env.
Proof.
  assert (Hest : forall sid i data resp,
             Edge.estimated_reply coerce env req sid i data = Ok resp ->
             Edge.body resp = Edge.ChatBody c a s ->
             Edge.session_id a = sid
             /\ Edge.department a = Edge.str_or (Edge.req_department req) "General"
             /\ Edge.locale a = default "en_US" (Edge.req_locale req)
             /\ Edge.rag_mode a = Edge.req_rag_mode req
             /\ Edge.timestamp a = Edge.now_iso env).
  { unfold Edge.estimated_reply. intros sid i data resp H Hb.
    destruct (get data "choices"); run in H; [|discriminate].
    destruct (Edge.estimateTokens coerce _); run in H; [|discriminate].
    injection H as <-. cbn in Hb. injection Hb as _ <- _. cbn. done. }
  destruct Hreply as [H|[H|H]].
  - unfold Edge.serve_gateway, Edge.catch_all in H.
    destruct (String.eqb (Edge.method r) "OPTIONS"); [discriminate H|].
    rewrite Hreq in H. run in H.
    destruct (String.eqb _ ""); run in H; [discriminate H|].
    destruct (Edge.input_estimate coerce display req); run in H; [|discriminate H].
    destruct (Edge.fetched env) as [up|]; run in H; [|discriminate H].
    destruct (Edge.ok up); run in H.
    + destruct (JS.parse JSON_parse _); run in H; [|discriminate H].
      destruct (Edge.estimated_reply coerce env req _ _ _) as [resp|] eqn:Er;
        run in H; [|discriminate H].
      by eapply Hest.
    + destruct (Edge.up_status up =? 429); [discriminate H|].
      destruct (Edge.up_status up =? 402); discriminate H.
  - unfold Edge.serve_lambda, Edge.catch_all in H.
    destruct (String.eqb (Edge.method r) "OPTIONS"); [discriminate H|].
    rewrite Hreq in H. run in H.
    destruct (Edge.input_estimate coerce display req); run in H; [|discriminate H].
    destruct (Edge.fetched env) as [up|]; run in H; [|discriminate H].
    destruct (Edge.ok up); run in H.
    + destruct (JS.parse JSON_parse _); run in H; [|discriminate H].
      destruct (Edge.estimated_reply coerce env req _ _ _) as [resp|] eqn:Er;
        run in H; [|discriminate H].
      by eapply Hest.
    + destruct (Edge.up_status up =? 429); [discriminate H|].
      destruct (Edge.up_status up =? 403); discriminate H.
  - unfold Edge.serve_lambda_proxy, Edge.catch_all in H.
    destruct (String.eqb (Edge.method r) "OPTIONS"); [discriminate H|].
    rewrite Hreq in H. run in H.
    destruct (Edge.fetched env) as [up|]; run in H; [|discriminate H].
    destruct (JS.try_catch _ _) as [lambdaResponse|]; run in H; [|discriminate H].
    destruct (has_property "statusCode" lambdaResponse) as [hasStatus|]; run in H;
      [|discriminate H].
    destruct (if hasStatus then _ else _) as [hasBody|]; run in H; [|discriminate H].
    destruct (if hasBody then _ else _) as [[statusCode bodyContent]|]; run in H;
      [|discriminate H].
    destruct (_ || _); run in H.
    { destruct (strict_eq_num statusCode 429); [discriminate H|].
      destruct (_ || _); [discriminate H|].
      destruct (get bodyContent "error"); discriminate H. }
    destruct (get bodyContent "response"); run in H; [|discriminate H].
    destruct (get bodyContent "content"); run in H; [|discriminate H].
    destruct (get bodyContent "message"); run in H; [|discriminate H].
    destruct (get bodyContent "analytics"); run in H; [|discriminate H].
    destruct (get bodyContent "sources"); run in H; [|discriminate H].
    injection H as _ <- _. cbn. done.
Qed.

(** X4.  What the gateway and Lambda variants make of an upstream failure
    other than 429: the gateway passes 402 on as 402 "Payment required" and
    turns every other status (401 and 403 included) into 500 with the
    message ["AI gateway error: <status>"]; the Lambda variant passes 403 on
    as 403 "Access denied" and turns every other status (402 included) into
    500 with the status and the upstream's body text in the message. *)
Theorem upstream_failure_mapping (env : Edge.Env) (r : Edge.HttpRequest)
    (req : Edge.ChatRequest) (up : Edge.Upstream)
    (Hmethod : Edge.method r <> "OPTIONS")
    (Hreq : Edge.json r = Ok req)
    (Hup : Edge.fetched env = Ok up)
    (Hfail : Edge.ok up = false)
    (Hnot429 : Edge.up_status up <> 429) :
  (Edge.str_or (Edge.LOVABLE_API_KEY env) "" <> "" ->
   serve_gateway env r
   = if Edge.up_status up =? 402
     then {| Edge.status := 402;
             Edge.body := Edge.ErrorBody "Payment required, please add funds." None |}
     else failure env "google/gemini-3-flash-preview"
            ("AI gateway error: " ++ pretty (Edge.up_status up)))
  /\ serve_lambda env r
     = if Edge.up_status up =? 403
       then access_denied
       else failure env "google/gemini-3-flash-preview"
              ("AWS Lambda error: " ++ pretty (Edge.up_status up) ++ " - " ++ Edge.up_text up).
Proof.
  apply String.eqb_neq in Hmethod. apply Z.eqb_neq in Hnot429.
  destruct (input_estimate_number coerce display req) as [i Hi].
  split.
  - intros Hkey. apply String.eqb_neq in Hkey.
    unfold Edge.serve_gateway. rewrite Hmethod, Hreq. cbn [mbind outcome_bind].
    rewrite Hkey, Hi. cbn [mbind outcome_bind]. rewrite Hup. cbn [mbind outcome_bind].
    rewrite Hfail, Hnot429. cbn [negb]. by destruct (Edge.up_status up =? 402).
  - unfold Edge.serve_lambda. rewrite Hmethod, Hreq. cbn [mbind outcome_bind].
    rewrite Hi. cbn [mbind outcome_bind]. rewrite Hup. cbn [mbind outcome_bind].
    rewrite Hfail, Hnot429. cbn [negb]. by destruct (Edge.up_status up =? 403).
Qed.

Lemma has_statusCode fields :
  has_property "statusCode" (VObj fields)
  = Ok (if own "statusCode" fields is Some _ then true else false).
Proof. cbn. by destruct (own "statusCode" fields). Qed.

Lemma has_body fields :
  has_property "body" (VObj fields) = Ok (if own "body" fields is Some _ then true else false).
Proof. cbn. by destruct (own "body" fields). Qed.

Lemma ok_below_400 up : Edge.ok up = true -> ge_num coerce (VNum (Edge.up_status up)) 400 = false.
Proof.
  unfold Edge.ok, ge_num. cbn. intros [_ H]%andb_prop. apply Z.leb_le in H.
  apply Z.leb_gt. lia.
Qed.


(** The whole response of the Lambda-proxy variant to an OK reply in
    direct form. *)
Lemma proxy_direct_reply (env : Edge.Env) (r : Edge.HttpRequest)
    (req : Edge.ChatRequest) (up : Edge.Upstream) (fields : list (string * value)) :
  Edge.method r <> "OPTIONS" ->
  Edge.json r = Ok req ->
  Edge.fetched env = Ok up ->
  Edge.ok up = true ->
  JSON_parse (Edge.up_text up) = Some (VObj fields) ->
  own "statusCode" fields = None \/ own "body" fields = None ->
  serve_lambda_proxy env r
  = {| Edge.status := 200;
       Edge.body :=
         Edge.ChatBody
           (or_else (or_else (or_else (lookup_obj fields "response")
                                      (lookup_obj fields "content"))
                             (lookup_obj fields "message")) (VStr ""))
           {| Edge.session_id := Edge.str_or (Edge.req_session_id req) (Edge.generated_id env);
              Edge.execution_time_ms :=
                or_else (get_opt (lookup_obj fields "analytics") "execution_time_ms")
                        (VNum (Edge.elapsed_ms env));
              Edge.invocation_count :=
                or_else (get_opt (lookup_obj fields "analytics") "invocation_count") (VNum 1);
              Edge.input_tokens :=
                or_else (get_opt (lookup_obj fields "analytics") "input_tokens") (VNum 0);
              Edge.output_tokens :=
                or_else (get_opt (lookup_obj fields "analytics") "output_tokens") (VNum 0);
              Edge.total_tokens :=
                or_else (get_opt (lookup_obj fields "analytics") "total_tokens") (VNum 0);
              Edge.model :=
                or_else (get_opt (lookup_obj fields "analytics") "model") (VStr "lambda-llm");
              Edge.department := Edge.str_or (Edge.req_department req) "General";
              Edge.timestamp := Edge.now_iso env;
              Edge.locale := default "en_US" (Edge.req_locale req);
              Edge.rag_mode := Edge.req_rag_mode req;
              Edge.error := false |}
           (or_else (lookup_obj fields "sources")
                    (Edge.generateDefaultSources (Edge.req_department req))) |}.
Proof.
  intros Hmethod%String.eqb_neq Hreq Hup Hok Hparse Hdirect.
  unfold Edge.serve_lambda_proxy. rewrite Hmethod, Hreq. cbn [mbind outcome_bind].
  rewrite Hup. cbn [mbind outcome_bind]. unfold JS.parse. rewrite Hparse.
  cbn [JS.try_catch mbind outcome_bind]. rewrite has_statusCode.
  cbn [mbind outcome_bind]. rewrite has_body.
  assert (Hdirect' : (if own "statusCode" fields is Some _ then
                        if own "body" fields is Some _ then true else false
                      else false) = false).
  { destruct Hdirect as [-> | ->]; [reflexivity|]. by destruct (own "statusCode" fields). }
  destruct (own "statusCode" fields), (own "body" fields); try discriminate Hdirect';
    cbn [mbind outcome_bind mret outcome_ret];
    rewrite (ok_below_400 up Hok), Hok; reflexivity.
Qed.

(** X6.  In the Lambda-proxy variant the answer text of an OK direct-form
    reply is its [response] field when that is truthy, else its [content]
    field, else its [message] field, else the empty string. *)
Theorem proxy_content_priority (env : Edge.Env) (r : Edge.HttpRequest)
    (req : Edge.ChatRequest) (up : Edge.Upstream) (fields : list (string * value))
    (Hmethod : Edge.method r <> "OPTIONS")
    (Hreq : Edge.json r = Ok req)
    (Hup : Edge.fetched env = Ok up)
    (Hok : Edge.ok up = true)
    (Hparse : JSON_parse (Edge.up_text up) = Some (VObj fields))
    (Hdirect : own "statusCode" fields = None \/ own "body" fields = None) :
  exists a s,
    serve_lambda_proxy env r
    = {| Edge.status := 200;
         Edge.body :=
           Edge.ChatBody
             (if truthy (lookup_obj fields "response") then lookup_obj fields "response"
              else if truthy (lookup_obj fields "content") then lookup_obj fields "content"
              else if truthy (lookup_obj fields "message") then lookup_obj fields "message"
              else VStr "") a s |}.
Proof.
  rewrite (proxy_direct_reply env r req up fields) by done.
  eexists _, _. f_equal. f_equal. unfold or_else.
  destruct (truthy (lookup_obj fields "response")) eqn:E1; rewrite ?E1; [reflexivity|].
  destruct (truthy (lookup_obj fields "content")) eqn:E2; rewrite ?E2; [reflexivity|].
  destruct (truthy (lookup_obj fields "message")) eqn:E3; rewrite ?E3; reflexivity.
Qed.


(** X8.  An OK envelope whose [body] is a string that is not JSON is taken
    as plain text by the Lambda-proxy variant: the text is the answer, the
    token counts are 0, the model is ["lambda-llm"], the execution time is
    the measured one and the sources are the department's canned ones. *)
Theorem proxy_plain_text_body (env : Edge.Env) (r : Edge.HttpRequest)
    (req : Edge.ChatRequest) (up : Edge.Upstream) (fields : list (string * value))
    (statusCode : value) (text : string)
    (Hmethod : Edge.method r <> "OPTIONS")
    (Hreq : Edge.json r = Ok req)
    (Hup : Edge.fetched env = Ok up)
    (Hok : Edge.ok up = true)
    (Hparse : JSON_parse (Edge.up_text up) = Some (VObj fields))
    (Hstatus : own "statusCode" fields = Some statusCode)
    (Hbelow : ge_num coerce statusCode 400 = false)
    (Hbody : own "body" fields = Some (VStr text))
    (Htext : JSON_parse text = None) :
  exists a,
    serve_lambda_proxy env r
    = {| Edge.status := 200;
         Edge.body := Edge.ChatBody (VStr text) a
                        (Edge.generateDefaultSources (Edge.req_department req)) |}
    /\ Edge.input_tokens a = VNum 0
    /\ Edge.output_tokens a = VNum 0
    /\ Edge.total_tokens a = VNum 0
    /\ Edge.invocation_count a = VNum 1
    /\ Edge.model a = VStr "lambda-llm"
    /\ Edge.execution_time_ms a = VNum (Edge.elapsed_ms env).
Proof.
  apply String.eqb_neq in Hmethod.
  unfold Edge.serve_lambda_proxy. rewrite Hmethod, Hreq. cbn [mbind outcome_bind].
  rewrite Hup. cbn [mbind outcome_bind]. unfold JS.parse. rewrite Hparse.
  cbn [JS.try_catch mbind outcome_bind]. rewrite has_statusCode, Hstatus.
  cbn [mbind outcome_bind]. rewrite has_body, Hbody. cbn [mbind outcome_bind get].
  unfold lookup_obj. rewrite Hstatus, Hbody. cbn [mbind outcome_bind mret outcome_ret].
  rewrite Htext, Hbelow, Hok. cbn.
  destruct text as [|ch text]; eexists; (split; [reflexivity|]); cbn; done.
Qed.

Lemma string_length_app (a b : string) :
  String.length (a ++ b) = (String.length a + String.length b)%nat.
Proof.
  induction a as [|c a IH]; [reflexivity|].
  change (S (String.length (a ++ b)) = S (String.length a + String.length b)).
  by rewrite IH.
Qed.

(** X9.  The token estimate never exceeds the length of the text, grows
    with the text and is subadditive under concatenation: the estimate of
    [a ++ b] is at least that of [a] and of [b] and at most their sum. *)
Theorem estimateTokens_concatenation (a b : string) :
  exists ka kb kab,
    Edge.estimateTokens coerce (VStr a) = Ok (VNum ka)
    /\ Edge.estimateTokens coerce (VStr b) = Ok (VNum kb)
    /\ Edge.estimateTokens coerce (VStr (a ++ b)) = Ok (VNum kab)
    /\ 0 <= ka <= Z.of_nat (String.length a)
    /\ ka <= kab /\ kb <= kab /\ kab <= ka + kb.
Proof.
  exists (Qceiling (Z.of_nat (String.length a) # 4)),
         (Qceiling (Z.of_nat (String.length b) # 4)),
         (Qceiling (Z.of_nat (String.length a + String.length b) # 4)).
  split; [reflexivity|]. split; [reflexivity|].
  split; [by rewrite <- string_length_app|].
  pose proof (Qceiling_quarter (Z.of_nat (String.length a))).
  pose proof (Qceiling_quarter (Z.of_nat (String.length b))).
  pose proof (Qceiling_quarter (Z.of_nat (String.length a + String.length b))).
  lia.
Qed.

End EdgeShape.

(** An unreadable request, and a gateway without key, with a healthy
    upstream at hand. *)
Lemma rejected_before_upstream_witness :
  EdgeExamples.serve_gateway (EdgeExamples.env_without_key EdgeExamples.healthy)
    (EdgeExamples.post EdgeExamples.hr_request)
  = failure (EdgeExamples.env_without_key EdgeExamples.healthy)
      "google/gemini-3-flash-preview" "LOVABLE_API_KEY is not configured".
Proof.
  apply (proj2 (rejected_before_upstream Json.parse Json.coerce Json.display
                  (EdgeExamples.env_without_key EdgeExamples.healthy)
                  (EdgeExamples.post EdgeExamples.hr_request) ltac:(discriminate))
           EdgeExamples.hr_request eq_refl eq_refl).
Defined.

(** The follow-up question keeps its session id, locale and mode. *)
Lemma reply_echoes_request_witness :
  match Edge.body (EdgeExamples.serve_gateway EdgeExamples.healthy_env
                     (EdgeExamples.post EdgeExamples.follow_up)) with
  | Edge.ChatBody c a s =>
      Edge.session_id a = "session_1699999999000_zzz0001"
      /\ Edge.department a = "HR"
      /\ Edge.locale a = "de_DE"
      /\ Edge.rag_mode a = Some "strict"
      /\ Edge.timestamp a = "2024-01-15T10:30:00.000Z"
  | _ => False
  end.
Proof.
  destruct (Edge.body _) as [| |c a s] eqn:E; try (vm_compute in E; discriminate E).
  exact (reply_echoes_request Json.parse Json.coerce Json.display
           EdgeExamples.healthy_env (EdgeExamples.post EdgeExamples.follow_up)
           EdgeExamples.follow_up c a s eq_refl (or_introl E)).
Defined.

(** An upstream out of credit: 402 from the gateway, 500 from the Lambda
    variant. *)
Lemma upstream_failure_mapping_witness :
  EdgeExamples.serve_gateway (EdgeExamples.env_with EdgeExamples.out_of_credit)
    (EdgeExamples.post EdgeExamples.hr_request)
  = {| Edge.status := 402;
       Edge.body := Edge.ErrorBody "Payment required, please add funds." None |}
  /\ EdgeExamples.serve_lambda (EdgeExamples.env_with EdgeExamples.out_of_credit)
       (EdgeExamples.post EdgeExamples.hr_request)
     = failure (EdgeExamples.env_with EdgeExamples.out_of_credit)
         "google/gemini-3-flash-preview" "AWS Lambda error: 402 - Payment Required".
Proof.
  destruct (upstream_failure_mapping Json.parse Json.coerce Json.display
              (EdgeExamples.env_with EdgeExamples.out_of_credit)
              (EdgeExamples.post EdgeExamples.hr_request) EdgeExamples.hr_request
              EdgeExamples.out_of_credit
              ltac:(discriminate) eq_refl eq_refl eq_refl ltac:(discriminate))
    as [Hgateway Hlambda].
  split; [apply Hgateway; discriminate | exact Hlambda].
Defined.


(** [response] wins over [content] and [message]. *)
Lemma proxy_content_priority_witness :
  exists a s,
    EdgeExamples.serve_lambda_proxy (EdgeExamples.env_with EdgeExamples.direct_reply)
      (EdgeExamples.post EdgeExamples.hr_request)
    = {| Edge.status := 200; Edge.body := Edge.ChatBody (VStr "first choice") a s |}.
Proof.
  exact (proxy_content_priority Json.parse Json.coerce Json.display
           (EdgeExamples.env_with EdgeExamples.direct_reply)
           (EdgeExamples.post EdgeExamples.hr_request) EdgeExamples.hr_request
           EdgeExamples.direct_reply EdgeExamples.direct_fields
           ltac:(discriminate) eq_refl eq_refl eq_refl
           ltac:(vm_compute; reflexivity) (or_introl eq_refl)).
Defined.


(** A plain-text body inside an envelope. *)
Lemma proxy_plain_text_body_witness :
  exists a,
    EdgeExamples.serve_lambda_proxy (EdgeExamples.env_with EdgeExamples.text_envelope)
      (EdgeExamples.post EdgeExamples.hr_request)
    = {| Edge.status := 200;
         Edge.body := Edge.ChatBody (VStr "Leave accrues monthly.") a
                        (Edge.generateDefaultSources (Some "HR")) |}
    /\ Edge.total_tokens a = VNum 0.
Proof.
  destruct (proxy_plain_text_body Json.parse Json.coerce Json.display
              (EdgeExamples.env_with EdgeExamples.text_envelope)
              (EdgeExamples.post EdgeExamples.hr_request) EdgeExamples.hr_request
              EdgeExamples.text_envelope EdgeExamples.text_envelope_fields
              (VNum 200) "Leave accrues monthly."
              ltac:(discriminate) eq_refl eq_refl eq_refl
              ltac:(vm_compute; reflexivity) eq_refl eq_refl eq_refl
              ltac:(vm_compute; reflexivity))
    as (a & Hrun & _ & _ & Htotal & _).
  exists a. split; [exact Hrun | exact Htotal].
Defined.

(** ** The authentication client and storage *)

Section AuthStorage.
Variable JSON_parse : string -> option value.
Variable JSON_stringify : value -> string.
Variable coerce : value -> option Z.
Variable display : value -> string.
Variable network : Browser.Request -> Browser.Exchange.
Variable cfg : Browser.Config.

Local Abbreviation getStoredSession := (Auth.getStoredSession JSON_parse coerce).
Local Abbreviation getAuthToken := (Auth.getAuthToken JSON_parse coerce).
Local Abbreviation getCurrentUser := (Auth.getCurrentUser JSON_parse coerce).
Local Abbreviation storeSession := (Auth.storeSession JSON_stringify).
Local Abbreviation logout := (Auth.logout JSON_parse coerce network cfg).
Local Abbreviation authenticate :=
  (Auth.authenticate JSON_parse JSON_stringify coerce display network cfg).
Local Abbreviation auth_request := (Auth.auth_request JSON_stringify cfg).
Local Abbreviation refresh_request := (Auth.refresh_request JSON_stringify cfg).
Local Abbreviation refresh_attempt :=
  (Auth.refresh_attempt JSON_parse JSON_stringify coerce display network cfg).

(** X10.  [logout] never throws.  Whatever the storage held, afterwards the
    token key is gone and nothing else in local or session storage has
    changed.  The logout request is sent exactly when [getAuthToken] found
    a token, that is, never for an absent, unreadable or expired session. *)
Theorem logout_clears_session (w : Browser.World) :
  exists token,
    (getAuthToken w).1 = Ok token
    /\ (logout w).1 = Ok ()
    /\ Browser.localStorage (logout w).2
       = delete Browser.tokenStorageKey (Browser.localStorage w)
    /\ Browser.sessionStorage (logout w).2 = Browser.sessionStorage w
    /\ Browser.sent (logout w).2
       = (if truthy token
          then (Browser.sent w
                ++ [ {| Browser.url := Browser.authEndpoint cfg ++ "/logout";
                        Browser.payload := "" |} ])%list
          else Browser.sent w).
Proof.
  unfold Auth.logout, Auth.getAuthToken, Auth.clearSession, Browser.fetch.
  cbv beta iota zeta delta [mbind mret Browser.M_bind Browser.M_ret].
  destruct (getStoredSession_world JSON_parse coerce w) as [session [-> | [-> ->]]].
  - exists (or_else (get_opt session "token") VNull). run_M.
    destruct (truthy (or_else (get_opt session "token") VNull)); run_M;
      [destruct (Browser.reply (network _))|]; repeat split.
  - exists VNull. run_M. cbn. repeat split. apply delete_delete_eq.
Qed.

(** X11.  [login] and [signup] send exactly one request and write to
    storage only on success: when they throw, local and session storage
    are as before; when they return, the text under the token key is the
    serialisation of the very session returned, whose token and user are
    truthy. *)
Theorem authenticate_storage (path : string) (credentials : value) (failed : string)
    (w : Browser.World) :
  match authenticate path credentials failed w with
  | (Throw _, w') => w' = Browser.delivered network (auth_request path credentials) w
  | (Ok session, w') =>
      w' = signed_in (JSON_stringify session)
             (Browser.delivered network (auth_request path credentials) w)
      /\ exists token refreshToken expiresIn user,
           session
           = Auth.AuthSession token refreshToken
               (Auth.expiry coerce
                  (Browser.now (Browser.delivered network (auth_request path credentials) w))
                  expiresIn)
               user
           /\ truthy token = true /\ truthy user = true
  end.
Proof.
  unfold Auth.authenticate, Auth.storeSession, Browser.fetch. run_M.
  destruct (Browser.reply _) as [response|]; run_M; [|reflexivity].
  destruct (Browser.json response) as [data|]; run_M; [|reflexivity].
  destruct (Auth.parseLambdaResponse JSON_parse display data) as [parsed|]; run_M;
    [|reflexivity].
  destruct (get parsed "error") as [err|]; run_M; [|reflexivity].
  destruct (negb (Browser.ok response) || truthy err).
  { destruct (get parsed "message"); run_M; reflexivity. }
  destruct (get parsed "token") as [token|]; run_M; [|reflexivity].
  destruct (get parsed "user") as [user|]; run_M; [|reflexivity].
  destruct (truthy token) eqn:Htoken; cbn [negb orb]; run_M; [|reflexivity].
  destruct (truthy user) eqn:Huser; cbn [negb orb]; run_M; [|reflexivity].
  destruct (get parsed "refreshToken") as [refreshToken|]; run_M; [|reflexivity].
  destruct (get parsed "expiresIn") as [expiresIn|]; run_M; [|reflexivity].
  split; [reflexivity|]. by exists token, refreshToken, expiresIn, user.
Qed.

(** X12.  A reply of the auth endpoint in envelope form, with any truthy
    [statusCode] and a text [body]: an unreadable body makes [login] and
    [signup] throw that very text; a body that decodes to an object with an
    [error] throws the error, also on HTTP 200; a body that decodes to a
    grant signs in on an OK response, whatever the envelope's [statusCode]
    says. *)
Theorem authenticate_envelope (path : string) (credentials : value) (failed : string)
    (w : Browser.World) (response : Browser.HttpResponse)
    (fields : list (string * value)) (text : string)
    (Hreply : Browser.reply (network (auth_request path credentials)) = Ok response)
    (Hjson : Browser.json response = Ok (VObj fields))
    (Hstatus : truthy (lookup_obj fields "statusCode") = true)
    (Hbody : lookup_obj fields "body" = VStr text)
    (Htext : text <> "") :
  (JSON_parse text = None ->
   authenticate path credentials failed w
   = (Throw (Error text), Browser.delivered network (auth_request path credentials) w))
  /\ (forall inner,
        JSON_parse text = Some (VObj inner) ->
        truthy (lookup_obj inner "error") = true ->
        authenticate path credentials failed w
        = (Throw (Error (JS.to_string display (lookup_obj inner "error"))),
           Browser.delivered network (auth_request path credentials) w))
  /\ (forall inner,
        JSON_parse text = Some (VObj inner) ->
        truthy (lookup_obj inner "error") = false ->
        truthy (lookup_obj inner "token") = true ->
        truthy (lookup_obj inner "user") = true ->
        Browser.ok response = true ->
        (authenticate path credentials failed w).1
        = Ok (Auth.AuthSession (lookup_obj inner "token") (lookup_obj inner "refreshToken")
                (Auth.expiry coerce
                   (Browser.now w + Browser.duration (network (auth_request path credentials)))
                   (lookup_obj inner "expiresIn"))
                (lookup_obj inner "user"))).
Proof.
  destruct text as [|ch text]; [done|].
  unfold Auth.authenticate, Auth.storeSession, Browser.fetch.
  split; [|split].
  - intros Hparse. run_M. rewrite Hreply. run_M. rewrite Hjson. run_M.
    unfold Auth.parseLambdaResponse. cbn [get mbind outcome_bind].
    rewrite Hstatus, Hbody. cbn [truthy negb String.eqb JS.to_string]. rewrite Hparse.
    cbn. rewrite orb_true_r. reflexivity.
  - intros inner Hparse Herr. run_M. rewrite Hreply. run_M. rewrite Hjson. run_M.
    unfold Auth.parseLambdaResponse. cbn [get mbind outcome_bind].
    rewrite Hstatus, Hbody. cbn [truthy negb String.eqb JS.to_string]. rewrite Hparse.
    cbn [get]. run_M. rewrite Herr, orb_true_r.
    unfold or_else. rewrite !Herr. reflexivity.
  - intros inner Hparse Herr Htoken Huser Hok. run_M. rewrite Hreply. run_M.
    rewrite Hjson. run_M.
    unfold Auth.parseLambdaResponse. cbn [get mbind outcome_bind].
    rewrite Hstatus, Hbody. cbn [truthy negb String.eqb JS.to_string]. rewrite Hparse.
    cbn [get]. run_M. rewrite Herr, Hok. cbn [negb orb].
    rewrite Htoken, Huser. cbn [negb orb]. reflexivity.
Qed.

Lemma signed_out_signed_in (text : string) (w : Browser.World) :
  signed_out (signed_in text w) = signed_out w.
Proof.
  unfold signed_out, signed_in, Browser.remove_local, Browser.set_local. cbn.
  by rewrite delete_insert_eq.
Qed.

(** X13.  A session written by [storeSession] is read back unchanged by
    [getStoredSession] for as long as its [expiresAt] is not before the
    clock, and [getAuthToken] and [getCurrentUser] return its token and
    user; once [expiresAt] is before the clock the three return [null] and
    the key is removed.  (The serialisation is assumed to parse back to the
    session and not to be the empty text.) *)
Theorem stored_session_round_trip (session expiresAt : value) (w : Browser.World)
    (Hcodec : JSON_parse (JSON_stringify session) = Some session)
    (Htext : JSON_stringify session <> "")
    (Hexp : get session "expiresAt" = Ok expiresAt) :
  storeSession session w = (Ok (), signed_in (JSON_stringify session) w)
  /\ (lt_num coerce expiresAt (Browser.now w) = false ->
      getStoredSession (signed_in (JSON_stringify session) w)
      = (Ok session, signed_in (JSON_stringify session) w)
      /\ getAuthToken (signed_in (JSON_stringify session) w)
         = (Ok (or_else (get_opt session "token") VNull),
            signed_in (JSON_stringify session) w)
      /\ getCurrentUser (signed_in (JSON_stringify session) w)
         = (Ok (or_else (get_opt session "user") VNull),
            signed_in (JSON_stringify session) w))
  /\ (lt_num coerce expiresAt (Browser.now w) = true ->
      getStoredSession (signed_in (JSON_stringify session) w) = (Ok VNull, signed_out w)
      /\ getAuthToken (signed_in (JSON_stringify session) w) = (Ok VNull, signed_out w)
      /\ getCurrentUser (signed_in (JSON_stringify session) w) = (Ok VNull, signed_out w)).
Proof.
  split; [reflexivity|].
  assert (Hread : getStoredSession (signed_in (JSON_stringify session) w)
                  = if lt_num coerce expiresAt (Browser.now w)
                    then (Ok VNull, signed_out w)
                    else (Ok session, signed_in (JSON_stringify session) w)).
  { rewrite <- (signed_out_signed_in (JSON_stringify session) w).
    unfold Auth.getStoredSession. run_M.
    unfold signed_in at 1 2. cbn [Browser.localStorage Browser.set_local].
    rewrite lookup_insert_eq.
    apply String.eqb_neq in Htext. rewrite Htext.
    unfold JS.parse. rewrite Hcodec. run_M. rewrite Hexp. run_M.
    cbn [Browser.now Browser.set_local].
    destruct (lt_num coerce expiresAt (Browser.now w)); reflexivity. }
  unfold Auth.getAuthToken, Auth.getCurrentUser.
  cbv beta iota zeta delta [mbind mret Browser.M_bind Browser.M_ret].
  rewrite Hread.
  split; intros ->; repeat split.
Qed.

(** X14.  Once [refreshSession] has decided to refresh, the attempt never
    throws.  It returns [null] and removes the token key when the request
    fails, when the reply cannot be decoded, when the decoded reply is not
    an object, when the response is not OK, when the reply has a truthy
    [error] and when it has no truthy [token].  In the one remaining case
    it returns the new session and stores its serialisation under the token
    key: the reply's token, the reply's refresh token or else the old one,
    the expiry counted from the arrival of the reply, and the reply's user
    or else the old one. *)
Theorem refresh_attempt_outcome (session refreshToken : value) (w : Browser.World) :
  (exists v w', refresh_attempt session refreshToken w = (Ok v, w'))
  /\ (forall e,
        Browser.reply (network (refresh_request refreshToken)) = Throw e ->
        refresh_attempt session refreshToken w
        = (Ok VNull, signed_out (Browser.delivered network (refresh_request refreshToken) w)))
  /\ (forall response,
        Browser.reply (network (refresh_request refreshToken)) = Ok response ->
        (forall e,
           Browser.json response = Throw e ->
           refresh_attempt session refreshToken w
           = (Ok VNull,
              signed_out (Browser.delivered network (refresh_request refreshToken) w)))
        /\ (forall data e,
              Browser.json response = Ok data ->
              Auth.parseLambdaResponse JSON_parse display data = Throw e ->
              refresh_attempt session refreshToken w
              = (Ok VNull,
                 signed_out (Browser.delivered network (refresh_request refreshToken) w)))
        /\ (forall data parsed,
              Browser.json response = Ok data ->
              Auth.parseLambdaResponse JSON_parse display data = Ok parsed ->
              (forall fields, parsed <> VObj fields) ->
              refresh_attempt session refreshToken w
              = (Ok VNull,
                 signed_out (Browser.delivered network (refresh_request refreshToken) w)))
        /\ (forall data fields,
              Browser.json response = Ok data ->
              Auth.parseLambdaResponse JSON_parse display data = Ok (VObj fields) ->
              Browser.ok response = false
              \/ truthy (lookup_obj fields "error") = true
              \/ truthy (lookup_obj fields "token") = false ->
              refresh_attempt session refreshToken w
              = (Ok VNull,
                 signed_out (Browser.delivered network (refresh_request refreshToken) w)))
        /\ (forall data fields,
              Browser.json response = Ok data ->
              Auth.parseLambdaResponse JSON_parse display data = Ok (VObj fields) ->
              Browser.ok response = true ->
              truthy (lookup_obj fields "error") = false ->
              truthy (lookup_obj fields "token") = true ->
              (forall e,
                 get session "user" = Throw e ->
                 refresh_attempt session refreshToken w
                 = (Ok VNull,
                    signed_out
                      (Browser.delivered network (refresh_request refreshToken) w)))
              /\ (forall user,
                    get session "user" = Ok user ->
                    refresh_attempt session refreshToken w
                    = (Ok (Auth.AuthSession
                             (lookup_obj fields "token")
                             (or_else (lookup_obj fields "refreshToken") refreshToken)
                             (Auth.expiry coerce
                                (Browser.now w
                                 + Browser.duration (network (refresh_request refreshToken)))
                                (lookup_obj fields "expiresIn"))
                             (or_else (lookup_obj fields "user") user)),
                       signed_in
                         (JSON_stringify
                            (Auth.AuthSession
                               (lookup_obj fields "token")
                               (or_else (lookup_obj fields "refreshToken") refreshToken)
                               (Auth.expiry coerce
                                  (Browser.now w
                                   + Browser.duration
                                       (network (refresh_request refreshToken)))
                                  (lookup_obj fields "expiresIn"))
                               (or_else (lookup_obj fields "user") user)))
                         (Browser.delivered network (refresh_request refreshToken) w))))).
Proof.
  split; [apply refresh_attempt_returns|].
  unfold Auth.refresh_attempt, Auth.clearSession, Auth.storeSession, Browser.fetch. run_M.
  split.
  { intros e ->. reflexivity. }
  intros response ->. run_M. split; [|split; [|split; [|split]]].
  - intros e ->. reflexivity.
  - intros data e -> ->. reflexivity.
  - intros data parsed -> -> Hobject. run_M.
    destruct (negb (Browser.ok response)); run_M; [reflexivity|].
    destruct parsed; try reflexivity. by destruct (Hobject fields).
  - intros data fields -> -> Hfailed. run_M. cbn [get]. run_M.
    destruct (Browser.ok response); cbn [negb]; run_M; [|reflexivity].
    destruct (truthy (lookup_obj fields "error")); run_M; [reflexivity|].
    destruct (truthy (lookup_obj fields "token")); cbn [negb]; run_M; [|reflexivity].
    destruct Hfailed as [|[|]]; discriminate.
  - intros data fields -> -> -> Herror Htoken. run_M. cbn [get negb]. run_M.
    rewrite Herror. run_M. rewrite Htoken. cbn [negb]. run_M. split.
    + intros e ->. reflexivity.
    + intros user ->. reflexivity.
Qed.

End AuthStorage.

(** ** Text search and replacement *)

Lemma prefix_app (p s : string) : String.prefix p s = true <-> exists rest, s = p ++ rest.
Proof.
  revert s. induction p as [|a p IH]; intros s.
  - destruct s; (split; [by eexists|done]).
  - destruct s as [|b s]; cbn [String.prefix].
    + split; [done|]. by intros [rest [=]].
    + destruct (ascii_dec a b) as [->|Hab].
      * rewrite IH. split; intros [rest H]; exists rest.
        -- by rewrite H.
        -- by injection H.
      * split; [done|]. intros [rest [= -> _]]. done.
Qed.

Lemma after_prefix_app (p s rest : string) : after_prefix p s = Some rest <-> s = p ++ rest.
Proof.
  revert s. induction p as [|a p IH]; intros s.
  - cbn [after_prefix]. split; [intros [= <-]; reflexivity | intros ->; reflexivity].
  - destruct s as [|b s]; cbn [after_prefix].
    + split; [done|]. by intros [=].
    + destruct (Ascii.eqb_spec a b) as [->|Hab].
      * rewrite IH. split; [by intros ->|]. by intros [=].
      * split; [done|]. intros [= -> _]. done.
Qed.

Lemma after_prefix_none (p s : string) : String.prefix p s = false -> after_prefix p s = None.
Proof.
  intros Hp. destruct (after_prefix p s) as [rest|] eqn:H; [|done].
  apply after_prefix_app in H. 
  assert (String.prefix p s = true) by (apply prefix_app; eauto). congruence.
Qed.

Lemma includes_contains (needle hay : string) : includes needle hay = true <-> contains needle hay.
Proof.
  split.
  - induction hay as [|c hay IH]; cbn [includes]; intros H%orb_true_iff.
    + destruct H as [[rest ->]%prefix_app|]; [|done]. by exists "", rest.
    + destruct H as [[rest ->]%prefix_app|H]; [by exists "", rest|].
      destruct (IH H) as (before & after & ->). by exists (String c before), after.
  - intros (before & after & ->). induction before as [|c before IH].
    + assert (String.prefix needle (needle ++ after) = true) as H by (apply prefix_app; eauto).
      change ("" ++ needle ++ after) with (needle ++ after).
      destruct (needle ++ after); cbn [includes]; by rewrite H.
    + change (String c before ++ needle ++ after) with (String c (before ++ needle ++ after)).
      cbn [includes]. rewrite IH. apply orb_true_r.
Qed.

Lemma replace_first_absent (p r s : string) : includes p s = false -> replace_first p r s = s.
Proof.
  induction s as [|c s IH]; cbn [includes]; intros [Hp Hs]%orb_false_iff.
  - cbn [replace_first]. by rewrite (after_prefix_none _ _ Hp).
  - cbn [replace_first]. rewrite (after_prefix_none _ _ Hp). by rewrite IH.
Qed.

Lemma replace_first_chat (base rest : string) :
  includes "/chat" base = false ->
  replace_first "/chat" "/health" (base ++ "/chat" ++ rest) = base ++ "/health" ++ rest.
Proof.
  induction base as [|c base IH]; [reflexivity|].
  cbn [includes]. intros [Hp Hs]%orb_false_iff.
  change (String c base ++ "/chat" ++ rest) with (String c (base ++ "/chat" ++ rest)).
  cbn [replace_first].
  destruct (after_prefix "/chat" (String c (base ++ "/chat" ++ rest))) as [r|] eqn:Hafter.
  - exfalso. apply after_prefix_app in Hafter.
    assert (String.prefix "/chat" (String c base) = true); [|congruence].
    apply prefix_app.
    injection Hafter as -> Hafter.
    destruct base as [|c1 base]; [discriminate Hafter|]. injection Hafter as -> Hafter.
    destruct base as [|c2 base]; [discriminate Hafter|]. injection Hafter as -> Hafter.
    destruct base as [|c3 base]; [discriminate Hafter|]. injection Hafter as -> Hafter.
    destruct base as [|c4 base]; [discriminate Hafter|]. injection Hafter as -> Hafter.
    by exists base.
  - rewrite IH by done. reflexivity.
Qed.

(** ** The chat client *)

Section ChatClient.
Variable JSON_parse : string -> option value.
Variable JSON_stringify : value -> string.
Variable coerce : value -> option Z.
Variable display : value -> string.
Variable network : Browser.Request -> Browser.Exchange.
Variable cfg : Browser.Config.
Variable random_suffix : string.
Variable toISOString : Z -> string.

Local Abbreviation getHeaders :=
  (ApiClient.getHeaders JSON_parse JSON_stringify coerce display network cfg).
Local Abbreviation getSessionId := (ApiClient.getSessionId random_suffix).
Local Abbreviation settle := (ApiClient.settle JSON_parse coerce display toISOString).
Local Abbreviation sendChatMessage :=
  (ApiClient.sendChatMessage JSON_parse JSON_stringify coerce display network cfg
     random_suffix toISOString).
Local Abbreviation saveAnalytics :=
  (ApiClient.saveAnalytics JSON_parse JSON_stringify coerce display network cfg).
Local Abbreviation healthCheck := (ApiClient.healthCheck network cfg).

(** X15.  [getSessionId] never throws and never returns the empty text; the
    id it returns is the one session storage holds afterwards, so that a
    second call returns the same id and changes nothing.  A stored
    non-empty id is returned as it is.  Local storage and the network are
    not touched.  After [clearSessionId] the next call makes a new id from
    the clock. *)
Theorem getSessionId_stable (w : Browser.World) :
  exists id w1,
    getSessionId w = (Ok id, w1)
    /\ id <> ""
    /\ Browser.sessionStorage w1 !! Browser.sessionStorageKey = Some id
    /\ getSessionId w1 = (Ok id, w1)
    /\ Browser.localStorage w1 = Browser.localStorage w
    /\ Browser.sent w1 = Browser.sent w
    /\ (forall s, Browser.sessionStorage w !! Browser.sessionStorageKey = Some s ->
                  s <> "" -> id = s /\ w1 = w)
    /\ exists w2,
         ApiClient.clearSessionId w1 = (Ok (), w2)
         /\ Browser.sessionStorage w2 !! Browser.sessionStorageKey = None
         /\ (getSessionId w2).1
            = Ok ("session_" ++ pretty (Browser.now w) ++ "_" ++ random_suffix).
Proof.
  assert (Hfresh : forall t : Z, String.eqb ("session_" ++ pretty t ++ "_" ++ random_suffix) ""
                               = false) by reflexivity.
  assert (Hnew :
    forall w0 : Browser.World,
      let id := "session_" ++ pretty (Browser.now w0) ++ "_" ++ random_suffix in
      let w1 := {| Browser.localStorage := Browser.localStorage w0;
                   Browser.sessionStorage :=
                     <[Browser.sessionStorageKey := id]> (Browser.sessionStorage w0);
                   Browser.now := Browser.now w0; Browser.sent := Browser.sent w0 |} in
      id <> ""
      /\ Browser.sessionStorage w1 !! Browser.sessionStorageKey = Some id
      /\ getSessionId w1 = (Ok id, w1)).
  { intros w0 id w1. split; [by apply String.eqb_neq|].
    split; [apply lookup_insert_eq|].
    unfold ApiClient.getSessionId, Browser.sessionStorage_getItem. run_M.
    cbn [Browser.sessionStorage w1]. rewrite lookup_insert_eq.
    unfold id. by rewrite Hfresh. }
  assert (Hclear :
    forall w1 : Browser.World,
      exists w2,
        ApiClient.clearSessionId w1 = (Ok (), w2)
        /\ Browser.sessionStorage w2 !! Browser.sessionStorageKey = None
        /\ (getSessionId w2).1
           = Ok ("session_" ++ pretty (Browser.now w1) ++ "_" ++ random_suffix)).
  { intros w1. eexists. split; [reflexivity|]. cbn [Browser.sessionStorage].
    split; [apply lookup_delete_eq|].
    unfold ApiClient.getSessionId, ApiClient.generateSessionId,
      Browser.sessionStorage_getItem, Browser.sessionStorage_setItem. run_M.
    cbn [Browser.sessionStorage]. by rewrite lookup_delete_eq. }
  unfold ApiClient.getSessionId at 1. unfold ApiClient.generateSessionId,
    Browser.sessionStorage_getItem, Browser.sessionStorage_setItem.
  run_M.
  destruct (Browser.sessionStorage w !! Browser.sessionStorageKey) as [s|] eqn:Hstored.
  - destruct (String.eqb_spec s "") as [->|Hs].
    + eexists _, _. split; [reflexivity|].
      destruct (Hnew w) as (Hid & Hkept & Hagain).
      do 5 (split; [done|]). split; [intros s [= <-] Hs; done|]. lazymatch goal with
      | |- context [ApiClient.clearSessionId ?w1] => exact (Hclear w1)
      end.
    + exists s, w. split; [reflexivity|]. split; [done|]. split; [done|].
      split.
      { unfold ApiClient.getSessionId, Browser.sessionStorage_getItem. run_M.
        rewrite Hstored. apply String.eqb_neq in Hs. by rewrite Hs. }
      do 2 (split; [done|]). split; [by intros ? [= <-] _|]. apply Hclear.
  - eexists _, _. split; [reflexivity|].
    destruct (Hnew w) as (Hid & Hkept & Hagain).
    do 5 (split; [done|]). split; [intros s [=]|]. lazymatch goal with
      | |- context [ApiClient.clearSessionId ?w1] => exact (Hclear w1)
      end.
Qed.

Lemma getSessionId_stored (w : Browser.World) :
  exists id w1,
    getSessionId w = (Ok id, w1)
    /\ id <> ""
    /\ Browser.sessionStorage w1 !! Browser.sessionStorageKey = Some id.
Proof.
  assert (Hfresh : forall t : Z, "session_" ++ pretty t ++ "_" ++ random_suffix <> "")
    by done.
  unfold ApiClient.getSessionId, ApiClient.generateSessionId,
    Browser.sessionStorage_getItem, Browser.sessionStorage_setItem. run_M.
  destruct (Browser.sessionStorage w !! Browser.sessionStorageKey) as [s|] eqn:Hstored.
  - destruct (String.eqb_spec s "") as [->|Hs].
    + eexists _, _. split; [reflexivity|]. split; [apply Hfresh|]. apply lookup_insert_eq.
    + by exists s, w.
  - eexists _, _. split; [reflexivity|]. split; [apply Hfresh|]. apply lookup_insert_eq.
Qed.

Lemma settle_world request sessionId response w :
  (settle request sessionId response w).2 = w.
Proof.
  unfold ApiClient.settle. run_M.
  run_cases ltac:(run_M); reflexivity.
Qed.

(** The request [sendChatMessage] posts, and what it does with the reply. *)
Lemma sendChatMessage_run (request : ApiClient.ChatRequest) (w : Browser.World)
    (response : Browser.HttpResponse) :
  (forall r, Browser.url r = Browser.chatEndpoint cfg ->
             Browser.reply (network r) = Ok response) ->
  exists sessionId w2,
    sendChatMessage request w
    = settle request sessionId response
        (Browser.delivered network
           {| Browser.url := Browser.chatEndpoint cfg;
              Browser.payload := JSON_stringify (ApiClient.request_json request sessionId) |}
           w2)
    /\ sessionId <> ""
    /\ (forall s, ApiClient.session_id request = Some s -> s <> "" -> sessionId = s)
    /\ (ApiClient.session_id request = None \/ ApiClient.session_id request = Some "" ->
        Browser.sessionStorage w2 !! Browser.sessionStorageKey = Some sessionId).
Proof.
  intros Hchat. unfold ApiClient.sendChatMessage.
  cbv beta iota zeta delta [mbind mret Browser.M_bind Browser.M_ret].
  destruct (getHeaders_returns JSON_parse JSON_stringify coerce display network cfg w)
    as (headers & w1 & ->).
  assert (exists sessionId w2,
             match ApiClient.session_id request with
             | Some s => if String.eqb s "" then getSessionId else (fun w => (Ok s, w))
             | None => getSessionId
             end w1 = (Ok sessionId, w2)
             /\ sessionId <> ""
             /\ (forall s, ApiClient.session_id request = Some s -> s <> "" -> sessionId = s)
             /\ (ApiClient.session_id request = None
                 \/ ApiClient.session_id request = Some "" ->
                 Browser.sessionStorage w2 !! Browser.sessionStorageKey = Some sessionId))
    as (sessionId & w2 & -> & Hid & Hgiven & Hstored).
  { destruct (getSessionId_stored w1) as (id & w2 & Hrun & Hid & Hkept).
    destruct (ApiClient.session_id request) as [s|].
    - destruct (String.eqb_spec s "") as [->|Hs].
      + exists id, w2. repeat split; try done. by intros ? [= <-].
      + exists s, w1. repeat split; try done.
        * by intros ? [= <-].
        * intros [|[= ->]]; done.
    - exists id, w2. repeat split; done. }
  unfold Browser.fetch at 1. rewrite Hchat by reflexivity.
  by exists sessionId, w2.
Qed.

(** X16.  What [sendChatMessage] throws when the chat endpoint's reply is
    not a success.  A body that is not JSON surfaces as the decoding error,
    whatever the status.  With a JSON body: 429 gives the rate-limit
    message and 401 or 403 the log-in message, whatever the body says; any
    other non-OK status with a direct-form object gives the body's [error],
    else its [message], else ["API error: <status>"]; and with an envelope
    whose body does not parse, the parse failure is what is thrown. *)
Theorem sendChatMessage_errors (request : ApiClient.ChatRequest) (w : Browser.World)
    (response : Browser.HttpResponse)
    (Hchat : forall r, Browser.url r = Browser.chatEndpoint cfg ->
                       Browser.reply (network r) = Ok response) :
  (forall e, Browser.json response = Throw e -> (sendChatMessage request w).1 = Throw e)
  /\ (forall data,
        Browser.json response = Ok data ->
        Browser.ok response = false ->
        (Browser.status response = 429 ->
         (sendChatMessage request w).1
         = Throw (Error "Rate limit exceeded. Please try again later."))
        /\ (Browser.status response = 401 \/ Browser.status response = 403 ->
            (sendChatMessage request w).1
            = Throw (Error "Authentication required. Please log in."))
        /\ (Browser.status response <> 429 ->
            Browser.status response <> 401 ->
            Browser.status response <> 403 ->
            (forall fields,
               data = VObj fields ->
               ApiClient.isLambdaProxyResponse data = false ->
               (sendChatMessage request w).1
               = Throw (Error (JS.to_string display
                                 (or_else (or_else (lookup_obj fields "error")
                                                   (lookup_obj fields "message"))
                                    (VStr ("API error: "
                                           ++ pretty (Browser.status response)))))))
            /\ (forall body,
                  ApiClient.isLambdaProxyResponse data = true ->
                  get data "body" = Ok body ->
                  JSON_parse (JS.to_string display body) = None ->
                  (sendChatMessage request w).1
                  = Throw (Error ("Failed to parse Lambda response body: "
                                  ++ JS.to_string display body))))).
Proof.
  destruct (sendChatMessage_run request w response Hchat) as (sessionId & w2 & -> & _).
  unfold ApiClient.settle. run_M. split.
  - by intros e ->.
  - intros data -> Hok. rewrite Hok. cbn [negb]. split; [|split].
    + by intros ->.
    + by intros [-> | ->].
    + intros H429%Z.eqb_neq H401%Z.eqb_neq H403%Z.eqb_neq.
      rewrite H429, H401, H403. cbn [orb]. split.
      * intros fields -> Hdirect. unfold ApiClient.parseLambdaResponse.
        rewrite Hdirect. reflexivity.
      * intros body Henvelope Hbody Hparse. unfold ApiClient.parseLambdaResponse.
        rewrite Henvelope, Hbody. cbn. by rewrite Hparse.
Qed.


(** X18.  [saveAnalytics] never throws.  While the analytics endpoint is
    the placeholder (its URL contains ["your-api-id"]) it does nothing at
    all: no refresh, no request, no write.  Otherwise the last request
    sent is the record posted to the analytics endpoint, whatever the
    network answers. *)
Theorem saveAnalytics_never_throws (analytics : value) (w : Browser.World) :
  (saveAnalytics analytics w).1 = Ok ()
  /\ (contains "your-api-id" (Browser.analyticsEndpoint cfg) ->
      saveAnalytics analytics w = (Ok (), w))
  /\ (~ contains "your-api-id" (Browser.analyticsEndpoint cfg) ->
      last (Browser.sent (saveAnalytics analytics w).2)
      = Some {| Browser.url := Browser.analyticsEndpoint cfg;
                Browser.payload := JSON_stringify analytics |}).
Proof.
  unfold ApiClient.saveAnalytics.
  destruct (includes "your-api-id" (Browser.analyticsEndpoint cfg)) eqn:Hplaceholder.
  - apply includes_contains in Hplaceholder. by repeat split.
  - assert (~ contains "your-api-id" (Browser.analyticsEndpoint cfg)) as Hset.
    { intros H%includes_contains. congruence. }
    unfold Browser.try_catch.
    cbv beta iota zeta delta [mbind mret Browser.M_bind Browser.M_ret].
    destruct (getHeaders_returns JSON_parse JSON_stringify coerce display network cfg w)
      as (headers & w1 & ->).
    unfold Browser.fetch.
    destruct (Browser.reply _); (split; [reflexivity|]); (split; [done|]);
      intros _; apply last_snoc.
Qed.

(** X19.  [healthCheck] never throws and touches no storage: it sends one
    request and answers [true] exactly when the reply arrived with a
    status from 200 to 299.  The URL probed is the chat endpoint with its
    first ["/chat"] replaced by ["/health"], and the chat endpoint itself
    when it contains no ["/chat"]. *)
Theorem healthCheck_outcome (w : Browser.World) :
  exists healthy probe,
    healthCheck w = (Ok healthy, Browser.delivered network probe w)
    /\ Browser.payload probe = ""
    /\ (healthy = true <->
        exists response,
          Browser.reply (network probe) = Ok response
          /\ 200 <= Browser.status response <= 299)
    /\ (forall base rest,
          Browser.chatEndpoint cfg = base ++ "/chat" ++ rest ->
          ~ contains "/chat" base ->
          Browser.url probe = base ++ "/health" ++ rest)
    /\ (~ contains "/chat" (Browser.chatEndpoint cfg) ->
        Browser.url probe = Browser.chatEndpoint cfg).
Proof.
  unfold ApiClient.healthCheck, Browser.try_catch, Browser.fetch.
  cbv beta iota zeta delta [mbind mret Browser.M_bind Browser.M_ret].
  set (probe := {| Browser.url :=
                     replace_first "/chat" "/health" (Browser.chatEndpoint cfg);
                   Browser.payload := "" |}).
  exists (match Browser.reply (network probe) with
          | Ok response => Browser.ok response
          | Throw _ => false
          end), probe.
  split.
  { destruct (Browser.reply _) as [response|] eqn:Hreply; reflexivity. }
  split; [reflexivity|]. split; [|split].
  - destruct (Browser.reply _) as [response|] eqn:Hreply.
    + unfold Browser.ok. rewrite andb_true_iff, !Z.leb_le. split.
      * intros H. by exists response.
      * by intros (? & [= <-] & H).
    + split; [done|]. by intros (? & [=] & _).
  - intros base rest Hcfg Hbase. unfold probe. cbn [Browser.url]. rewrite Hcfg.
    apply replace_first_chat.
    destruct (includes "/chat" base) eqn:H; [|done].
    by apply includes_contains in H.
  - intros Habsent. unfold probe. cbn [Browser.url]. apply replace_first_absent.
    destruct (includes "/chat" (Browser.chatEndpoint cfg)) eqn:H; [|done].
    by apply includes_contains in H.
Qed.

End ChatClient.

(** A 503 whose body carries only a [message]. *)
Lemma sendChatMessage_errors_witness :
  (ChatExamples.sendChatMessage (ChatExamples.chat_only ChatExamples.unavailable)
     ChatExamples.leave_question (AuthExamples.signed_out_world 1700000000000)).1
  = Throw (Error "Service Unavailable").
Proof.
  destruct (sendChatMessage_errors Json.parse Json.stringify Json.coerce Json.display
              (ChatExamples.chat_only ChatExamples.unavailable) AuthExamples.cfg
              "k3j9x2a" (fun _ => "2024-01-15T10:30:00.000Z")
              ChatExamples.leave_question (AuthExamples.signed_out_world 1700000000000)
              ChatExamples.unavailable) as (_ & Hjson).
  { intros r Hr. unfold ChatExamples.chat_only. cbn [Browser.reply].
    rewrite Hr, String.eqb_refl. reflexivity. }
  destruct (Hjson _ eq_refl eq_refl) as (_ & _ & Hother).
  destruct (Hother ltac:(discriminate) ltac:(discriminate) ltac:(discriminate))
    as (Hdirect & _).
  exact (Hdirect _ eq_refl eq_refl).
Defined.


(** ** The request headers *)

Section Headers.
Variable JSON_parse : string -> option value.
Variable JSON_stringify : value -> string.
Variable coerce : value -> option Z.
Variable display : value -> string.
Variable network : Browser.Request -> Browser.Exchange.
Variable cfg : Browser.Config.

Local Abbreviation getStoredSession := (Auth.getStoredSession JSON_parse coerce).
Local Abbreviation getAuthToken := (Auth.getAuthToken JSON_parse coerce).
Local Abbreviation refreshSession :=
  (Auth.refreshSession JSON_parse JSON_stringify coerce display network cfg).
Local Abbreviation getHeaders :=
  (ApiClient.getHeaders JSON_parse JSON_stringify coerce display network cfg).

(** Reading the session a second time changes nothing. *)
Lemma getStoredSession_again (w w' : Browser.World) (session : value) :
  getStoredSession w = (Ok session, w') -> getStoredSession w' = (Ok session, w').
Proof.
  unfold Auth.getStoredSession. run_M.
  destruct (Browser.localStorage w !! Browser.tokenStorageKey) as [text|] eqn:Hstored.
  2:{ intros [= <- <-]. by rewrite Hstored. }
  destruct (String.eqb text "") eqn:Htext.
  { intros [= <- <-]. by rewrite Hstored, Htext. }
  unfold JS.parse. destruct (JSON_parse text) as [parsed|] eqn:Hparse; run_M.
  2:{ intros [= <- <-]. rewrite Hstored, Htext, Hparse. reflexivity. }
  destruct (get parsed "expiresAt") as [expiresAt|] eqn:Hexp; run_M.
  2:{ intros [= <- <-]. rewrite Hstored, Htext, Hparse. run_M. by rewrite Hexp. }
  destruct (lt_num coerce expiresAt (Browser.now w)) eqn:Hlt; run_M.
  - intros [= <- <-]. cbn [Browser.localStorage Browser.remove_local].
    by rewrite lookup_delete_eq.
  - intros [= <- <-]. rewrite Hstored, Htext, Hparse. run_M. rewrite Hexp. run_M.
    by rewrite Hlt.
Qed.

(** X20.  [getHeaders] never throws, always sets [Content-Type], and sets
    [x-api-key] exactly when an API key is configured.  Its [Authorization]
    header agrees with the storage it leaves behind: it is
    ["Bearer " + token] for the token [getAuthToken] returns afterwards, and
    absent when that is [null].  A signed-out browser gets no
    [Authorization] header and nothing is sent or written. *)
Theorem getHeaders_authorization (w : Browser.World) :
  exists headers token w',
    getHeaders w = (Ok (VObj headers), w')
    /\ getAuthToken w' = (Ok token, w')
    /\ lookup_obj headers "Content-Type" = VStr "application/json"
    /\ lookup_obj headers "Authorization"
       = (if truthy token then VStr ("Bearer " ++ JS.to_string display token)
          else VUndefined)
    /\ lookup_obj headers "x-api-key"
       = (if String.eqb (Browser.apiKey cfg) "" then VUndefined
          else VStr (Browser.apiKey cfg))
    /\ (Browser.localStorage w !! Browser.tokenStorageKey = None ->
        token = VNull /\ w' = w).
Proof.
  unfold ApiClient.getHeaders, Auth.getAuthToken.
  cbv beta iota zeta delta [mbind mret Browser.M_bind Browser.M_ret].
  destruct (refreshSession_returns JSON_parse JSON_stringify coerce display network cfg w)
    as (v & w1 & Hrefresh).
  rewrite Hrefresh.
  destruct (getStoredSession_returns JSON_parse coerce w1) as (session & w2 & Hread).
  rewrite Hread.
  eexists _, (or_else (get_opt session "token") VNull), w2.
  rewrite (getStoredSession_again _ _ _ Hread).
  split; [reflexivity|]. split; [reflexivity|]. split; [reflexivity|].
  split; [reflexivity|]. split.
  { cbn. by destruct (String.eqb (Browser.apiKey cfg) ""). }
  intros Habsent.
  assert (getStoredSession w = (Ok VNull, w)) as Hsigned_out.
  { unfold Auth.getStoredSession. run_M. by rewrite Habsent. }
  rewrite refreshSession_unfold, Hsigned_out in Hrefresh. cbn in Hrefresh.
  injection Hrefresh as <- <-. rewrite Hsigned_out in Hread.
  by injection Hread as <- <-.
Qed.

End Headers.

(** ** Configuration *)

Lemma not_contains (needle hay : string) :
  ~ contains needle hay <-> includes needle hay = false.
Proof.
  rewrite <- includes_contains. destruct (includes needle hay); split; congruence.
Qed.

Lemma env_or_set (env : gmap string string) (name fallback v : string) :
  AwsConfig.env_or env name fallback = v ->
  (env !! name = Some v /\ v <> "") \/ v = fallback.
Proof.
  unfold AwsConfig.env_or. destruct (env !! name) as [x|]; [|by right].
  destruct (String.eqb_spec x ""); [by right|]. intros <-. by left.
Qed.

(** X21.  [validateAwsConfig] accepts a configuration exactly when neither
    the chat nor the auth endpoint contains ["your-api-id"]; each of its two
    messages is reported exactly when its endpoint does; the analytics
    endpoint and the API key play no role.  For the configuration built
    from the environment this means: both endpoint variables are set, not
    empty and free of the placeholder. *)
Theorem validateAwsConfig_sound (cfg : Browser.Config) :
  (AwsConfig.valid (AwsConfig.validateAwsConfig cfg) = true
   <-> ~ contains "your-api-id" (Browser.chatEndpoint cfg)
       /\ ~ contains "your-api-id" (Browser.authEndpoint cfg))
  /\ (AwsConfig.valid (AwsConfig.validateAwsConfig cfg) = true
      <-> AwsConfig.errors (AwsConfig.validateAwsConfig cfg) = [])
  /\ (AwsConfig.chat_not_configured ∈ AwsConfig.errors (AwsConfig.validateAwsConfig cfg)
      <-> contains "your-api-id" (Browser.chatEndpoint cfg))
  /\ (AwsConfig.auth_not_configured ∈ AwsConfig.errors (AwsConfig.validateAwsConfig cfg)
      <-> contains "your-api-id" (Browser.authEndpoint cfg))
  /\ (forall analytics key,
        AwsConfig.validateAwsConfig
          {| Browser.chatEndpoint := Browser.chatEndpoint cfg;
             Browser.authEndpoint := Browser.authEndpoint cfg;
             Browser.analyticsEndpoint := analytics;
             Browser.apiKey := key |}
        = AwsConfig.validateAwsConfig cfg)
  /\ (forall env : gmap string string,
        AwsConfig.valid (AwsConfig.validateAwsConfig (AwsConfig.AWS_CONFIG env)) = true
        <-> exists chat auth,
              env !! "VITE_AWS_CHAT_ENDPOINT" = Some chat
              /\ chat <> "" /\ ~ contains "your-api-id" chat
              /\ env !! "VITE_AWS_AUTH_ENDPOINT" = Some auth
              /\ auth <> "" /\ ~ contains "your-api-id" auth).
Proof.
  assert (Hvalid : forall c : Browser.Config,
             AwsConfig.valid (AwsConfig.validateAwsConfig c) = true
             <-> ~ contains "your-api-id" (Browser.chatEndpoint c)
                 /\ ~ contains "your-api-id" (Browser.authEndpoint c)).
  { intros c. rewrite !not_contains. unfold AwsConfig.validateAwsConfig.
    destruct (includes "your-api-id" (Browser.chatEndpoint c));
      destruct (includes "your-api-id" (Browser.authEndpoint c)); cbn; intuition congruence. }
  split; [apply Hvalid|].
  split; [|split; [|split; [|split]]].
  - unfold AwsConfig.validateAwsConfig.
    destruct (includes "your-api-id" (Browser.chatEndpoint cfg));
      destruct (includes "your-api-id" (Browser.authEndpoint cfg)); cbn; split; congruence.
  - rewrite <- includes_contains. unfold AwsConfig.validateAwsConfig.
    destruct (includes "your-api-id" (Browser.chatEndpoint cfg));
      destruct (includes "your-api-id" (Browser.authEndpoint cfg));
      cbn [AwsConfig.errors app]; rewrite ?elem_of_cons, ?elem_of_nil;
      unfold AwsConfig.chat_not_configured, AwsConfig.auth_not_configured;
      intuition (auto; discriminate).
  - rewrite <- includes_contains. unfold AwsConfig.validateAwsConfig.
    destruct (includes "your-api-id" (Browser.chatEndpoint cfg));
      destruct (includes "your-api-id" (Browser.authEndpoint cfg));
      cbn [AwsConfig.errors app]; rewrite ?elem_of_cons, ?elem_of_nil;
      unfold AwsConfig.chat_not_configured, AwsConfig.auth_not_configured;
      intuition (auto; discriminate).
  - reflexivity.
  - intros env. rewrite Hvalid. cbn [Browser.chatEndpoint Browser.authEndpoint AwsConfig.AWS_CONFIG].
    split.
    + intros [Hchat Hauth].
      destruct (env_or_set env "VITE_AWS_CHAT_ENDPOINT"
                  "https://your-api-id.execute-api.region.amazonaws.com/prod/chat" _ eq_refl)
        as [[Hc Hcne]|Hc].
      2:{ exfalso. apply Hchat. rewrite Hc. apply includes_contains. reflexivity. }
      destruct (env_or_set env "VITE_AWS_AUTH_ENDPOINT"
                  "https://your-api-id.execute-api.region.amazonaws.com/prod/auth" _ eq_refl)
        as [[Ha Hane]|Ha].
      2:{ exfalso. apply Hauth. rewrite Ha. apply includes_contains. reflexivity. }
      eauto 10.
    + intros (chat & auth & Hc & Hcne & Hchat & Ha & Hane & Hauth).
      unfold AwsConfig.env_or. rewrite Hc, Ha.
      apply String.eqb_neq in Hcne, Hane. by rewrite Hcne, Hane.
Qed.

(** ** The aggregates of the analytics hook *)

Lemma hook_after_snoc (calls : list HookCall) (c : HookCall) :
  hook_after (calls ++ [c]) = hook_step (hook_after calls) c.
Proof. unfold hook_after. by rewrite fold_left_app. Qed.

Lemma sessionIds_history (calls : list HookCall) :
  AnalyticsHook.sessionIds (hook_after calls)
  = list_to_set (map Analytics.session_id (AnalyticsHook.analyticsHistory (hook_after calls))).
Proof.
  induction calls as [|c calls IH] using rev_ind; [reflexivity|].
  rewrite hook_after_snoc. destruct c as [a|id r|]; cbn.
  - rewrite IH, List.map_app. cbn [map].
    rewrite list_to_set_snoc_L. apply (comm_L (∪)).
  - exact IH.
  - reflexivity.
Qed.

(** X22.  After any sequence of [trackAnalytics], [trackFeedback] and
    [clearAnalytics] calls, the set of session ids holds exactly the session
    ids of the records in the history, so [sessionsCount] is the number of
    distinct sessions among them: at most [totalMessages], and zero exactly
    when the history is empty. *)
Theorem sessionsCount_distinct (calls : list HookCall) :
  (forall id,
     id ∈ AnalyticsHook.sessionIds (hook_after calls)
     <-> exists a, a ∈ AnalyticsHook.analyticsHistory (hook_after calls)
                   /\ Analytics.session_id a = id)
  /\ AnalyticsHook.sessionsCount (hook_after calls)
     = Z.of_nat (List.length
                   (remove_dups (map Analytics.session_id
                                   (AnalyticsHook.analyticsHistory (hook_after calls)))))
  /\ AnalyticsHook.sessionsCount (hook_after calls)
     <= AnalyticsHook.totalMessages (hook_after calls)
  /\ (AnalyticsHook.sessionsCount (hook_after calls) = 0
      <-> AnalyticsHook.analyticsHistory (hook_after calls) = []).
Proof.
  pose proof (sessionIds_history calls) as Hids.
  set (st := hook_after calls) in *.
  set (ids := map Analytics.session_id (AnalyticsHook.analyticsHistory st)) in *.
  assert (Hcount : AnalyticsHook.sessionsCount st = Z.of_nat (List.length (remove_dups ids))).
  { unfold AnalyticsHook.sessionsCount. rewrite Hids. f_equal.
    rewrite <- (size_list_to_set (C := gset string) (remove_dups ids))
      by apply NoDup_remove_dups.
    f_equal. apply set_eq. intros x.
    by rewrite !elem_of_list_to_set, elem_of_remove_dups. }
  split; [|split; [exact Hcount|split]].
  - intros id. rewrite Hids, elem_of_list_to_set. unfold ids.
    rewrite list_elem_of_fmap. split; intros (a & H1 & H2); exists a; done.
  - rewrite Hcount. unfold AnalyticsHook.totalMessages.
    apply inj_le.
    transitivity (List.length ids); [|unfold ids; by rewrite List.length_map].
    apply submseteq_length, NoDup_submseteq; [apply NoDup_remove_dups|].
    intros x. by rewrite elem_of_remove_dups.
  - rewrite Hcount. unfold ids.
    destruct (AnalyticsHook.analyticsHistory st) as [|a history]; [done|].
    split; [|done]. cbn [map]. intros H.
    assert (Analytics.session_id a ∈ remove_dups (Analytics.session_id a
                                                    :: map Analytics.session_id history))
      as Hin by (apply elem_of_remove_dups; left).
    destruct (remove_dups _); [by apply elem_of_nil in Hin|]. cbn in H. lia.
Qed.

Lemma fold_left_total {A} (f : A -> Z) (l : list A) (z : Z) :
  fold_left (fun sum a => sum + f a) l z = z + total (map f l).
Proof.
  revert z. induction l as [|a l IH]; intros z; cbn; [lia|]. rewrite IH. unfold total. lia.
Qed.

Lemma total_bounds (l : list Z) (lo hi : Z) :
  Forall (fun t => lo <= t <= hi) l ->
  Z.of_nat (List.length l) * lo <= total l <= Z.of_nat (List.length l) * hi.
Proof.
  induction 1 as [|t l Ht Hl IH]; [cbn; lia|].
  cbn [List.length total foldr]. fold (total l). lia.
Qed.

Lemma Math_round_div_half (n : Z) (d : positive) :
  2 * Z.pos d * AnalyticsHook.Math_round_div n d <= 2 * n + Z.pos d
  < 2 * Z.pos d * AnalyticsHook.Math_round_div n d + 2 * Z.pos d.
Proof.
  unfold AnalyticsHook.Math_round_div, Qfloor, Qplus. cbn [Qnum Qden].
  rewrite Pos2Z.inj_mul.
  pose proof (Z.div_mod (n * 2 + 1 * Z.pos d) (Z.pos d * 2) ltac:(lia)) as Hdm.
  pose proof (Z.mod_pos_bound (n * 2 + 1 * Z.pos d) (Z.pos d * 2) ltac:(lia)) as Hb.
  change (Z.pos 2) with 2. lia.
Qed.

(** X23.  [averageExecutionTime] is 0 for an empty history; otherwise it is
    the mean of the execution times rounded to the nearest integer, halves
    upwards, and so lies between the smallest and the largest of them. *)
Theorem averageExecutionTime_rounds (st : AnalyticsHook.State) :
  (AnalyticsHook.analyticsHistory st = [] -> AnalyticsHook.averageExecutionTime st = 0)
  /\ (AnalyticsHook.analyticsHistory st <> [] ->
      2 * AnalyticsHook.totalMessages st * AnalyticsHook.averageExecutionTime st
      <= 2 * total (AnalyticsHook.executionTimes st) + AnalyticsHook.totalMessages st
      < 2 * AnalyticsHook.totalMessages st * AnalyticsHook.averageExecutionTime st
        + 2 * AnalyticsHook.totalMessages st)
  /\ (forall lo hi,
        AnalyticsHook.analyticsHistory st <> [] ->
        (forall a, a ∈ AnalyticsHook.analyticsHistory st ->
                   lo <= Analytics.execution_time_ms a <= hi) ->
        lo <= AnalyticsHook.averageExecutionTime st <= hi).
Proof.
  unfold AnalyticsHook.averageExecutionTime, AnalyticsHook.totalMessages,
    AnalyticsHook.executionTimes.
  destruct (AnalyticsHook.analyticsHistory st) as [|a history].
  { repeat split; done. }
  set (times := map Analytics.execution_time_ms (a :: history)).
  assert (Hlen : List.length times = S (List.length history)).
  { unfold times. by rewrite List.length_map. }
  rewrite Hlen. 
  assert (Hn : Z.of_nat (List.length (a :: history))
               = Z.pos (Pos.of_succ_nat (List.length history))).
  { cbn [List.length]. lia. }
  rewrite (fold_left_total (fun t => t)), List.map_id, Z.add_0_l, Hn.
  pose proof (Math_round_div_half (total times) (Pos.of_succ_nat (List.length history)))
    as Hhalf.
  split; [done|]. split; [intros _; lia|].
  intros lo hi _ Hall.
  assert (Forall (fun t => lo <= t <= hi) times) as Hbounds%total_bounds.
  { apply Forall_forall. intros t (a' & -> & Ha')%list_elem_of_fmap. by apply Hall. }
  rewrite Hlen in Hbounds.
  replace (Z.of_nat (S (List.length history)))
    with (Z.pos (Pos.of_succ_nat (List.length history))) in Hbounds by lia.
  nia.
Qed.

Lemma total_Permutation (l1 l2 : list Z) : l1 ≡ₚ l2 -> total l1 = total l2.
Proof. induction 1; cbn; unfold total in *; lia. Qed.

Section DailyTotals.
Variable isoDate : string -> option string.
Variable invalid_time : string.

Lemma total_map_insert (f : Z * Z -> Z) (m : gmap string (Z * Z)) (d : string) (v : Z * Z) :
  total ((fun e => f e.2) <$> map_to_list (<[d := v]> m))
  = total ((fun e => f e.2) <$> map_to_list m) - from_option f 0 (m !! d) + f v.
Proof.
  destruct (m !! d) as [old|] eqn:Hd; cbn [from_option].
  - pose proof (total_Permutation _ _
                  (fmap_Permutation (fun e => f e.2) _ _ (map_to_list_delete m d old Hd)))
      as Hold.
    pose proof (total_Permutation _ _
                  (fmap_Permutation (fun e => f e.2) _ _
                     (map_to_list_insert (delete d m) d v (lookup_delete_eq m d))))
      as Hnew.
    rewrite insert_delete_eq in Hnew. rewrite Hnew, <- Hold.
    cbn [fmap list_fmap total foldr snd]. unfold total. lia.
  - rewrite (total_Permutation _ _
               (fmap_Permutation (fun e => f e.2) _ _ (map_to_list_insert m d v Hd))).
    cbn [fmap list_fmap total foldr snd]. unfold total. lia.
Qed.

Lemma daily_step_insert (m : gmap string (Z * Z)) (a : Analytics.AnalyticsMetadata)
    (d : string) :
  isoDate (Analytics.timestamp a) = Some d ->
  Analytics.daily_step isoDate invalid_time m a
  = Ok (<[d := ((default (0, 0) (m !! d)).1 + 1,
                (default (0, 0) (m !! d)).2 + Analytics.total_tokens a)]> m).
Proof.
  intros Hd.
  destruct (daily_step_lookup isoDate invalid_time m a d Hd) as (m1 & -> & Hhit & Hmiss).
  f_equal. apply map_eq. intros k. destruct (decide (k = d)) as [->|Hk].
  - by rewrite Hhit, lookup_insert_eq.
  - by rewrite Hmiss, lookup_insert_ne.
Qed.

Lemma daily_fill_totals (history : list Analytics.AnalyticsMetadata) :
  forall m,
    Forall (fun a => is_Some (isoDate (Analytics.timestamp a))) history ->
    exists m',
      Analytics.daily_fill isoDate invalid_time m history = Ok m'
      /\ total ((fun e => e.2.1) <$> map_to_list m')
         = total ((fun e => e.2.1) <$> map_to_list m) + Z.of_nat (List.length history)
      /\ total ((fun e => e.2.2) <$> map_to_list m')
         = total ((fun e => e.2.2) <$> map_to_list m)
           + total (map Analytics.total_tokens history).
Proof.
  induction history as [|a history IH]; intros m Hvalid.
  - exists m. cbn. repeat split; lia.
  - apply Forall_cons in Hvalid as [[d Hd] Hvalid].
    cbn [Analytics.daily_fill]. rewrite (daily_step_insert m a d Hd).
    cbn [mbind outcome_bind].
    destruct (IH (<[d := ((default (0, 0) (m !! d)).1 + 1,
                          (default (0, 0) (m !! d)).2 + Analytics.total_tokens a)]> m)
                Hvalid) as (m' & -> & Hmessages & Htokens).
    exists m'. split; [reflexivity|].
    rewrite Hmessages, Htokens.
    rewrite (total_map_insert fst), (total_map_insert snd).
    destruct (m !! d) as [[n t]|];
      cbn [from_option default fst snd List.length map total foldr].
    all: unfold total, id; cbn [fst snd]; split; lia.
Qed.

Lemma daily_fill_invalid (history : list Analytics.AnalyticsMetadata) :
  forall m,
    Exists (fun a => isoDate (Analytics.timestamp a) = None) history ->
    Analytics.daily_fill isoDate invalid_time m history = Throw (RangeError invalid_time).
Proof.
  induction history as [|a history IH]; intros m Hinvalid.
  - by apply Exists_nil in Hinvalid.
  - cbn [Analytics.daily_fill]. unfold Analytics.daily_step at 1.
    destruct (isoDate (Analytics.timestamp a)) as [d|] eqn:Hd.
    + apply Exists_cons in Hinvalid as [Ha|Hrest]; [congruence|].
      cbn [mbind outcome_bind]. by apply IH.
    + reflexivity.
Qed.

(** X24.  The daily aggregation either throws, and then some record of the
    history has a timestamp that is not a date and what is thrown is the
    [RangeError] of [toISOString]; or it returns buckets, and then every
    timestamp is a date and the buckets add up to the totals of the
    dashboard: their [messages] to [totalMessages] and their [tokens] to
    [totalTokens]. *)
Theorem dailyUsage_conserves (st : AnalyticsHook.State) :
  match Analytics.dailyUsage isoDate invalid_time (AnalyticsHook.analyticsHistory st) with
  | Ok buckets =>
      Forall (fun a => is_Some (isoDate (Analytics.timestamp a)))
        (AnalyticsHook.analyticsHistory st)
      /\ total (map Analytics.messages buckets) = AnalyticsHook.totalMessages st
      /\ total (map Analytics.tokens buckets) = AnalyticsHook.totalTokens st
  | Throw e =>
      e = RangeError invalid_time
      /\ Exists (fun a => isoDate (Analytics.timestamp a) = None)
           (AnalyticsHook.analyticsHistory st)
  end.
Proof.
  unfold Analytics.dailyUsage, AnalyticsHook.totalMessages, AnalyticsHook.totalTokens.
  destruct (decide (Forall (fun a => is_Some (isoDate (Analytics.timestamp a)))
                      (AnalyticsHook.analyticsHistory st))) as [Hvalid|Hinvalid].
  - destruct (daily_fill_totals _ ∅ Hvalid) as (m' & -> & Hmessages & Htokens).
    cbn [mbind outcome_bind mret outcome_ret].
    split; [done|].
    rewrite map_to_list_empty in Hmessages, Htokens.
    cbn [fmap list_fmap total foldr] in Hmessages, Htokens.
    rewrite fold_left_total.
    change (map Analytics.messages) with (fmap (M := list) Analytics.messages).
    change (map Analytics.tokens) with (fmap (M := list) Analytics.tokens).
    rewrite <- !list_fmap_compose.
    split; [exact Hmessages | exact Htokens].
  - apply not_Forall_Exists in Hinvalid; [|apply _].
    assert (Exists (fun a => isoDate (Analytics.timestamp a) = None)
              (AnalyticsHook.analyticsHistory st)) as Hnone.
    { apply Exists_exists. apply Exists_exists in Hinvalid as (a & Ha & Hno).
      exists a. split; [done|]. by apply eq_None_not_Some. }
    rewrite (daily_fill_invalid _ ∅ Hnone). by split.
Qed.

End DailyTotals.

(** ** Feedback counts *)

Section FeedbackCounts.
Import Analytics.

Lemma find_absent (id : string) (prev : list FeedbackRecord) :
  id ∉ map messageId prev ->
  List.find (fun f => String.eqb (messageId f) id) prev = None.
Proof.
  induction prev as [|f prev IH]; [done|]. cbn [map List.find].
  rewrite not_elem_of_cons. intros [Hne Hnotin].
  assert (messageId f <> id) as Hf%String.eqb_neq by congruence.
  rewrite Hf. by apply IH.
Qed.

Lemma find_present (id : string) (r0 : Rating) (prev : list FeedbackRecord) :
  {| messageId := id; rating := r0 |} ∈ prev ->
  is_Some (List.find (fun f => String.eqb (messageId f) id) prev).
Proof.
  induction prev as [|f prev IH]; [by intros ?%elem_of_nil|].
  intros [<-|Hin]%elem_of_cons; cbn [List.find].
  - cbn [messageId]. by rewrite String.eqb_refl.
  - destruct (String.eqb (messageId f) id); [done | by apply IH].
Qed.

Lemma upsert_count (p : Rating -> bool) (id : string) (r r0 : Rating)
    (prev : list FeedbackRecord) :
  NoDup (map messageId prev) ->
  {| messageId := id; rating := r0 |} ∈ prev ->
  (List.length (List.filter (fun f => p (rating f)) (map (upsert_entry id r) prev))
   + (if p r0 then 1 else 0)
   = List.length (List.filter (fun f => p (rating f)) prev) + (if p r then 1 else 0))%nat.
Proof.
  induction prev as [|f prev IH]; [by intros _ ?%elem_of_nil|].
  cbn [map]. intros [Hfresh Hnodup]%NoDup_cons Hin.
  destruct (String.eqb_spec (messageId f) id) as [Hid|Hid].
  - rewrite (upsert_entry_hit _ _ _ Hid), upsert_absent by congruence.
    assert (f = {| messageId := id; rating := r0 |}) as ->.
    { apply elem_of_cons in Hin as [<-|Hin]; [done|]. exfalso. apply Hfresh.
      rewrite Hid. apply list_elem_of_fmap.
      by exists {| messageId := id; rating := r0 |}. }
    cbn [List.filter rating]. destruct (p r), (p r0); cbn [List.length]; lia.
  - rewrite (upsert_entry_miss _ _ _ Hid).
    apply elem_of_cons in Hin as [Hf|Hin]; [by subst f|].
    specialize (IH Hnodup Hin). cbn [List.filter].
    destruct (p (rating f)); cbn [List.length]; lia.
Qed.

Lemma feedbackRecords_NoDup (calls : list HookCall) :
  NoDup (map messageId (AnalyticsHook.feedbackRecords (hook_after calls))).
Proof.
  induction calls as [|c calls IH] using rev_ind; [apply NoDup_nil_2|].
  rewrite hook_after_snoc. destruct c as [a|id r|]; cbn.
  - exact IH.
  - by apply trackFeedback_step.
  - apply NoDup_nil_2.
Qed.

(** X25.  After any sequence of calls of the hook every rated message is
    counted once: [feedbackPositive] and [feedbackNegative] add up to the
    number of records.  Rating a message not rated before adds one to the
    count of its rating; rating a message again moves its vote from the old
    rating to the new one, so the same rating twice changes nothing. *)
Theorem feedback_counts (calls : list HookCall) (id : string) (r : Rating) :
  AnalyticsHook.feedbackPositive (hook_after calls)
  + AnalyticsHook.feedbackNegative (hook_after calls)
  = Z.of_nat (List.length (AnalyticsHook.feedbackRecords (hook_after calls)))
  /\ (id ∉ map messageId (AnalyticsHook.feedbackRecords (hook_after calls)) ->
      AnalyticsHook.feedbackPositive (AnalyticsHook.trackFeedback id r (hook_after calls))
      = AnalyticsHook.feedbackPositive (hook_after calls)
        + match r with like => 1 | dislike => 0 end
      /\ AnalyticsHook.feedbackNegative (AnalyticsHook.trackFeedback id r (hook_after calls))
         = AnalyticsHook.feedbackNegative (hook_after calls)
           + match r with like => 0 | dislike => 1 end)
  /\ (forall r0,
        {| messageId := id; rating := r0 |}
        ∈ AnalyticsHook.feedbackRecords (hook_after calls) ->
        AnalyticsHook.feedbackPositive (AnalyticsHook.trackFeedback id r (hook_after calls))
        = AnalyticsHook.feedbackPositive (hook_after calls)
          - match r0 with like => 1 | dislike => 0 end
          + match r with like => 1 | dislike => 0 end
        /\ AnalyticsHook.feedbackNegative
             (AnalyticsHook.trackFeedback id r (hook_after calls))
           = AnalyticsHook.feedbackNegative (hook_after calls)
             - match r0 with like => 0 | dislike => 1 end
             + match r with like => 0 | dislike => 1 end).
Proof.
  pose proof (feedbackRecords_NoDup calls) as Hnodup.
  unfold AnalyticsHook.feedbackPositive, AnalyticsHook.feedbackNegative.
  cbn [AnalyticsHook.trackFeedback AnalyticsHook.feedbackRecords].
  set (records := AnalyticsHook.feedbackRecords (hook_after calls)) in *.
  split; [|split].
  - clearbody records. clear Hnodup.
    induction records as [|f records IH]; [done|]. cbn [List.filter List.length].
    destruct (rating f); cbn [List.length]; lia.
  - intros Hnew. rewrite trackFeedback_unfold, (find_absent _ _ Hnew).
    rewrite !List.filter_app, !List.length_app. cbn [List.filter rating].
    destruct r; cbn [List.length]; lia.
  - intros r0 Hin. rewrite trackFeedback_unfold.
    destruct (find_present _ _ _ Hin) as [f0 ->].
    pose proof (upsert_count (fun x => match x with like => true | dislike => false end)
                  id r r0 records Hnodup Hin) as Hlikes.
    pose proof (upsert_count (fun x => match x with dislike => true | like => false end)
                  id r r0 records Hnodup Hin) as Hdislikes.
    cbv beta in Hlikes, Hdislikes.
    destruct r, r0; lia.
Qed.

End FeedbackCounts.

(** ** The transcript and the feedback records *)

Section Transcript.
Import Analytics.

Lemma trackFeedback_holds (id : string) (r : Rating) (prev : list FeedbackRecord) :
  {| messageId := id; rating := r |} ∈ trackFeedback id r prev.
Proof.
  rewrite trackFeedback_unfold.
  destruct (List.find _ prev) as [f0|] eqn:Hfind.
  - apply List.find_some in Hfind as [Hin Hid%String.eqb_eq].
    apply list_elem_of_fmap. exists f0.
    split; [by rewrite upsert_entry_hit | by apply list_elem_of_In].
  - apply elem_of_app. right. apply list_elem_of_singleton. reflexivity.
Qed.

Lemma trackFeedback_keeps (id : string) (r : Rating) (f : FeedbackRecord)
    (prev : list FeedbackRecord) :
  f ∈ prev -> messageId f <> id -> f ∈ trackFeedback id r prev.
Proof.
  intros Hin Hid. rewrite trackFeedback_unfold.
  destruct (List.find _ prev).
  - apply list_elem_of_fmap. exists f. split; [by rewrite upsert_entry_miss | done].
  - apply elem_of_app. by left.
Qed.

(** X26.  [handleFeedback] keeps the transcript and the feedback records
    in step: if every rating shown in the transcript was on record before,
    it is so afterwards; the messages keep their order and ids, those with
    the given id show the new rating and every other message is untouched.
    [clearMessages] empties the transcript and forgets the session id of
    the hook, and keeps the analytics and the feedback records; in
    [useAwsChat] it also removes the session id from session storage, and
    nothing else. *)
Theorem handleFeedback_recorded (id : string) (r : Rating) (st : ChatHook.State)
    (Hrecorded : ratings_recorded st) :
  ratings_recorded (ChatHook.handleFeedback id r st)
  /\ map ChatHook.id (ChatHook.messages (ChatHook.handleFeedback id r st))
     = map ChatHook.id (ChatHook.messages st)
  /\ (forall m, m ∈ ChatHook.messages (ChatHook.handleFeedback id r st) ->
                ChatHook.id m = id -> ChatHook.feedback m = Some r)
  /\ (forall m, m ∈ ChatHook.messages st -> ChatHook.id m <> id ->
                m ∈ ChatHook.messages (ChatHook.handleFeedback id r st))
  /\ ChatHook.hook (ChatHook.handleFeedback id r st)
     = AnalyticsHook.trackFeedback id r (ChatHook.hook st)
  /\ (forall st0,
        ChatHook.messages (ChatHook.clearMessages st0) = []
        /\ ChatHook.sessionIdRef (ChatHook.clearMessages st0) = None
        /\ ChatHook.hook (ChatHook.clearMessages st0) = ChatHook.hook st0
        /\ ratings_recorded (ChatHook.clearMessages st0))
  /\ (forall st0 w,
        exists w',
          ChatHook.clearMessages_aws st0 w = (Ok (ChatHook.clearMessages st0), w')
          /\ Browser.sessionStorage w'
             = delete Browser.sessionStorageKey (Browser.sessionStorage w)
          /\ Browser.localStorage w' = Browser.localStorage w
          /\ Browser.sent w' = Browser.sent w).
Proof.
  unfold ChatHook.handleFeedback, ChatHook.with_feedback.
  split; [|split; [|split; [|split; [|split; [|split]]]]].
  - intros m' r' [m [-> Hin]]%list_elem_of_fmap.
    cbn [ChatHook.hook AnalyticsHook.trackFeedback AnalyticsHook.feedbackRecords].
    destruct (String.eqb_spec (ChatHook.id m) id) as [Hid|Hid].
    + cbn [ChatHook.feedback ChatHook.id]. intros [= <-]. rewrite Hid.
      apply trackFeedback_holds.
    + intros Hf. apply trackFeedback_keeps; [by apply Hrecorded | done].
  - cbn [ChatHook.messages]. rewrite List.map_map. apply List.map_ext.
    intros m. by destruct (String.eqb (ChatHook.id m) id).
  - cbn [ChatHook.messages]. intros m' [m [-> Hin]]%list_elem_of_fmap.
    destruct (String.eqb_spec (ChatHook.id m) id) as [Hid|Hid]; [done|].
    intros Hm. done.
  - cbn [ChatHook.messages]. intros m Hin Hid%String.eqb_neq.
    apply list_elem_of_fmap. exists m. by rewrite Hid.
  - reflexivity.
  - intros st0. do 3 (split; [reflexivity|]).
    intros m r' Hin. by apply elem_of_nil in Hin.
  - intros st0 w. eexists. split; [reflexivity|]. by repeat split.
Qed.

End Transcript.

(** An envelope that says 401 around a grant, on HTTP 200: the login goes
    through. *)
Lemma authenticate_envelope_witness :
  (Auth.authenticate Json.parse Json.stringify Json.coerce Json.display
     (LoginExamples.enveloped_server (VNum 401)) AuthExamples.cfg
     "/login" (Auth.login_json LoginExamples.credentials) "Login failed"
     (AuthExamples.signed_out_world 1700000000000)).1
  = Ok (LoginExamples.session 1700007200030).
Proof.
  destruct (authenticate_envelope Json.parse Json.stringify Json.coerce Json.display
              (LoginExamples.enveloped_server (VNum 401)) AuthExamples.cfg
              "/login" (Auth.login_json LoginExamples.credentials) "Login failed"
              (AuthExamples.signed_out_world 1700000000000)
              {| Browser.status := 200;
                 Browser.json := Ok (VObj (LoginExamples.enveloped (VNum 401))) |}
              (LoginExamples.enveloped (VNum 401))
              (Json.stringify (VObj (LoginExamples.granted (VNum 7200))))
              eq_refl eq_refl eq_refl eq_refl
              ltac:(intros H; vm_compute in H; discriminate H))
    as (_ & _ & Hgrant).
  rewrite (Hgrant (LoginExamples.granted (VNum 7200))
             ltac:(vm_compute; reflexivity) eq_refl eq_refl eq_refl eq_refl).
  reflexivity.
Defined.

(** One minute before the expiry the endpoint grants a new token without a
    refresh token or user: the old ones are kept. *)
Lemma refresh_attempt_outcome_witness :
  (Auth.refresh_attempt Json.parse Json.stringify Json.coerce Json.display
     AuthExamples.refresh_server AuthExamples.cfg
     (AuthExamples.session_with_refresh_token 1700000060000) (VStr "ref-1")
     (AuthExamples.world_with (AuthExamples.session_with_refresh_token 1700000060000)
        1700000000000)).1
  = Ok (Auth.AuthSession (VStr "tok-2") (VStr "ref-1") (VNum 1700007200030)
          AuthExamples.user).
Proof.
  destruct (refresh_attempt_outcome Json.parse Json.stringify Json.coerce Json.display
              AuthExamples.refresh_server AuthExamples.cfg
              (AuthExamples.session_with_refresh_token 1700000060000) (VStr "ref-1")
              (AuthExamples.world_with
                 (AuthExamples.session_with_refresh_token 1700000060000) 1700000000000))
    as (_ & _ & Hreply).
  destruct (Hreply _ eq_refl) as (_ & _ & _ & _ & Hgranted).
  destruct (Hgranted _ AuthExamples.renewed eq_refl eq_refl eq_refl eq_refl eq_refl)
    as (_ & Hnew).
  rewrite (Hnew _ eq_refl). reflexivity.
Defined.

(** A session stored ten minutes before its expiry: its token is read
    back. *)
Lemma stored_session_round_trip_witness :
  Auth.getAuthToken Json.parse Json.coerce
    (signed_in (Json.stringify (AuthExamples.session_with_refresh_token 1700000600000))
       (AuthExamples.signed_out_world 1700000000000))
  = (Ok (VStr "tok-1"),
     signed_in (Json.stringify (AuthExamples.session_with_refresh_token 1700000600000))
       (AuthExamples.signed_out_world 1700000000000)).
Proof.
  destruct (stored_session_round_trip Json.parse Json.stringify Json.coerce
              (AuthExamples.session_with_refresh_token 1700000600000)
              (VNum 1700000600000) (AuthExamples.signed_out_world 1700000000000)
              ltac:(vm_compute; reflexivity)
              ltac:(intros H; vm_compute in H; discriminate H)
              eq_refl)
    as (_ & Hfresh & _).
  destruct (Hfresh eq_refl) as (_ & Htoken & _). exact Htoken.
Defined.


(** The answer of the example transcript is liked. *)
Lemma handleFeedback_recorded_witness :
  {| Analytics.messageId := "m-2"; Analytics.rating := Analytics.like |}
  ∈ AnalyticsHook.feedbackRecords
      (ChatHook.hook (ChatHook.handleFeedback "m-2" Analytics.like ChatExamples.transcript)).
Proof.
  assert (ratings_recorded ChatExamples.transcript) as Hnone.
  { intros m r Hin Hf.
    apply elem_of_cons in Hin as [->|Hin]; [discriminate Hf|].
    apply elem_of_cons in Hin as [->|Hin]; [discriminate Hf|].
    by apply elem_of_nil in Hin. }
  destruct (handleFeedback_recorded "m-2" Analytics.like ChatExamples.transcript Hnone)
    as (Hrecorded & _).
  apply (Hrecorded (ChatExamples.answer (Some Analytics.like)) Analytics.like);
    [|reflexivity].
  apply elem_of_cons. right. apply elem_of_cons. left. reflexivity.
Defined.
